(** * SQL/JSON path executor (src/backend/utils/adt/jsonpath_exec.c)

    A shallow embedding of the jsonpath executor: the item model, the
    compiled path tree, the execution context, and the recursive evaluator
    with its strict/lax policy, its error suppression and its tri-state
    predicates.  The C functions keep their names.  Mutable state
    ([JsonPathExecContext]) is threaded through a small state-and-error
    monad; [ereport(ERROR)]/[elog(ERROR)] are the [Raised] outcome. *)

From Stdlib Require Import ZArith QArith Qround Qabs List String Bool Lia.
Import ListNotations.
#[local] Set Warnings "-register-all".
Local Open Scope string_scope.
Local Open Scope list_scope.
Local Open Scope Z_scope.

(** ** External collaborators

    The executor consumes PostgreSQL's numeric, float, datetime, collation
    and regex routines and the jsonb serializer.  None of them lives in
    jsonpath_exec.c, so they are taken as parameters. *)

Class PgTypes : Type := {
  Numeric : Type;   (* arbitrary-precision decimal (utils/numeric.h) *)
  float8 : Type;    (* C double *)
  Datum : Type      (* payload of a date/time/timestamp value *)
}.

(** jpiAdd .. jpiMod of JsonPathItemType. *)
Inductive ArithOp : Set := jpiAdd | jpiSub | jpiMul | jpiDiv | jpiMod.

(** jpiEqual .. jpiGreaterOrEqual of JsonPathItemType. *)
Inductive CmpOp : Set :=
  jpiEqual | jpiNotEqual | jpiLess | jpiGreater | jpiLessOrEqual | jpiGreaterOrEqual.

(** jpiAbs, jpiFloor, jpiCeiling of JsonPathItemType. *)
Inductive NumMethod : Set := jpiAbs | jpiFloor | jpiCeiling.

(** The five type oids a datetime item can carry. *)
Inductive DatetimeOid : Set :=
  DATEOID | TIMEOID | TIMETZOID | TIMESTAMPOID | TIMESTAMPTZOID.

(** ** Errors *)

Inductive ErrCode : Set :=
| ERRCODE_JSON_ARRAY_NOT_FOUND
| ERRCODE_JSON_OBJECT_NOT_FOUND
| ERRCODE_JSON_MEMBER_NOT_FOUND
| ERRCODE_JSON_NUMBER_NOT_FOUND
| ERRCODE_SINGLETON_JSON_ITEM_REQUIRED
| ERRCODE_NON_NUMERIC_JSON_ITEM
| ERRCODE_INVALID_JSON_SUBSCRIPT
| ERRCODE_INVALID_ARGUMENT_FOR_JSON_DATETIME_FUNCTION
| ERRCODE_UNDEFINED_OBJECT
| ERRCODE_INVALID_PARAMETER_VALUE.

(** What travels with a thrown error.  [ereport] keeps errcode, errdetail
    (the C format string, arguments not substituted) and errhint; [elog] is
    an internal error; [lib_error] is an error thrown from inside a numeric
    or datetime routine that was called without an error flag. *)
Inductive PgError : Set :=
| ereport (code : ErrCode) (errdetail : string) (errhint : string)
| elog (msg : string)
| lib_error (origin : string).

(** The errors that [throwErrors == false] is meant to keep from being
    thrown: the SQL/JSON data exceptions and the numeric/datetime errors. *)
Definition suppressible (e : PgError) : bool :=
  match e with
  | ereport ERRCODE_UNDEFINED_OBJECT _ _ => false
  | ereport ERRCODE_INVALID_PARAMETER_VALUE _ _ => false
  | ereport _ _ _ => true
  | elog _ => false
  | lib_error _ => true
  end.

Definition PG_INT32_MIN : Z := - 2 ^ 31.
Definition PG_UINT32_MAX : Z := 2 ^ 32 - 1.

(** Result of jsonpath predicate evaluation *)
Inductive JsonPathBool : Set := jpbFalse | jpbTrue | jpbUnknown.

(** Result of jsonpath expression evaluation *)
Inductive JsonPathExecResult : Set := jperOk | jperNotFound | jperError.

(** #define jperIsError(jper) ((jper) == jperError) *)
Definition jperIsError (jper : JsonPathExecResult) : bool :=
  match jper with jperError => true | _ => false end.

Definition jperIsOk (jper : JsonPathExecResult) : bool :=
  match jper with jperOk => true | _ => false end.

(** How a call ends.  [OutOfFuel] belongs to the model (the recursion is
    bounded by a fuel argument); [Undefined] stands for dereferencing a NULL
    pointer. *)
Inductive Outcome (A : Type) : Type :=
| Done (a : A)
| Raised (e : PgError)
| OutOfFuel
| Undefined.
Arguments Done {A} a.
Arguments Raised {A} e.
Arguments OutOfFuel {A}.
Arguments Undefined {A}.

(** Control flow of a loop body: go to the next iteration, [break], or
    [return r] from the enclosing function.  [continue] is [Next] with the
    state unchanged. *)
Inductive Ctl (S R : Type) : Type :=
| Next (s : S)
| Break (s : S)
| Return (r : R).
Arguments Next {S R} s.
Arguments Break {S R} s.
Arguments Return {S R} r.

Section Model.
Context {T : PgTypes}.

(** ** Item model *)

(** [union JsonItem]: the scalar variants of JsonbValue, a binary container
    (jbvBinary) and the virtual datetime item.  A container carries the
    address it lives at ([addr]), which is all that pointer subtraction in
    [.keyvalue()] observes.  [JArray] has the JB_FSCALAR flag of the
    pseudo-array that wraps a scalar document. *)
Inductive JsonItem : Type :=
| jbvNull
| jbvString (s : string)
| jbvNumeric (n : Numeric)
| jbvBool (b : bool)
| jbvBinary (jbc : JsonbContainer)
| jsiDatetime (value : Datum) (typid : DatetimeOid) (typmod : Z) (tz : Z)
with JsonbContainer : Type :=
| JArray (addr : Z) (scalar : bool) (elems : list JsonItem)
| JObject (addr : Z) (pairs : list (string * JsonItem)).

(** [enum jbvType] extended with jsiDatetime, as read through [jb->type]. *)
Inductive jbvType : Set :=
  tNull | tString | tNumeric | tBool | tArray | tObject | tBinary | tDatetime.

Definition jbvType_eqb (a b : jbvType) : bool :=
  match a, b with
  | tNull, tNull | tString, tString | tNumeric, tNumeric | tBool, tBool
  | tArray, tArray | tObject, tObject | tBinary, tBinary
  | tDatetime, tDatetime => true
  | _, _ => false
  end.

Definition item_type (jb : JsonItem) : jbvType :=
  match jb with
  | jbvNull => tNull
  | jbvString _ => tString
  | jbvNumeric _ => tNumeric
  | jbvBool _ => tBool
  | jbvBinary _ => tBinary
  | jsiDatetime _ _ _ _ => tDatetime
  end.

(** A Jsonb value is its root container. *)
Record Jsonb : Type := { jsonb_root : JsonbContainer }.

Definition container_addr (jbc : JsonbContainer) : Z :=
  match jbc with JArray a _ _ => a | JObject a _ => a end.

Definition JsonContainerIsScalar (jbc : JsonbContainer) : bool :=
  match jbc with JArray _ sc _ => sc | JObject _ _ => false end.

Definition JsonContainerIsArray (jbc : JsonbContainer) : bool :=
  match jbc with JArray _ _ _ => true | JObject _ _ => false end.

Definition JsonContainerIsObject (jbc : JsonbContainer) : bool :=
  match jbc with JArray _ _ _ => false | JObject _ _ => true end.

Definition JsonContainerSize (jbc : JsonbContainer) : Z :=
  match jbc with
  | JArray _ _ elems => Z.of_nat (List.length elems)
  | JObject _ pairs => Z.of_nat (List.length pairs)
  end.

(** The values a [JsonbIteratorNext(.., skipNested = true)] walk hands out as
    WJB_ELEM / WJB_VALUE, in document order. *)
Definition container_values (jbc : JsonbContainer) : list JsonItem :=
  match jbc with
  | JArray _ _ elems => elems
  | JObject _ pairs => map snd pairs
  end.

(** The (WJB_KEY, WJB_VALUE) pairs of the same walk; none for an array. *)
Definition container_pairs (jbc : JsonbContainer) : list (string * JsonItem) :=
  match jbc with
  | JArray _ _ _ => []
  | JObject _ pairs => pairs
  end.

(** findJsonbValueFromContainer(.., JB_FOBJECT, key) *)
Fixpoint find_pair (key : string) (pairs : list (string * JsonItem)) : option JsonItem :=
  match pairs with
  | [] => None
  | (k, v) :: rest => if String.eqb k key then Some v else find_pair key rest
  end.

Definition findJsonbValueFromContainer (jbc : JsonbContainer) (key : string)
  : option JsonItem :=
  match jbc with
  | JObject _ pairs => find_pair key pairs
  | JArray _ _ _ => None
  end.

(** getIthJsonbValueFromContainer: NULL unless an array with i < nElems. *)
Definition getIthJsonbValueFromContainer (jbc : JsonbContainer) (i : Z)
  : option JsonItem :=
  match jbc with
  | JArray _ _ elems => if i <? 0 then None else nth_error elems (Z.to_nat i)
  | JObject _ _ => None
  end.

(** JsonbExtractScalar *)
Definition JsonbExtractScalar (jbc : JsonbContainer) : option JsonItem :=
  match jbc with
  | JArray _ true (v :: _) => Some v
  | _ => None
  end.

(** JsonbInitBinary *)
Definition JsonbInitBinary (jb : Jsonb) : JsonItem := jbvBinary (jsonb_root jb).


(** ** Compiled path tree

    [JsonPathItem] (utils/jsonpath.h): one constructor per node type, with the
    part of the [content] union that node type uses, and the node that
    follows it in the chain ([nextPos], read by [jspGetNext]).  The six
    comparison types, the five binary arithmetic types and the three numeric
    methods each share one constructor and keep their type as an argument. *)
Inductive JsonPathItem : Type :=
| jpiNull (next : option JsonPathItem)
| jpiString (s : string) (next : option JsonPathItem)
| jpiNumeric (n : Numeric) (next : option JsonPathItem)
| jpiBool (b : bool) (next : option JsonPathItem)
| jpiAnd (left right : JsonPathItem) (next : option JsonPathItem)
| jpiOr (left right : JsonPathItem) (next : option JsonPathItem)
| jpiNot (arg : JsonPathItem) (next : option JsonPathItem)
| jpiIsUnknown (arg : JsonPathItem) (next : option JsonPathItem)
| jpiComparison (op : CmpOp) (left right : JsonPathItem) (next : option JsonPathItem)
| jpiArithm (op : ArithOp) (left right : JsonPathItem) (next : option JsonPathItem)
| jpiPlus (arg : JsonPathItem) (next : option JsonPathItem)
| jpiMinus (arg : JsonPathItem) (next : option JsonPathItem)
| jpiAnyArray (next : option JsonPathItem)
| jpiAnyKey (next : option JsonPathItem)
| jpiIndexArray (elems : list (JsonPathItem * option JsonPathItem))
                (next : option JsonPathItem)
| jpiAny (first last : Z) (next : option JsonPathItem)
| jpiKey (key : string) (next : option JsonPathItem)
| jpiCurrent (next : option JsonPathItem)
| jpiRoot (next : option JsonPathItem)
| jpiVariable (name : string) (next : option JsonPathItem)
| jpiFilter (arg : JsonPathItem) (next : option JsonPathItem)
| jpiExists (arg : JsonPathItem) (next : option JsonPathItem)
| jpiType (next : option JsonPathItem)
| jpiSize (next : option JsonPathItem)
| jpiNumericMethod (m : NumMethod) (next : option JsonPathItem)
| jpiDouble (next : option JsonPathItem)
| jpiDatetime (left right : option JsonPathItem) (next : option JsonPathItem)
| jpiKeyValue (next : option JsonPathItem)
| jpiLast (next : option JsonPathItem)
| jpiStartsWith (left right : JsonPathItem) (next : option JsonPathItem)
| jpiLikeRegex (expr : JsonPathItem) (pattern : string) (flags : Z)
               (next : option JsonPathItem).

(** jspGetNext: the next node of the chain, if any. *)
Definition jspGetNext (v : JsonPathItem) : option JsonPathItem :=
  match v with
  | jpiNull n | jpiString _ n | jpiNumeric _ n | jpiBool _ n
  | jpiAnd _ _ n | jpiOr _ _ n | jpiNot _ n | jpiIsUnknown _ n
  | jpiComparison _ _ _ n | jpiArithm _ _ _ n | jpiPlus _ n | jpiMinus _ n
  | jpiAnyArray n | jpiAnyKey n | jpiIndexArray _ n | jpiAny _ _ n
  | jpiKey _ n | jpiCurrent n | jpiRoot n | jpiVariable _ n
  | jpiFilter _ n | jpiExists _ n | jpiType n | jpiSize n
  | jpiNumericMethod _ n | jpiDouble n | jpiDatetime _ _ n | jpiKeyValue n
  | jpiLast n | jpiStartsWith _ _ n | jpiLikeRegex _ _ _ n => n
  end.

(** #define jspHasNext(jsp) ((jsp)->nextPos > 0) *)
Definition jspHasNext (jsp : JsonPathItem) : bool :=
  match jspGetNext jsp with Some _ => true | None => false end.

(** [JsonPath]: the header's JSONPATH_LAX bit and the root node (jspInit). *)
Record JsonPath : Type := { header_lax : bool; jspInit : JsonPathItem }.

(** The routines of other files the executor calls.  A routine with an
    [_opt_error]/[bool *error] interface yields [None] where it would set the
    flag (or throw, when called without one). *)
Class PgLib : Type := {
  (* utils/adt/numeric.c *)
  numeric_cmp : Numeric -> Numeric -> Z;
  int4_numeric : Z -> Numeric;
  int8_numeric : Z -> Numeric;
  float8_numeric : float8 -> Numeric;
  numeric_out : Numeric -> string;
  numeric_uminus : Numeric -> Numeric;
  numeric_abs : Numeric -> Numeric;
  numeric_floor : Numeric -> Numeric;
  numeric_ceil : Numeric -> Numeric;
  numeric_trunc : Numeric -> Z -> Numeric;
  numeric_int4_opt_error : Numeric -> option Z;
  numeric_add_opt_error : Numeric -> Numeric -> option Numeric;
  numeric_sub_opt_error : Numeric -> Numeric -> option Numeric;
  numeric_mul_opt_error : Numeric -> Numeric -> option Numeric;
  numeric_div_opt_error : Numeric -> Numeric -> option Numeric;
  numeric_mod_opt_error : Numeric -> Numeric -> option Numeric;
  (* utils/adt/float.c *)
  float8in_internal_opt_error : string -> option float8;
  isinf : float8 -> bool;
  (* utils/adt/varlena.c, with DEFAULT_COLLATION_OID *)
  varstr_cmp : string -> string -> Z;
  (* utils/adt/regexp.c and regex/regex.h; a pattern that does not compile
     is outside the model *)
  RE_compile_and_execute : string -> string -> Z -> bool;
  REG_ADVANCED : Z;
  REG_ICASE : Z;
  REG_NEWLINE : Z;
  REG_EXPANDED : Z;
  (* utils/adt/formatting.c: parse_datetime datetime fmt tzname strict tz
     gives (value, typid, typmod, tz) *)
  parse_datetime : string -> string -> option string -> bool -> Z ->
                   option (Datum * DatetimeOid * Z * Z);
  (* utils/adt/date.c, timestamp.c *)
  date_cmp : Datum -> Datum -> Z;
  time_cmp : Datum -> Datum -> Z;
  timetz_cmp : Datum -> Datum -> Z;
  timestamp_cmp : Datum -> Datum -> Z;
  make_timetz : Datum -> Z -> Datum;
  date2timestamp_internal : Datum -> option Datum;
  date2timestamptz_internal : Datum -> Z -> option Datum;
  timestamp2timestamptz_internal : Datum -> Z -> option Datum;
  (* utils/adt/jsonb_util.c: the Jsonb that JsonbValueToJsonb lays out for
     the object whose pairs were pushed in this order *)
  JsonbValueToJsonb : list (string * JsonItem) -> Jsonb
}.

Context {L : PgLib}.

(** ** Execution context and result types *)

(** "base object" and its "id" for .keyvalue() evaluation; [jbc = None] is
    the NULL pointer. *)
Record JsonBaseObjectInfo : Type :=
  { jbc : option JsonbContainer; id_of : Z }.

(** [JsonValueList]: the sequence of items; the singleton/list pair of the C
    struct is one list here. *)
Definition JsonValueList : Type := list JsonItem.

(** A [JsonValueList *found] argument: [None] is the NULL pointer of an
    existence probe. *)
Definition Found : Type := option JsonValueList.

(** [JsonPathExecContext].  [stack] is the chain of JsonItemStackEntry, top
    first.  The variable callback is always getJsonPathVariableFromJsonb
    (the only one executeUserFunc installs), so [vars] is the Jsonb it
    reads. *)
Record JsonPathExecContext : Type := {
  vars : option Jsonb;
  root : JsonItem;
  stack : list JsonItem;
  baseObject : JsonBaseObjectInfo;
  lastGeneratedObjectId : Z;
  innermostArraySize : Z;
  laxMode : bool;
  ignoreStructuralErrors : bool;
  throwErrors : bool
}.

Definition set_stack (st : list JsonItem) (c : JsonPathExecContext) :=
  {| vars := vars c; root := root c; stack := st; baseObject := baseObject c;
     lastGeneratedObjectId := lastGeneratedObjectId c;
     innermostArraySize := innermostArraySize c; laxMode := laxMode c;
     ignoreStructuralErrors := ignoreStructuralErrors c;
     throwErrors := throwErrors c |}.

Definition set_baseObject (b : JsonBaseObjectInfo) (c : JsonPathExecContext) :=
  {| vars := vars c; root := root c; stack := stack c; baseObject := b;
     lastGeneratedObjectId := lastGeneratedObjectId c;
     innermostArraySize := innermostArraySize c; laxMode := laxMode c;
     ignoreStructuralErrors := ignoreStructuralErrors c;
     throwErrors := throwErrors c |}.

Definition set_lastGeneratedObjectId (n : Z) (c : JsonPathExecContext) :=
  {| vars := vars c; root := root c; stack := stack c;
     baseObject := baseObject c; lastGeneratedObjectId := n;
     innermostArraySize := innermostArraySize c; laxMode := laxMode c;
     ignoreStructuralErrors := ignoreStructuralErrors c;
     throwErrors := throwErrors c |}.

Definition set_innermostArraySize (n : Z) (c : JsonPathExecContext) :=
  {| vars := vars c; root := root c; stack := stack c;
     baseObject := baseObject c;
     lastGeneratedObjectId := lastGeneratedObjectId c;
     innermostArraySize := n; laxMode := laxMode c;
     ignoreStructuralErrors := ignoreStructuralErrors c;
     throwErrors := throwErrors c |}.

Definition set_ignoreStructuralErrors (b : bool) (c : JsonPathExecContext) :=
  {| vars := vars c; root := root c; stack := stack c;
     baseObject := baseObject c;
     lastGeneratedObjectId := lastGeneratedObjectId c;
     innermostArraySize := innermostArraySize c; laxMode := laxMode c;
     ignoreStructuralErrors := b; throwErrors := throwErrors c |}.

Definition set_throwErrors (b : bool) (c : JsonPathExecContext) :=
  {| vars := vars c; root := root c; stack := stack c;
     baseObject := baseObject c;
     lastGeneratedObjectId := lastGeneratedObjectId c;
     innermostArraySize := innermostArraySize c; laxMode := laxMode c;
     ignoreStructuralErrors := ignoreStructuralErrors c; throwErrors := b |}.

(** strict/lax flags is decomposed into four [un]wrap/error flags *)
Definition jspStrictAbsenseOfErrors (cxt : JsonPathExecContext) : bool :=
  negb (laxMode cxt).
Definition jspAutoUnwrap (cxt : JsonPathExecContext) : bool := laxMode cxt.
Definition jspAutoWrap (cxt : JsonPathExecContext) : bool := laxMode cxt.
Definition jspIgnoreStructuralErrors (cxt : JsonPathExecContext) : bool :=
  ignoreStructuralErrors cxt.
Definition jspThrowErrors (cxt : JsonPathExecContext) : bool := throwErrors cxt.

(** ** The execution monad

    A C function that reads and writes [*cxt] and may throw is a function
    from the context to an [Outcome]. *)
Definition Exec (A : Type) : Type :=
  JsonPathExecContext -> Outcome (A * JsonPathExecContext).

Definition ret {A} (a : A) : Exec A := fun cxt => Done (a, cxt).

Definition bind {A B} (m : Exec A) (k : A -> Exec B) : Exec B :=
  fun cxt =>
    match m cxt with
    | Done (a, cxt') => k a cxt'
    | Raised e => Raised e
    | OutOfFuel => OutOfFuel
    | Undefined => Undefined
    end.

Definition raise {A} (e : PgError) : Exec A := fun _ => Raised e.
Definition undefined {A} : Exec A := fun _ => Undefined.
Definition out_of_fuel {A} : Exec A := fun _ => OutOfFuel.
Definition get : Exec JsonPathExecContext := fun cxt => Done (cxt, cxt).
Definition modify (f : JsonPathExecContext -> JsonPathExecContext) : Exec unit :=
  fun cxt => Done (tt, f cxt).

Notation "x <- m ;; k" := (bind m (fun x => k))
  (at level 61, m at next level, right associativity).
Notation "' p <- m ;; k" := (bind m (fun x => match x with p => k end))
  (at level 61, p pattern, m at next level, right associativity).
Notation "m ;;; k" := (bind m (fun _ => k))
  (at level 61, right associativity).

(** A [for]/[while] loop over [xs] with loop-carried locals [s]: [inl s] when
    the loop is left (exhausted or by [break]), [inr r] on [return r]. *)
Fixpoint foreach {X S R} (xs : list X) (body : X -> S -> Exec (Ctl S R)) (s : S)
  : Exec (S + R) :=
  match xs with
  | [] => ret (inl s)
  | x :: rest =>
      c <- body x s ;;
      match c with
      | Next s' => foreach rest body s'
      | Break s' => ret (inl s')
      | Return r => ret (inr r)
      end
  end.

(** The indices of [for (index = from; index <= to; index++)]. *)
Definition Zrange (from to : Z) : list Z :=
  map (fun k => from + Z.of_nat k) (seq 0 (Z.to_nat (to - from + 1))).

(** Convenience macro: return or throw error depending on context.
    [#define RETURN_ERROR(throw_error)]; [on_return] is what the enclosing
    function returns with jperError. *)
Definition RETURN_ERROR {A} (throw_error : PgError) (on_return : A) : Exec A :=
  cxt <- get ;;
  if jspThrowErrors cxt then raise throw_error else ret on_return.

(** ** Support functions for JsonPath execution *)

(** Returns jbv* type of of JsonbValue. Note, it never returns jbvBinary as is. *)
Definition JsonbType (jb : JsonItem) : jbvType :=
  match jb with
  | jbvBinary jbc => if JsonContainerIsObject jbc then tObject else tArray
  | _ => item_type jb
  end.

(** Returns the size of an array item, or -1 if item is not an array. *)
Definition JsonbArraySize (jb : JsonItem) : Z :=
  match jb with
  | jbvBinary jbc =>
      if JsonContainerIsArray jbc && negb (JsonContainerIsScalar jbc)
      then JsonContainerSize jbc else -1
  | _ => -1
  end.

(** Get scalar of given type or NULL on type mismatch *)
Definition getScalar (scalar : JsonItem) (type : jbvType) : option JsonItem :=
  if jbvType_eqb (item_type scalar) type then Some scalar else None.

Definition JsonValueListAppend (jvl : JsonValueList) (jbv : JsonItem)
  : JsonValueList := jvl ++ [jbv].

Definition JsonValueListLength (jvl : JsonValueList) : Z :=
  Z.of_nat (List.length jvl).

Definition JsonValueListIsEmpty (jvl : JsonValueList) : bool :=
  match jvl with [] => true | _ => false end.

Definition JsonValueListHead (jvl : JsonValueList) : option JsonItem := hd_error jvl.

(** Save base object and its id needed for the execution of .keyvalue(). *)
Definition setBaseObject (jbv : JsonItem) (id : Z) : Exec JsonBaseObjectInfo :=
  cxt <- get ;;
  let baseObject := baseObject cxt in
  modify (set_baseObject
            {| jbc := match jbv with jbvBinary c => Some c | _ => None end;
               id_of := id |}) ;;;
  ret baseObject.

Definition pushJsonItem (item : JsonItem) : Exec unit :=
  modify (fun cxt => set_stack (item :: stack cxt) cxt).

Definition popJsonItem : Exec unit :=
  cxt <- get ;;
  match stack cxt with
  | [] => undefined
  | _ :: parent => modify (set_stack parent)
  end.

(** getJsonPathVariableFromJsonb: [varName = None] is the probe call that
    counts the base objects; otherwise [Some (value, baseObject, 1)] for a
    variable that is found and [None] for the -1 return. *)
Definition getJsonPathVariableFromJsonb_count (vars : option Jsonb)
  : PgError + Z :=
  match vars with
  | Some v =>
      if negb (JsonContainerIsObject (jsonb_root v))
      then inl (ereport ERRCODE_INVALID_PARAMETER_VALUE
                  "jsonb containing jsonpath variables is not an object" "")
      else inr 1      (* count of base objects *)
  | None => inr 0
  end.

Definition getJsonPathVariableFromJsonb (vars : Jsonb) (varName : string)
  : option (JsonItem * JsonItem * Z) :=
  match findJsonbValueFromContainer (jsonb_root vars) varName with
  | None => None
  | Some v => Some (v, JsonbInitBinary vars, 1)
  end.

(** Get the value of variable passed to jsonpath executor *)
Definition getJsonPathVariable (varName : string) : Exec JsonItem :=
  cxt <- get ;;
  match vars cxt with
  | None => raise (ereport ERRCODE_UNDEFINED_OBJECT
                     "cannot find jsonpath variable '%s'" "")
  | Some vs =>
      match getJsonPathVariableFromJsonb vs varName with
      | None => raise (ereport ERRCODE_UNDEFINED_OBJECT
                         "cannot find jsonpath variable '%s'" "")
      | Some (value, baseObject, baseObjectId) =>
          (if 0 <? baseObjectId
           then (_ <- setBaseObject baseObject baseObjectId ;; ret tt)
           else ret tt) ;;;
          ret value
      end
  end.

(** Convert jsonpath's scalar or variable node to actual jsonb value. *)
Definition getJsonPathItem (item : JsonPathItem) : Exec JsonItem :=
  match item with
  | jpiNull _ => ret jbvNull
  | jpiBool b _ => ret (jbvBool b)
  | jpiNumeric n _ => ret (jbvNumeric n)
  | jpiString s _ => ret (jbvString s)
  | jpiVariable name _ => getJsonPathVariable name
  | _ => raise (elog "unexpected jsonpath item type")
  end.

(** Compare two numerics *)
Definition compareNumeric (a b : Numeric) : Z := numeric_cmp a b.

Definition time_to_timetz (time : Datum) (tz : Z) : option Datum :=
  if tz =? PG_INT32_MIN then None else Some (make_timetz time tz).

Definition date_to_timestamp (date : Datum) : option Datum :=
  date2timestamp_internal date.

Definition date_to_timestamptz (date : Datum) (tz : Z) : option Datum :=
  if tz =? PG_INT32_MIN then None else date2timestamptz_internal date tz.

Definition timestamp_to_timestamptz (val : Datum) (tz : Z) : option Datum :=
  if tz =? PG_INT32_MIN then None else timestamp2timestamptz_internal val tz.

(** Cross-type comparison of two datetime SQL/JSON items.  If items are
    uncomparable, 'error' flag is set: [None] here. *)
Definition compareDatetime (val1 : Datum) (typid1 : DatetimeOid) (tz1 : Z)
                           (val2 : Datum) (typid2 : DatetimeOid) (tz2 : Z)
  : option Z :=
  let with1 (c : option Datum) (cmpfunc : Datum -> Datum -> Z) :=
    match c with Some v1 => Some (cmpfunc v1 val2) | None => None end in
  let with2 (c : option Datum) (cmpfunc : Datum -> Datum -> Z) :=
    match c with Some v2 => Some (cmpfunc val1 v2) | None => None end in
  match typid1 with
  | DATEOID =>
      match typid2 with
      | DATEOID => Some (date_cmp val1 val2)
      | TIMESTAMPOID => with1 (date_to_timestamp val1) timestamp_cmp
      | TIMESTAMPTZOID => with1 (date_to_timestamptz val1 tz1) timestamp_cmp
      | TIMEOID | TIMETZOID => None
      end
  | TIMEOID =>
      match typid2 with
      | TIMEOID => Some (time_cmp val1 val2)
      | TIMETZOID => with1 (time_to_timetz val1 tz1) timetz_cmp
      | DATEOID | TIMESTAMPOID | TIMESTAMPTZOID => None
      end
  | TIMETZOID =>
      match typid2 with
      | TIMEOID => with2 (time_to_timetz val2 tz2) timetz_cmp
      | TIMETZOID => Some (timetz_cmp val1 val2)
      | DATEOID | TIMESTAMPOID | TIMESTAMPTZOID => None
      end
  | TIMESTAMPOID =>
      match typid2 with
      | DATEOID => with2 (date_to_timestamp val2) timestamp_cmp
      | TIMESTAMPOID => Some (timestamp_cmp val1 val2)
      | TIMESTAMPTZOID => with1 (timestamp_to_timestamptz val1 tz1) timestamp_cmp
      | TIMEOID | TIMETZOID => None
      end
  | TIMESTAMPTZOID =>
      match typid2 with
      | DATEOID => with2 (date_to_timestamptz val2 tz2) timestamp_cmp
      | TIMESTAMPOID => with2 (timestamp_to_timestamptz val2 tz2) timestamp_cmp
      | TIMESTAMPTZOID => Some (timestamp_cmp val1 val2)
      | TIMEOID | TIMETZOID => None
      end
  end.

(** The final [switch (op)] of compareItems, on the three-way result. *)
Definition compare_result (op : CmpOp) (cmp : Z) : JsonPathBool :=
  let res :=
    match op with
    | jpiEqual => cmp =? 0
    | jpiNotEqual => negb (cmp =? 0)
    | jpiLess => cmp <? 0
    | jpiGreater => cmp >? 0
    | jpiLessOrEqual => cmp <=? 0
    | jpiGreaterOrEqual => cmp >=? 0
    end in
  if res then jpbTrue else jpbFalse.

(** Compare two SQL/JSON items using comparison operation 'op'. *)
Definition compareItems (op : CmpOp) (jsi1 jsi2 : JsonItem) : JsonPathBool :=
  if negb (jbvType_eqb (item_type jsi1) (item_type jsi2)) then
    if jbvType_eqb (item_type jsi1) tNull || jbvType_eqb (item_type jsi2) tNull
    then
      (* Equality and order comparison of nulls to non-nulls returns
         always false, but inequality comparison returns true. *)
      match op with jpiNotEqual => jpbTrue | _ => jpbFalse end
    else
      (* Non-null items of different types are not comparable. *)
      jpbUnknown
  else
    match jsi1, jsi2 with
    | jbvNull, _ => compare_result op 0
    | jbvBool b1, jbvBool b2 =>
        compare_result op (if Bool.eqb b1 b2 then 0 else if b1 then 1 else -1)
    | jbvNumeric n1, jbvNumeric n2 => compare_result op (compareNumeric n1 n2)
    | jbvString s1, jbvString s2 =>
        match op with
        | jpiEqual => if String.eqb s1 s2 then jpbTrue else jpbFalse
        | _ => compare_result op (varstr_cmp s1 s2)
        end
    | jsiDatetime v1 t1 _ tz1, jsiDatetime v2 t2 _ tz2 =>
        match compareDatetime v1 t1 tz1 v2 t2 tz2 with
        | None => jpbUnknown
        | Some cmp => compare_result op cmp
        end
    | _, _ => jpbUnknown  (* jbvBinary: non-scalars are not comparable *)
    end.

(** [JsonPathPredicateCallback]: the right item is [None] for a unary
    predicate (like_regex). *)
Definition JsonPathPredicateCallback : Type :=
  JsonPathItem -> JsonItem -> option JsonItem -> JsonPathBool.

(** Comparison predicate callback. *)
Definition executeComparison : JsonPathPredicateCallback :=
  fun cmp lv rv =>
    match cmp, rv with
    | jpiComparison op _ _ _, Some r => compareItems op lv r
    | _, _ => jpbUnknown
    end.

(** STARTS_WITH predicate callback.
    Check if the 'whole' string starts from 'initial' string. *)
Definition executeStartsWith : JsonPathPredicateCallback :=
  fun jsp whole initial =>
    match getScalar whole tString with
    | Some (jbvString w) =>
        match initial with
        | Some i =>
            match getScalar i tString with
            | Some (jbvString ini) =>
                if String.prefix ini w then jpbTrue else jpbFalse
            | _ => jpbUnknown
            end
        | None => jpbUnknown
        end
    | _ => jpbUnknown
    end.

(** XQuery regex mode flags for LIKE_REGEX predicate *)
Definition JSP_REGEX_ICASE : Z := 1.
Definition JSP_REGEX_SLINE : Z := 2.
Definition JSP_REGEX_MLINE : Z := 4.
Definition JSP_REGEX_WSPACE : Z := 8.

Definition has_flag (flags f : Z) : bool := negb (Z.land flags f =? 0).

(** LIKE_REGEX predicate callback.  The regex text and the converted flags
    are recomputed on every call; the C code caches them in [param]. *)
Definition executeLikeRegex : JsonPathPredicateCallback :=
  fun jsp str rarg =>
    match getScalar str tString, jsp with
    | Some (jbvString s), jpiLikeRegex _ pattern flags _ =>
        let cflags := REG_ADVANCED in
        let cflags := if has_flag flags JSP_REGEX_ICASE
                      then Z.lor cflags REG_ICASE else cflags in
        let cflags := if has_flag flags JSP_REGEX_MLINE
                      then Z.lor cflags REG_NEWLINE else cflags in
        let cflags := if has_flag flags JSP_REGEX_SLINE
                      then Z.land cflags (Z.lnot REG_NEWLINE) else cflags in
        let cflags := if has_flag flags JSP_REGEX_WSPACE
                      then Z.lor cflags REG_EXPANDED else cflags in
        if RE_compile_and_execute pattern s cflags then jpbTrue else jpbFalse
    | _, _ => jpbUnknown
    end.

(** JsonItemTypeName, with JsonbTypeName (jsonb.c) for the jsonb types. *)
Definition JsonItemTypeName (jsi : JsonItem) : string :=
  match jsi with
  | jsiDatetime _ DATEOID _ _ => "date"
  | jsiDatetime _ TIMEOID _ _ => "time without time zone"
  | jsiDatetime _ TIMETZOID _ _ => "time with time zone"
  | jsiDatetime _ TIMESTAMPOID _ _ => "timestamp without time zone"
  | jsiDatetime _ TIMESTAMPTZOID _ _ => "timestamp with time zone"
  | jbvNull => "null"
  | jbvString _ => "string"
  | jbvNumeric _ => "number"
  | jbvBool _ => "boolean"
  | jbvBinary c => if JsonContainerIsObject c then "object" else "array"
  end.

(** ** The executor

    executeItemOptUnwrapTarget, executeBoolItem and executeAnyItem call each
    other and themselves on path nodes and on jsonb values that are not
    structurally related, so their recursive calls go through [self], which
    [unroll] below ties to the same functions with one unit of fuel less.
    Every other call is a direct call, as in the C file. *)

(** What an executor function hands back: its JsonPathExecResult and the
    [found] list after the call. *)
Definition Res : Type := (JsonPathExecResult * Found)%type.

Record Self : Type := {
  self_executeItemOptUnwrapTarget :
    JsonPathItem -> JsonItem -> Found -> bool -> Exec Res;
  self_executeBoolItem : JsonPathItem -> JsonItem -> bool -> Exec JsonPathBool;
  self_executeAnyItem :
    option JsonPathItem -> JsonbContainer -> Found -> Z -> Z -> Z -> bool ->
    bool -> Exec Res
}.

Definition found_list (found : Found) : JsonValueList :=
  match found with Some l => l | None => [] end.

Definition is_null_ptr (found : Found) : bool :=
  match found with Some _ => false | None => true end.

Definition is_binary (v : JsonItem) : bool :=
  match v with jbvBinary _ => true | _ => false end.

(** [JsonValueListLength(seq) != 1 || !(v = getScalar(JsonValueListHead(seq),
    type))] fails: the head, when the sequence is a singleton of that type. *)
Definition singleton_scalar (seq : JsonValueList) (type : jbvType)
  : option JsonItem :=
  if JsonValueListLength seq =? 1 then
    match JsonValueListHead seq with
    | Some h => getScalar h type
    | None => None
    end
  else None.

(** The pair loops of executePredicate.  [error] and [found] are the C
    locals; [inr] is a [return] from inside the loops. *)
Fixpoint predicate_rloop (strict : bool) (exec : JsonItem -> option JsonItem -> JsonPathBool)
    (lval : JsonItem) (rvals : list (option JsonItem)) (error found : bool)
  : (bool * bool) + JsonPathBool :=
  match rvals with
  | [] => inl (error, found)
  | rval :: rest =>
      match exec lval rval with
      | jpbUnknown =>
          if strict then inr jpbUnknown
          else predicate_rloop strict exec lval rest true found
      | jpbTrue =>
          if negb strict then inr jpbTrue
          else predicate_rloop strict exec lval rest error true
      | jpbFalse => predicate_rloop strict exec lval rest error found
      end
  end.

Fixpoint predicate_lloop (strict : bool) (exec : JsonItem -> option JsonItem -> JsonPathBool)
    (lvals : list JsonItem) (rvals : list (option JsonItem)) (error found : bool)
  : (bool * bool) + JsonPathBool :=
  match lvals with
  | [] => inl (error, found)
  | lval :: rest =>
      match predicate_rloop strict exec lval rvals error found with
      | inl (error', found') => predicate_lloop strict exec rest rvals error' found'
      | inr r => inr r
      end
  end.

(** Try to parse datetime text with the specified datetime template and
    default time-zone 'tzname'.  Datetime error is rethrown with SQL/JSON
    errcode if 'throwErrors' is true. *)
Definition tryToParseDatetime (fmt datetime : string) (tzname : option string)
    (strict : bool) (tz : Z) (throwErrors : bool)
  : Exec (option (Datum * DatetimeOid * Z * Z)) :=
  match parse_datetime datetime fmt tzname strict tz with
  | Some r => ret (Some r)
  | None => if throwErrors then raise (lib_error "parse_datetime") else ret None
  end.

(** The ISO formats that .datetime() tries when it has no template. *)
Definition fmt_str : list string :=
  [ "yyyy-mm-dd HH24:MI:SS TZH:TZM";
    "yyyy-mm-dd HH24:MI:SS TZH";
    "yyyy-mm-dd HH24:MI:SS";
    "yyyy-mm-dd";
    "HH24:MI:SS TZH:TZM";
    "HH24:MI:SS TZH";
    "HH24:MI:SS" ].

Definition BinaryArithmFunc : Type := Numeric -> Numeric -> option Numeric.

Section Executor.
Variable self : Self.

(** Execute jsonpath with automatic unwrapping of current item in lax mode. *)
Definition executeItem (jsp : JsonPathItem) (jb : JsonItem) (found : Found)
  : Exec Res :=
  cxt <- get ;;
  self_executeItemOptUnwrapTarget self jsp jb found (jspAutoUnwrap cxt).

(** Execute next jsonpath item if exists.  Otherwise put "v" to the "found"
    list if provided.  [next] is the caller's [&elem] buffer: [None] when the
    caller passes NULL or when its jspGetNext found nothing.  [copy] only
    chooses between the item and a palloc'ed copy of it. *)
Definition executeNextItem (cur next : option JsonPathItem) (v : JsonItem)
    (found : Found) (copy : bool) : Exec Res :=
  let next :=
    match cur with
    | None => next
    | Some c =>
        match next with
        | Some _ => if jspHasNext c then next else None
        | None => jspGetNext c
        end
    end in
  match next with
  | Some n => executeItem n v found
  | None =>
      ret (jperOk,
           match found with
           | Some l => Some (JsonValueListAppend l v)
           | None => None
           end)
  end.

(** Implementation of several jsonpath nodes:
    - jpiAny (.** accessor),
    - jpiAnyKey (.* accessor),
    - jpiAnyArray ([*] accessor) *)
Definition executeAnyItem (jsp : option JsonPathItem) (jbc : JsonbContainer)
    (found : Found) (level first last : Z)
    (ignoreStructuralErrors unwrapNext : bool) : Exec Res :=
  let res := jperNotFound in
  if level >? last then ret (res, found)
  else
    r <- foreach (container_values jbc)
      (fun v '(res, found) =>
         c <-
           (if (level >=? first)
               || ((first =? PG_UINT32_MAX) && (last =? PG_UINT32_MAX)
                   && negb (is_binary v))   (* leaves only requested *)
            then
              (* check expression *)
              match jsp with
              | Some j =>
                  '(res, found) <-
                    (if ignoreStructuralErrors then
                       cxt <- get ;;
                       let savedIgnoreStructuralErrors :=
                         jspIgnoreStructuralErrors cxt in
                       modify (set_ignoreStructuralErrors true) ;;;
                       r <- self_executeItemOptUnwrapTarget self j v found
                              unwrapNext ;;
                       modify (set_ignoreStructuralErrors
                                 savedIgnoreStructuralErrors) ;;;
                       ret r
                     else
                       self_executeItemOptUnwrapTarget self j v found
                         unwrapNext) ;;
                  if jperIsError res then ret (Break (res, found))
                  else if jperIsOk res && is_null_ptr found
                       then ret (Break (res, found))
                       else ret (Next (res, found))
              | None =>
                  match found with
                  | Some l => ret (Next (res, Some (JsonValueListAppend l v)))
                  | None => ret (Return (jperOk, found))
                  end
              end
            else ret (Next (res, found))) ;;
         match c with
         | Next (res, found) =>
             match v with
             | jbvBinary data =>
                 if level <? last then
                   '(res, found) <-
                     self_executeAnyItem self jsp data found (level + 1)
                       first last ignoreStructuralErrors unwrapNext ;;
                   if jperIsError res then ret (Break (res, found))
                   else if jperIsOk res && is_null_ptr found
                        then ret (Break (res, found))
                        else ret (Next (res, found))
                 else ret (Next (res, found))
             | _ => ret (Next (res, found))
             end
         | _ => ret c
         end)
      (res, found) ;;
    match r with inl s => ret s | inr r => ret r end.

(** Unwrap current array item and execute jsonpath for each of its elements. *)
Definition executeItemUnwrapTargetArray (jsp : option JsonPathItem)
    (jb : JsonItem) (found : Found) (unwrapElements : bool) : Exec Res :=
  match jb with
  | jbvBinary data => executeAnyItem jsp data found 1 1 1 false unwrapElements
  | _ => raise (elog "invalid jsonb array value type: %d")
  end.

(** Same as executeItem(), but when "unwrap == true" automatically unwraps
    each array item from the resulting sequence in lax mode. *)
Definition executeItemOptUnwrapResult (jsp : JsonPathItem) (jb : JsonItem)
    (unwrap : bool) (found : Found) : Exec Res :=
  cxt <- get ;;
  if unwrap && jspAutoUnwrap cxt then
    '(res, seq) <- executeItem jsp jb (Some []) ;;
    if jperIsError res then ret (res, found)
    else
      r <- foreach (found_list seq)
        (fun item (found : Found) =>
           if jbvType_eqb (JsonbType item) tArray then
             '(_, found) <- executeItemUnwrapTargetArray None item found false ;;
             ret (Next (R := Res) found)
           else
             match found with
             | Some l => ret (Next (Some (JsonValueListAppend l item)))
             | None => undefined
             end)
        found ;;
      match r with inl found => ret (jperOk, found) | inr r => ret r end
  else executeItem jsp jb found.

(** Same as executeItemOptUnwrapResult(), but with error suppression. *)
Definition executeItemOptUnwrapResultNoThrow (jsp : JsonPathItem)
    (jb : JsonItem) (unwrap : bool) (found : Found) : Exec Res :=
  cxt <- get ;;
  let throwErrors := throwErrors cxt in
  modify (set_throwErrors false) ;;;
  res <- executeItemOptUnwrapResult jsp jb unwrap found ;;
  modify (set_throwErrors throwErrors) ;;;
  ret res.

(** Execute unary or binary predicate.

    Predicates have existence semantics, because their operands are item
    sequences.  Pairs of items from the left and right operand's sequences are
    checked.  TRUE returned only if any pair satisfying the condition is found.
    In strict mode, even if the desired pair has already been found, all pairs
    still need to be examined to check the absence of errors.  If any error
    occurs, UNKNOWN (analogous to SQL NULL) is returned. *)
Definition executePredicate (pred larg : JsonPathItem)
    (rarg : option JsonPathItem) (jb : JsonItem) (unwrapRightArg : bool)
    (exec : JsonPathPredicateCallback) : Exec JsonPathBool :=
  (* Left argument is always auto-unwrapped. *)
  '(res, lseq) <- executeItemOptUnwrapResultNoThrow larg jb true (Some []) ;;
  if jperIsError res then ret jpbUnknown
  else
    '(res, rseq) <-
      match rarg with
      | Some r =>
          (* Right argument is conditionally auto-unwrapped. *)
          executeItemOptUnwrapResultNoThrow r jb unwrapRightArg (Some [])
      | None => ret (res, Some [])
      end ;;
    if jperIsError res then ret jpbUnknown
    else
      cxt <- get ;;
      match predicate_lloop (jspStrictAbsenseOfErrors cxt) (exec pred)
              (found_list lseq)
              (match rarg with
               | Some _ => map Some (found_list rseq)
               | None => [None]
               end)
              false false
      with
      | inr r => ret r
      | inl (error, found) =>
          if found then ret jpbTrue         (* possible only in strict mode *)
          else if error then ret jpbUnknown (* possible only in lax mode *)
          else ret jpbFalse
      end.

(** Execute binary arithmetic expression on singleton numeric operands.
    Array operands are automatically unwrapped in lax mode.  [larg] and
    [rarg] are what jspGetLeftArg and jspGetRightArg read from [jsp]. *)
Definition executeBinaryArithmExpr (jsp larg rarg : JsonPathItem)
    (jb : JsonItem) (func : BinaryArithmFunc) (found : Found) : Exec Res :=
  '(jper, lseq) <- executeItemOptUnwrapResult larg jb true (Some []) ;;
  if jperIsError jper then ret (jper, found)
  else
    '(jper, rseq) <- executeItemOptUnwrapResult rarg jb true (Some []) ;;
    if jperIsError jper then ret (jper, found)
    else
      match singleton_scalar (found_list lseq) tNumeric with
      | Some (jbvNumeric lval) =>
          match singleton_scalar (found_list rseq) tNumeric with
          | Some (jbvNumeric rval) =>
              cxt <- get ;;
              match func lval rval with
              | None =>
                  if jspThrowErrors cxt then raise (lib_error "numeric")
                  else ret (jperError, found)
              | Some res =>
                  if negb (jspHasNext jsp) && is_null_ptr found
                  then ret (jperOk, found)
                  else executeNextItem (Some jsp) (jspGetNext jsp)
                         (jbvNumeric res) found false
              end
          | _ =>
              RETURN_ERROR
                (ereport ERRCODE_SINGLETON_JSON_ITEM_REQUIRED
                   "right operand of binary jsonpath operator %s is not a singleton numeric value" "")
                (jperError, found)
          end
      | _ =>
          RETURN_ERROR
            (ereport ERRCODE_SINGLETON_JSON_ITEM_REQUIRED
               "left operand of binary jsonpath operator %s is not a singleton numeric value" "")
            (jperError, found)
      end.

(** Execute unary arithmetic expression for each numeric item in its operand's
    sequence.  Array operand is automatically unwrapped in lax mode.  [func]
    is [None] for the NULL function pointer of unary plus. *)
Definition executeUnaryArithmExpr (jsp arg : JsonPathItem) (jb : JsonItem)
    (func : option (Numeric -> Numeric)) (found : Found) : Exec Res :=
  '(jper, seq) <- executeItemOptUnwrapResult arg jb true (Some []) ;;
  if jperIsError jper then ret (jper, found)
  else
    let jper := jperNotFound in
    let hasNext := jspHasNext jsp in
    r <- foreach (found_list seq)
      (fun val '(jper, found) =>
         match getScalar val tNumeric with
         | Some (jbvNumeric n) =>
             if is_null_ptr found && negb hasNext
             then ret (Return (jperOk, found))
             else
               let val :=
                 jbvNumeric (match func with Some f => f n | None => n end) in
               '(jper2, found) <-
                 executeNextItem (Some jsp) (jspGetNext jsp) val found false ;;
               if jperIsError jper2 then ret (Return (jper2, found))
               else if jperIsOk jper2 then
                      if is_null_ptr found then ret (Return (jperOk, found))
                      else ret (Next (jperOk, found))
                    else ret (Next (jper, found))
         | _ =>
             if is_null_ptr found && negb hasNext
             then ret (Next (jper, found)) (* skip non-numerics processing *)
             else
               r <- RETURN_ERROR
                      (ereport ERRCODE_JSON_NUMBER_NOT_FOUND
                         "operand of unary jsonpath operator %s is not a numeric value" "")
                      (jperError, found) ;;
               ret (Return r)
         end)
      (jper, found) ;;
    match r with inl s => ret s | inr r => ret r end.

(** Execute numeric item methods (.abs(), .floor(), .ceil()) using the specified
    user function 'func'. *)
Definition executeNumericItemMethod (jsp : JsonPathItem) (jb : JsonItem)
    (unwrap : bool) (func : Numeric -> Numeric) (found : Found) : Exec Res :=
  if unwrap && jbvType_eqb (JsonbType jb) tArray
  then executeItemUnwrapTargetArray (Some jsp) jb found false
  else
    match getScalar jb tNumeric with
    | Some (jbvNumeric n) =>
        let datum := func n in
        if negb (jspHasNext jsp) && is_null_ptr found then ret (jperOk, found)
        else executeNextItem (Some jsp) (jspGetNext jsp) (jbvNumeric datum)
               found false
    | _ =>
        RETURN_ERROR
          (ereport ERRCODE_NON_NUMERIC_JSON_ITEM
             "jsonpath item method .%s() can only be applied to a numeric value" "")
          (jperError, found)
    end.

(** The object [{ "key": key, "value": value, "id": id }] that .keyvalue()
    builds with pushJsonbValue and serializes with JsonbValueToJsonb. *)
Definition keyvalue_object (key : string) (val idval : JsonItem) : JsonItem :=
  JsonbInitBinary
    (JsonbValueToJsonb [("key", jbvString key); ("value", val); ("id", idval)]).

Definition base_addr (b : JsonBaseObjectInfo) : Z :=
  match jbc b with Some c => container_addr c | None => 0 end.

(** Implementation of .keyvalue() method.

    "id" field is an object identifier which is constructed from the two parts:
    base object id and its binary offset in base object's jsonb:
    id = 10000000000 * base_object_id + obj_offset_in_base_object *)
Definition executeKeyValueMethod (jsp : JsonPathItem) (jb : JsonItem)
    (found : Found) : Exec Res :=
  let res := jperNotFound in
  match jb with
  | jbvBinary jbc =>
      if negb (jbvType_eqb (JsonbType jb) tObject) then
        RETURN_ERROR
          (ereport ERRCODE_JSON_OBJECT_NOT_FOUND
             "jsonpath item method .%s() can only be applied to an object" "")
          (jperError, found)
      else if JsonContainerSize jbc =? 0 then
        ret (jperNotFound, found)      (* no key-value pairs *)
      else
        let hasNext := jspHasNext jsp in
        cxt <- get ;;
        (* construct object id from its base object and offset inside that *)
        let id := container_addr jbc - base_addr (baseObject cxt) in
        let id := id + id_of (baseObject cxt) * 10000000000 in
        let idval := jbvNumeric (int8_numeric id) in
        r <- foreach (container_pairs jbc)
          (fun '(key, val) '(res, found) =>
             let res := jperOk in
             if negb hasNext && is_null_ptr found then ret (Break (res, found))
             else
               let obj := keyvalue_object key val idval in
               cxt <- get ;;
               modify (set_lastGeneratedObjectId
                         (lastGeneratedObjectId cxt + 1)) ;;;
               baseObject <- setBaseObject obj (lastGeneratedObjectId cxt) ;;
               '(res, found) <-
                 executeNextItem (Some jsp) (jspGetNext jsp) obj found true ;;
               modify (set_baseObject baseObject) ;;;
               if jperIsError res then ret (Return (res, found))
               else if jperIsOk res && is_null_ptr found
                    then ret (Break (res, found))
                    else ret (Next (res, found)))
          (res, found) ;;
        match r with inl s => ret s | inr r => ret r end
  | _ =>
      RETURN_ERROR
        (ereport ERRCODE_JSON_OBJECT_NOT_FOUND
           "jsonpath item method .%s() can only be applied to an object" "")
        (jperError, found)
  end.

(** Convert boolean execution status 'res' to a boolean JSON item and execute
    next jsonpath. *)
Definition appendBoolResult (jsp : JsonPathItem) (found : Found)
    (res : JsonPathBool) : Exec Res :=
  if negb (jspHasNext jsp) && is_null_ptr found
  then ret (jperOk, found)   (* found singleton boolean value *)
  else
    let jsi :=
      match res with
      | jpbUnknown => jbvNull
      | jpbTrue => jbvBool true
      | jpbFalse => jbvBool false
      end in
    executeNextItem (Some jsp) (jspGetNext jsp) jsi found true.

(** Execute array subscript expression and convert resulting numeric item to
    the integer type with truncation. *)
Definition getArrayIndex (jsp : JsonPathItem) (jb : JsonItem)
  : Exec (JsonPathExecResult * Z) :=
  '(res, found) <- executeItem jsp jb (Some []) ;;
  if jperIsError res then ret (res, 0)
  else
    match singleton_scalar (found_list found) tNumeric with
    | Some (jbvNumeric n) =>
        let numeric_index := numeric_trunc n 0 in
        match numeric_int4_opt_error numeric_index with
        | Some index => ret (jperOk, index)
        | None =>
            RETURN_ERROR
              (ereport ERRCODE_INVALID_JSON_SUBSCRIPT
                 "jsonpath array subscript is out of integer range" "")
              (jperError, 0)
        end
    | _ =>
        RETURN_ERROR
          (ereport ERRCODE_INVALID_JSON_SUBSCRIPT
             "jsonpath array subscript is not a singleton numeric value" "")
          (jperError, 0)
    end.

(** Execute boolean-valued jsonpath expression. *)
Definition executeBoolItem (jsp : JsonPathItem) (jb : JsonItem)
    (canHaveNext : bool) : Exec JsonPathBool :=
  if negb canHaveNext && jspHasNext jsp then
    raise (elog "boolean jsonpath item cannot have next item")
  else
    match jsp with
    | jpiAnd larg rarg _ =>
        res <- self_executeBoolItem self larg jb false ;;
        match res with
        | jpbFalse => ret jpbFalse
        | _ =>
            (* SQL/JSON says that we should check second arg in case of
               jperError *)
            res2 <- self_executeBoolItem self rarg jb false ;;
            ret (match res2 with jpbTrue => res | _ => res2 end)
        end
    | jpiOr larg rarg _ =>
        res <- self_executeBoolItem self larg jb false ;;
        match res with
        | jpbTrue => ret jpbTrue
        | _ =>
            res2 <- self_executeBoolItem self rarg jb false ;;
            ret (match res2 with jpbFalse => res | _ => res2 end)
        end
    | jpiNot larg _ =>
        res <- self_executeBoolItem self larg jb false ;;
        match res with
        | jpbUnknown => ret jpbUnknown
        | jpbTrue => ret jpbFalse
        | jpbFalse => ret jpbTrue
        end
    | jpiIsUnknown larg _ =>
        res <- self_executeBoolItem self larg jb false ;;
        ret (match res with jpbUnknown => jpbTrue | _ => jpbFalse end)
    | jpiComparison _ larg rarg _ =>
        executePredicate jsp larg (Some rarg) jb true executeComparison
    | jpiStartsWith larg rarg _ =>      (* 'whole STARTS WITH initial' *)
        executePredicate jsp larg (Some rarg) jb false executeStartsWith
    | jpiLikeRegex larg _ _ _ =>  (* 'expr LIKE_REGEX pattern FLAGS flags' *)
        executePredicate jsp larg None jb false executeLikeRegex
    | jpiExists larg _ =>
        cxt <- get ;;
        if jspStrictAbsenseOfErrors cxt then
          (* In strict mode we must get a complete list of values to
             check that there are no errors at all. *)
          '(res, vals) <-
            executeItemOptUnwrapResultNoThrow larg jb false (Some []) ;;
          if jperIsError res then ret jpbUnknown
          else ret (if JsonValueListIsEmpty (found_list vals)
                    then jpbFalse else jpbTrue)
        else
          '(res, _) <- executeItemOptUnwrapResultNoThrow larg jb false None ;;
          if jperIsError res then ret jpbUnknown
          else ret (if jperIsOk res then jpbTrue else jpbFalse)
    | _ => raise (elog "invalid boolean jsonpath item type: %d")
    end.

(** Execute nested (filters etc.) boolean expression pushing current SQL/JSON
    item onto the stack. *)
Definition executeNestedBoolItem (jsp : JsonPathItem) (jb : JsonItem)
  : Exec JsonPathBool :=
  pushJsonItem jb ;;;
  res <- executeBoolItem jsp jb false ;;
  popJsonItem ;;;
  ret res.

(** The jpiIndexArray case of executeItemOptUnwrapTarget.  A [return] from
    inside the loops leaves without restoring cxt->innermostArraySize; a
    [break] restores it. *)
Definition executeIndexArray (jsp : JsonPathItem)
    (elems : list (JsonPathItem * option JsonPathItem)) (jb : JsonItem)
    (found : Found) : Exec Res :=
  let res := jperNotFound in
  cxt <- get ;;
  if jbvType_eqb (JsonbType jb) tArray || jspAutoWrap cxt then
    let saved_innermostArraySize := innermostArraySize cxt in
    let size := JsonbArraySize jb in
    let singleton := size <? 0 in
    let hasNext := jspHasNext jsp in
    let size := if singleton then 1 else size in
    modify (set_innermostArraySize size) ;;;   (* for LAST evaluation *)
    r <- foreach elems
      (fun '(from, to) '(res, found) =>
         '(res, index_from) <- getArrayIndex from jb ;;
         if jperIsError res then ret (Break (res, found))
         else
           '(res, index_to) <-
             match to with
             | Some to => getArrayIndex to jb      (* range *)
             | None => ret (res, index_from)
             end ;;
           if jperIsError res then ret (Break (res, found))
           else
             cxt <- get ;;
             if negb (jspIgnoreStructuralErrors cxt)
                && ((index_from <? 0) || (index_from >? index_to)
                    || (index_to >=? size))
             then
               r <- RETURN_ERROR
                      (ereport ERRCODE_INVALID_JSON_SUBSCRIPT
                         "jsonpath array subscript is out of bounds" "")
                      (jperError, found) ;;
               ret (Return r)
             else
               let index_from := if index_from <? 0 then 0 else index_from in
               let index_to :=
                 if index_to >=? size then size - 1 else index_to in
               let res := jperNotFound in
               r <- foreach (Zrange index_from index_to)
                 (fun index '(res, found) =>
                    match
                      (if singleton then Some jb
                       else match jb with
                            | jbvBinary data =>
                                getIthJsonbValueFromContainer data index
                            | _ => None
                            end)
                    with
                    | None => ret (Next (res, found))     (* continue *)
                    | Some jsi =>
                        if negb hasNext && is_null_ptr found
                        then ret (Return (jperOk, found))
                        else
                          '(res, found) <-
                            executeNextItem (Some jsp) (jspGetNext jsp) jsi
                              found singleton ;;
                          if jperIsError res then ret (Break (res, found))
                          else if jperIsOk res && is_null_ptr found
                               then ret (Break (res, found))
                               else ret (Next (res, found))
                    end)
                 (res, found) ;;
               match r with
               | inr r => ret (Return r)
               | inl (res, found) =>
                   if jperIsError res then ret (Break (res, found))
                   else if jperIsOk res && is_null_ptr found
                        then ret (Break (res, found))
                        else ret (Next (res, found))
               end)
      (res, found) ;;
    match r with
    | inr r => ret r
    | inl s =>
        modify (set_innermostArraySize saved_innermostArraySize) ;;;
        ret s
    end
  else if negb (jspIgnoreStructuralErrors cxt) then
    RETURN_ERROR
      (ereport ERRCODE_JSON_ARRAY_NOT_FOUND
         "jsonpath array accessor can only be applied to an array" "")
      (jperError, found)
  else ret (res, found).

(** What a successful parse_datetime yields: value, typid, typmod, tz. *)
Definition Parsed : Type := (Datum * DatetimeOid * Z * Z)%type.

(** The loop of the jpiDatetime case that tries to recognize one of ISO
    formats: the first format that parses, if any. *)
Definition try_iso_formats (datetime : string) (tzname : option string) (tz : Z)
  : Exec (option Parsed) :=
  r <- foreach fmt_str
    (fun fmt (parsed : option Parsed) =>
       p <- tryToParseDatetime fmt datetime tzname true tz false ;;
       match p with
       | Some d => ret (Break (R := Res) (Some d))
       | None => ret (Next parsed)
       end)
    None ;;
  match r with inl parsed => ret parsed | inr _ => ret None end.

Definition invalid_datetime (errdetail errhint : string) : PgError :=
  ereport ERRCODE_INVALID_ARGUMENT_FOR_JSON_DATETIME_FUNCTION errdetail errhint.

(** The jpiDatetime case of executeItemOptUnwrapTarget.  [left] and [right]
    are content.args.left/right (the template and the time zone). *)
Definition executeDatetimeMethod (jsp : JsonPathItem)
    (left right : option JsonPathItem) (jb : JsonItem) (found : Found)
    (unwrap : bool) : Exec Res :=
  if unwrap && jbvType_eqb (JsonbType jb) tArray
  then executeItemUnwrapTargetArray (Some jsp) jb found false
  else
    match getScalar jb tString with
    | Some (jbvString datetime) =>
        (* [inr] is a return from the function; [inl] carries res, the
           parsed value, tzname and tz to the code after the template *)
        st <-
          match left with
          | Some (jpiString template_str _) =>
              t <-
                match right with
                | Some elem =>
                    '(tzres, tzlist) <- executeItem elem jb (Some []) ;;
                    if jperIsError tzres then ret (inr (tzres, found))
                    else
                      let not_singleton :=
                        RETURN_ERROR
                          (invalid_datetime "timezone argument of jsonpath item method .%s() is not a singleton string or number" "")
                          (jperError, found) in
                      if negb (JsonValueListLength (found_list tzlist) =? 1)
                      then r <- not_singleton ;; ret (inr r)
                      else
                        match JsonValueListHead (found_list tzlist) with
                        | Some (jbvString s) => ret (inl (Some s, PG_INT32_MIN))
                        | Some (jbvNumeric n) =>
                            match numeric_int4_opt_error n with
                            | Some tz =>
                                if tz =? PG_INT32_MIN then
                                  r <- RETURN_ERROR
                                         (invalid_datetime "timezone argument of jsonpath item method .%s() is out of integer range" "")
                                         (jperError, found) ;;
                                  ret (inr r)
                                else ret (inl (None, - tz))
                            | None =>
                                r <- RETURN_ERROR
                                       (invalid_datetime "timezone argument of jsonpath item method .%s() is out of integer range" "")
                                       (jperError, found) ;;
                                ret (inr r)
                            end
                        | _ => r <- not_singleton ;; ret (inr r)
                        end
                | None => ret (inl (None, PG_INT32_MIN))
                end ;;
              match t with
              | inr r => ret (inr r)
              | inl (tzname, tz) =>
                  if negb (String.eqb template_str "") then
                    cxt <- get ;;
                    p <- tryToParseDatetime template_str datetime tzname false
                           tz (jspThrowErrors cxt) ;;
                    match p with
                    | Some d => ret (inl (jperOk, Some d, tzname, tz))
                    | None => ret (inl (jperError, None, tzname, tz))
                    end
                  else ret (inl (jperNotFound, None, tzname, tz))
              end
          | Some _ =>
              raise (elog "invalid jsonpath item type for .datetime() argument")
          | None => ret (inl (jperNotFound, None, None, PG_INT32_MIN))
          end ;;
        match st with
        | inr r => ret r
        | inl (res, parsed, tzname, tz) =>
            st2 <-
              match res with
              | jperNotFound =>
                  (* Try to recognize one of ISO formats. *)
                  p <- try_iso_formats datetime tzname tz ;;
                  match p with
                  | Some d => ret (inl (jperOk, Some d))
                  | None =>
                      r <- RETURN_ERROR
                             (invalid_datetime "unrecognized datetime format"
                                "use datetime template argument for explicit format specification")
                             (jperError, found) ;;
                      ret (inr r)
                  end
              | _ => ret (inl (res, parsed))
              end ;;
            match st2 with
            | inr r => ret r
            | inl (res, parsed) =>
                if jperIsError res then ret (res, found)
                else
                  let hasNext := jspHasNext jsp in
                  if negb hasNext && is_null_ptr found then ret (res, found)
                  else
                    match parsed with
                    | Some (value, typid, typmod, tz) =>
                        executeNextItem (Some jsp) (jspGetNext jsp)
                          (jsiDatetime value typid typmod tz) found hasNext
                    | None => undefined
                    end
            end
        end
    | _ =>
        RETURN_ERROR
          (invalid_datetime "jsonpath item method .%s() is applied to not a string" "")
          (jperError, found)
    end.

Definition arithm_func (op : ArithOp) : BinaryArithmFunc :=
  match op with
  | jpiAdd => numeric_add_opt_error
  | jpiSub => numeric_sub_opt_error
  | jpiMul => numeric_mul_opt_error
  | jpiDiv => numeric_div_opt_error
  | jpiMod => numeric_mod_opt_error
  end.

Definition numeric_method_func (m : NumMethod) : Numeric -> Numeric :=
  match m with
  | jpiAbs => numeric_abs
  | jpiFloor => numeric_floor
  | jpiCeiling => numeric_ceil
  end.

(** Main jsonpath executor function: walks on jsonpath structure, finds
    relevant parts of jsonb and evaluates expressions over them.
    When 'unwrap' is true current SQL/JSON item is unwrapped if it is an array.
    check_stack_depth() and CHECK_FOR_INTERRUPTS() are not modelled. *)
Definition executeItemOptUnwrapTarget (jsp : JsonPathItem) (jb : JsonItem)
    (found : Found) (unwrap : bool) : Exec Res :=
  let res := jperNotFound in
  match jsp with
  (* all boolean item types: *)
  | jpiAnd _ _ _ | jpiOr _ _ _ | jpiNot _ _ | jpiIsUnknown _ _
  | jpiComparison _ _ _ _ | jpiExists _ _ | jpiStartsWith _ _ _
  | jpiLikeRegex _ _ _ _ =>
      st <- executeBoolItem jsp jb true ;;
      appendBoolResult jsp found st

  | jpiKey key _ =>
      if jbvType_eqb (JsonbType jb) tObject then
        match jb with
        | jbvBinary data =>
            match findJsonbValueFromContainer data key with
            | Some v => executeNextItem (Some jsp) None v found false
            | None =>
                cxt <- get ;;
                if negb (jspIgnoreStructuralErrors cxt) then
                  if negb (jspThrowErrors cxt) then ret (jperError, found)
                  else raise (ereport ERRCODE_JSON_MEMBER_NOT_FOUND
                                "JSON object does not contain key %s" "")
                else ret (res, found)
            end
        | _ => undefined
        end
      else if unwrap && jbvType_eqb (JsonbType jb) tArray then
        executeItemUnwrapTargetArray (Some jsp) jb found false
      else
        cxt <- get ;;
        if negb (jspIgnoreStructuralErrors cxt) then
          RETURN_ERROR
            (ereport ERRCODE_JSON_MEMBER_NOT_FOUND
               "jsonpath member accessor can only be applied to an object" "")
            (jperError, found)
        else ret (res, found)

  | jpiRoot _ =>
      cxt <- get ;;
      let jb := root cxt in
      baseObject <- setBaseObject jb 0 ;;
      r <- executeNextItem (Some jsp) None jb found true ;;
      modify (set_baseObject baseObject) ;;;
      ret r

  | jpiCurrent _ =>
      cxt <- get ;;
      match stack cxt with
      | item :: _ => executeNextItem (Some jsp) None item found true
      | [] => undefined
      end

  | jpiAnyArray _ =>
      cxt <- get ;;
      if jbvType_eqb (JsonbType jb) tArray then
        executeItemUnwrapTargetArray (jspGetNext jsp) jb found
          (jspAutoUnwrap cxt)
      else if jspAutoWrap cxt then
        executeNextItem (Some jsp) None jb found true
      else if negb (jspIgnoreStructuralErrors cxt) then
        RETURN_ERROR
          (ereport ERRCODE_JSON_ARRAY_NOT_FOUND
             "jsonpath wildcard array accessor can only be applied to an array" "")
          (jperError, found)
      else ret (res, found)

  | jpiIndexArray elems _ => executeIndexArray jsp elems jb found

  | jpiLast _ =>
      cxt <- get ;;
      let hasNext := jspHasNext jsp in
      if innermostArraySize cxt <? 0 then
        raise (elog "evaluating jsonpath LAST outside of array subscript")
      else if negb hasNext && is_null_ptr found then ret (jperOk, found)
      else
        let last := innermostArraySize cxt - 1 in
        let lastjsi := jbvNumeric (int4_numeric last) in
        executeNextItem (Some jsp) (jspGetNext jsp) lastjsi found hasNext

  | jpiAnyKey _ =>
      if jbvType_eqb (JsonbType jb) tObject then
        match jb with
        | jbvBinary data =>
            cxt <- get ;;
            executeAnyItem (jspGetNext jsp) data found 1 1 1 false
              (jspAutoUnwrap cxt)
        | _ => raise (elog "invalid jsonb object type: %d")
        end
      else if unwrap && jbvType_eqb (JsonbType jb) tArray then
        executeItemUnwrapTargetArray (Some jsp) jb found false
      else
        cxt <- get ;;
        if negb (jspIgnoreStructuralErrors cxt) then
          RETURN_ERROR
            (ereport ERRCODE_JSON_OBJECT_NOT_FOUND
               "jsonpath wildcard member accessor can only be applied to an object" "")
            (jperError, found)
        else ret (res, found)

  | jpiArithm op larg rarg _ =>
      executeBinaryArithmExpr jsp larg rarg jb (arithm_func op) found

  | jpiPlus arg _ => executeUnaryArithmExpr jsp arg jb None found

  | jpiMinus arg _ =>
      executeUnaryArithmExpr jsp arg jb (Some numeric_uminus) found

  | jpiFilter elem _ =>
      if unwrap && jbvType_eqb (JsonbType jb) tArray
      then executeItemUnwrapTargetArray (Some jsp) jb found false
      else
        st <- executeNestedBoolItem elem jb ;;
        match st with
        | jpbTrue => executeNextItem (Some jsp) None jb found true
        | _ => ret (jperNotFound, found)
        end

  | jpiAny first last _ =>
      let hasNext := jspHasNext jsp in
      (* first try without any intermediate steps *)
      st <-
        (if first =? 0 then
           cxt <- get ;;
           let savedIgnoreStructuralErrors := jspIgnoreStructuralErrors cxt in
           modify (set_ignoreStructuralErrors true) ;;;
           r <- executeNextItem (Some jsp) (jspGetNext jsp) jb found true ;;
           modify (set_ignoreStructuralErrors savedIgnoreStructuralErrors) ;;;
           ret r
         else ret (res, found)) ;;
      let '(res, found) := st in
      if (first =? 0) && jperIsOk res && is_null_ptr found then ret (res, found)
      else
        match jb with
        | jbvBinary data =>
            cxt <- get ;;
            executeAnyItem (jspGetNext jsp) data found 1 first last true
              (jspAutoUnwrap cxt)
        | _ => ret (res, found)
        end

  | jpiNull _ | jpiBool _ _ | jpiNumeric _ _ | jpiString _ _
  | jpiVariable _ _ =>
      let hasNext := jspHasNext jsp in
      if negb hasNext && is_null_ptr found then
        ret (jperOk, found)      (* skip evaluation *)
      else
        cxt <- get ;;
        let baseObject := baseObject cxt in
        v <- getJsonPathItem jsp ;;
        r <- executeNextItem (Some jsp) (jspGetNext jsp) v found hasNext ;;
        modify (set_baseObject baseObject) ;;;
        ret r

  | jpiType _ =>
      let jsi := jbvString (JsonItemTypeName jb) in
      executeNextItem (Some jsp) None jsi found true

  | jpiSize _ =>
      let size := JsonbArraySize jb in
      cxt <- get ;;
      if (size <? 0) && negb (jspAutoWrap cxt) then
        if negb (jspIgnoreStructuralErrors cxt) then
          RETURN_ERROR
            (ereport ERRCODE_JSON_ARRAY_NOT_FOUND
               "jsonpath item method .%s() can only be applied to an array" "")
            (jperError, found)
        else ret (res, found)
      else
        let size := if size <? 0 then 1 else size in
        let jb := jbvNumeric (int4_numeric size) in
        executeNextItem (Some jsp) None jb found false

  | jpiNumericMethod m _ =>
      executeNumericItemMethod jsp jb unwrap (numeric_method_func m) found

  | jpiDouble _ =>
      if unwrap && jbvType_eqb (JsonbType jb) tArray
      then executeItemUnwrapTargetArray (Some jsp) jb found false
      else
        match jb with
        | jbvNumeric n =>
            let tmp := numeric_out n in
            match float8in_internal_opt_error tmp with
            | None =>
                RETURN_ERROR
                  (ereport ERRCODE_NON_NUMERIC_JSON_ITEM
                     "jsonpath item method .%s() can only be applied to a numeric value" "")
                  (jperError, found)
            | Some _ => executeNextItem (Some jsp) None jb found true
            end
        | jbvString tmp =>
            (* cast string as double *)
            match float8in_internal_opt_error tmp with
            | Some val =>
                if isinf val then
                  RETURN_ERROR
                    (ereport ERRCODE_NON_NUMERIC_JSON_ITEM
                       "jsonpath item method .%s() can only be applied to a numeric value" "")
                    (jperError, found)
                else
                  executeNextItem (Some jsp) None
                    (jbvNumeric (float8_numeric val)) found true
            | None =>
                RETURN_ERROR
                  (ereport ERRCODE_NON_NUMERIC_JSON_ITEM
                     "jsonpath item method .%s() can only be applied to a numeric value" "")
                  (jperError, found)
            end
        | _ =>
            RETURN_ERROR
              (ereport ERRCODE_NON_NUMERIC_JSON_ITEM
                 "jsonpath item method .%s() can only be applied to a string or numeric value" "")
              (jperError, found)
        end

  | jpiDatetime larg rarg _ =>
      executeDatetimeMethod jsp larg rarg jb found unwrap

  | jpiKeyValue _ =>
      if unwrap && jbvType_eqb (JsonbType jb) tArray
      then executeItemUnwrapTargetArray (Some jsp) jb found false
      else executeKeyValueMethod jsp jb found
  end.

End Executor.

(** ** Tying the recursion *)

Definition out_of_fuel_self : Self :=
  {| self_executeItemOptUnwrapTarget := fun _ _ _ _ => out_of_fuel;
     self_executeBoolItem := fun _ _ _ => out_of_fuel;
     self_executeAnyItem := fun _ _ _ _ _ _ _ _ => out_of_fuel |}.

(** [unroll fuel] allows [fuel] nested recursive calls. *)
Fixpoint unroll (fuel : nat) : Self :=
  match fuel with
  | O => out_of_fuel_self
  | S n =>
      {| self_executeItemOptUnwrapTarget := executeItemOptUnwrapTarget (unroll n);
         self_executeBoolItem := executeBoolItem (unroll n);
         self_executeAnyItem := executeAnyItem (unroll n) |}
  end.

(** ** Interface to jsonpath executor *)

(** The context executeJsonPath sets up before it runs the path. *)
Definition initial_context (path : JsonPath) (vars : option Jsonb)
    (jsi : JsonItem) (nvars : Z) (throwErrors : bool) : JsonPathExecContext :=
  {| vars := vars;
     root := jsi;
     stack := [];
     baseObject := {| jbc := None; id_of := 0 |};
     (* 1 + number of base objects in vars *)
     lastGeneratedObjectId := 1 + nvars;
     innermostArraySize := -1;
     laxMode := header_lax path;
     ignoreStructuralErrors := header_lax path;
     throwErrors := throwErrors |}.

(** The part of executeJsonPath that runs in the context. *)
Definition executeJsonPath_run (self : Self) (jsp : JsonPathItem)
    (jsi : JsonItem) (result : Found) : Exec Res :=
  pushJsonItem jsi ;;;
  cxt <- get ;;
  if jspStrictAbsenseOfErrors cxt && is_null_ptr result then
    (* In strict mode we must get a complete list of values to check that
       there are no errors at all. *)
    '(res, vals) <- executeItem self jsp jsi (Some []) ;;
    if jperIsError res then ret (res, result)
    else ret (if JsonValueListIsEmpty (found_list vals)
              then jperNotFound else jperOk, result)
  else executeItem self jsp jsi result.

(** 'path' - jsonpath to be executed
    'vars' - variables to be substituted to jsonpath
    'json' - target document for jsonpath evaluation
    'throwErrors' - whether we should throw suppressible errors
    'result' - list to store result items into *)
Definition executeJsonPath (fuel : nat) (path : JsonPath) (vars : option Jsonb)
    (json : Jsonb) (throwErrors : bool) (result : Found) : Outcome Res :=
  let jsp := jspInit path in
  let jsi :=
    match JsonbExtractScalar (jsonb_root json) with
    | Some v => v
    | None => JsonbInitBinary json
    end in
  match getJsonPathVariableFromJsonb_count vars with
  | inl e => Raised e
  | inr nvars =>
      match executeJsonPath_run (unroll fuel) jsp jsi result
              (initial_context path vars jsi nvars throwErrors)
      with
      | Done (r, _) => Done r
      | Raised e => Raised e
      | OutOfFuel => OutOfFuel
      | Undefined => Undefined
      end
  end.

(** ** User interface to JsonPath executor *)

(** The two shapes in which the jsonb_path_* functions are called:
    (jsonb, jsonpath), the operator form, and
    (jsonb, jsonpath, vars jsonb, silent boolean). *)
Inductive FunctionCallInfo : Type :=
| fcinfo2 (jb : Jsonb) (jp : JsonPath)
| fcinfo4 (jb : Jsonb) (jp : JsonPath) (vars : Jsonb) (silent : bool).

Definition PG_NARGS (fcinfo : FunctionCallInfo) : Z :=
  match fcinfo with fcinfo2 _ _ => 2 | fcinfo4 _ _ _ _ => 4 end.

Definition PG_GETARG_JSONB_P_0 (fcinfo : FunctionCallInfo) : Jsonb :=
  match fcinfo with fcinfo2 jb _ => jb | fcinfo4 jb _ _ _ => jb end.

Definition PG_GETARG_JSONPATH_P_1 (fcinfo : FunctionCallInfo) : JsonPath :=
  match fcinfo with fcinfo2 _ jp => jp | fcinfo4 _ jp _ _ => jp end.

(** [JsonPathUserFuncContext], without fcinfo. *)
Record JsonPathUserFuncContext : Type := {
  uf_jb : Jsonb;
  uf_jp : JsonPath;
  uf_vars : option Jsonb;
  uf_found : JsonValueList;
  uf_silent : bool
}.

(** The 'vars' and 'silent' locals of executeUserFunc after the
    [if (PG_NARGS() == 4)]. *)
Definition user_func_vars_silent (fcinfo : FunctionCallInfo)
  : option Jsonb * bool :=
  let vars := None in
  let silent := true in
  match fcinfo with
  | fcinfo4 _ _ v s => (Some v, s)
  | fcinfo2 _ _ => (vars, silent)
  end.

(** Common code for jsonb_path_*(jsonb, jsonpath [, vars jsonb, silent bool])
    user functions.  [with_cxt] tells whether [cxt] is not NULL; the filled
    context comes back with the result. *)
Definition executeUserFunc (fuel : nat) (fcinfo : FunctionCallInfo)
    (with_cxt copy : bool)
  : Outcome (JsonPathExecResult * option JsonPathUserFuncContext) :=
  let jb := PG_GETARG_JSONB_P_0 fcinfo in
  let jp := PG_GETARG_JSONPATH_P_1 fcinfo in
  let '(vars, silent) := user_func_vars_silent fcinfo in
  match executeJsonPath fuel jp vars jb (negb silent)
          (if with_cxt then Some [] else None)
  with
  | Done (res, found) =>
      Done (res,
            if with_cxt
            then Some {| uf_jb := jb; uf_jp := jp; uf_vars := vars;
                         uf_found := found_list found; uf_silent := silent |}
            else None)
  | Raised e => Raised e
  | OutOfFuel => OutOfFuel
  | Undefined => Undefined
  end.

(** What a user function hands to SQL.  Items are shown before
    JsonItemToJsonb serializes them. *)
Inductive SqlResult : Type :=
| PG_RETURN_NULL
| PG_RETURN_BOOL (b : bool)
| PG_RETURN_JSONB_P (item : JsonItem)
| PG_RETURN_JSONB_ARRAY (items : JsonValueList)   (* wrapItemsInArray *)
| SRF_ROWS (rows : JsonValueList).

Definition map_outcome {A B} (f : A -> Outcome B) (o : Outcome A) : Outcome B :=
  match o with
  | Done a => f a
  | Raised e => Raised e
  | OutOfFuel => OutOfFuel
  | Undefined => Undefined
  end.

(** jsonb_path_exists
      Returns true if jsonpath returns at least one item for the specified
      jsonb value. *)
Definition jsonb_path_exists (fuel : nat) (fcinfo : FunctionCallInfo)
  : Outcome SqlResult :=
  map_outcome
    (fun '(res, _) =>
       if jperIsError res then Done PG_RETURN_NULL
       else Done (PG_RETURN_BOOL (jperIsOk res)))
    (executeUserFunc fuel fcinfo false false).

(** jsonb_path_match
      Returns jsonpath predicate result item for the specified jsonb value. *)
Definition jsonb_path_match (fuel : nat) (fcinfo : FunctionCallInfo)
  : Outcome SqlResult :=
  map_outcome
    (fun '(_, cxt) =>
       match cxt with
       | None => Undefined
       | Some cxt =>
           let fallthrough :=
             if negb (uf_silent cxt) then
               Raised (ereport ERRCODE_SINGLETON_JSON_ITEM_REQUIRED
                         "expression should return a singleton boolean" "")
             else Done PG_RETURN_NULL in
           if JsonValueListLength (uf_found cxt) =? 1 then
             match JsonValueListHead (uf_found cxt) with
             | Some (jbvBool b) => Done (PG_RETURN_BOOL b)
             | Some jbvNull => Done PG_RETURN_NULL
             | _ => fallthrough
             end
           else fallthrough
       end)
    (executeUserFunc fuel fcinfo true false).

(** jsonb_path_query
      Executes jsonpath for given jsonb document and returns result as
      rowset. *)
Definition jsonb_path_query (fuel : nat) (fcinfo : FunctionCallInfo)
  : Outcome SqlResult :=
  map_outcome
    (fun '(_, cxt) =>
       match cxt with
       | None => Undefined
       | Some cxt => Done (SRF_ROWS (uf_found cxt))
       end)
    (executeUserFunc fuel fcinfo true true).

(** jsonb_path_query_array
      Executes jsonpath for given jsonb document and returns result as
      jsonb array. *)
Definition jsonb_path_query_array (fuel : nat) (fcinfo : FunctionCallInfo)
  : Outcome SqlResult :=
  map_outcome
    (fun '(_, cxt) =>
       match cxt with
       | None => Undefined
       | Some cxt => Done (PG_RETURN_JSONB_ARRAY (uf_found cxt))
       end)
    (executeUserFunc fuel fcinfo true false).

(** jsonb_path_query_first
      Executes jsonpath for given jsonb document and returns first result
      item.  If there are no items, NULL returned. *)
Definition jsonb_path_query_first (fuel : nat) (fcinfo : FunctionCallInfo)
  : Outcome SqlResult :=
  map_outcome
    (fun '(_, cxt) =>
       match cxt with
       | None => Undefined
       | Some cxt =>
           if JsonValueListLength (uf_found cxt) >=? 1 then
             match JsonValueListHead (uf_found cxt) with
             | Some jb => Done (PG_RETURN_JSONB_P jb)
             | None => Done PG_RETURN_NULL
             end
           else Done PG_RETURN_NULL
       end)
    (executeUserFunc fuel fcinfo true false).

End Model.

Notation "x <- m ;; k" := (bind m (fun x => k))
  (at level 61, m at next level, right associativity).
Notation "' p <- m ;; k" := (bind m (fun x => match x with p => k end))
  (at level 61, p pattern, m at next level, right associativity).
Notation "m ;;; k" := (bind m (fun _ => k))
  (at level 61, right associativity).

(** ** The result list as the C struct has it

    [JsonValueList] with its singleton/list pair and its iterator; the
    executor above works on the sequence these denote. *)
Module JsonValueListStruct.
Section Definitions.
Context {T : PgTypes}.

(** [struct JsonValueList]: a sequence of at most one item lives in
    [singleton]; a longer one in [list] (a PostgreSQL List, NIL when
    empty). *)
Record JsonValueList : Type := {
  singleton : option JsonItem;
  list : List.list JsonItem
}.

(** [JsonValueList found = {0}] *)
Definition empty : JsonValueList := {| singleton := None; list := [] |}.

Definition JsonValueListAppend (jvl : JsonValueList) (jbv : JsonItem)
  : JsonValueList :=
  match singleton jvl with
  | Some s => {| singleton := None; list := [s; jbv] |}    (* list_make2 *)
  | None =>
      match list jvl with
      | [] => {| singleton := Some jbv; list := list jvl |}
      | _ => {| singleton := singleton jvl; list := list jvl ++ [jbv] |}
      end
  end.

Definition JsonValueListLength (jvl : JsonValueList) : Z :=
  match singleton jvl with
  | Some _ => 1
  | None => Z.of_nat (List.length (list jvl))
  end.

Definition JsonValueListIsEmpty (jvl : JsonValueList) : bool :=
  match singleton jvl with
  | Some _ => false
  | None => Z.of_nat (List.length (list jvl)) <=? 0
  end.

(** [linitial] of NIL dereferences a NULL cell: [None]. *)
Definition JsonValueListHead (jvl : JsonValueList) : option JsonItem :=
  match singleton jvl with
  | Some s => Some s
  | None => hd_error (list jvl)
  end.

Definition JsonValueListGetList (jvl : JsonValueList) : List.list JsonItem :=
  match singleton jvl with
  | Some s => [s]            (* list_make1 *)
  | None => list jvl
  end.

(** [JsonValueListIterator]: the item to hand out next and the list cells
    after it ([next = []] is the NULL cell pointer). *)
Record JsonValueListIterator : Type := {
  value : option JsonItem;
  next : List.list JsonItem
}.

Definition JsonValueListInitIterator (jvl : JsonValueList)
  : JsonValueListIterator :=
  match singleton jvl with
  | Some s => {| value := Some s; next := [] |}
  | None =>
      match list jvl with
      | x :: rest => {| value := Some x; next := rest |}
      | [] => {| value := None; next := [] |}
      end
  end.

(** Get the next item from the sequence advancing iterator. *)
Definition JsonValueListNext (jvl : JsonValueList)
    (it : JsonValueListIterator)
  : option JsonItem * JsonValueListIterator :=
  let result := value it in
  match next it with
  | x :: rest => (result, {| value := Some x; next := rest |})
  | [] => (result, {| value := None; next := next it |})
  end.

(** [while ((jsi = JsonValueListNext(items, &it)))], the items it visits;
    [fuel] bounds the number of calls. *)
Fixpoint iterate (fuel : nat) (items : JsonValueList)
    (it : JsonValueListIterator) : List.list JsonItem :=
  match fuel with
  | O => []
  | S n =>
      match JsonValueListNext items it with
      | (Some jsi, it') => jsi :: iterate n items it'
      | (None, _) => []
      end
  end.

End Definitions.
End JsonValueListStruct.

(** ** Items as text, and the remaining user functions *)

(** The routines of other files that turn an item into text. *)
Class PgText {T : PgTypes} : Type := {
  (* utils/adt/jsonb.c: the JSON text of a container *)
  JsonbToCString : JsonbContainer -> string;
  (* utils/adt/json.c: JsonEncodeDateTime(NULL, value, typid, &tz) *)
  JsonEncodeDateTime : Datum -> DatetimeOid -> Z -> string
}.

Section Text.
Context {T : PgTypes} {L : PgLib} {X : PgText}.

(** Convert jsonb to a C-string stripping quotes from scalar strings. *)
Fixpoint JsonbValueUnquote (jbv : JsonItem) : Outcome string :=
  match jbv with
  | jbvString s => Done s
  | jbvBool b => Done (if b then "true" else "false")
  | jbvNumeric n => Done (numeric_out n)
  | jbvNull => Done "null"
  | jbvBinary jbc =>
      match jbc with
      | JArray _ true (jbvbuf :: _) =>    (* JsonbExtractScalar *)
          JsonbValueUnquote jbvbuf
      | _ => Done (JsonbToCString jbc)
      end
  | jsiDatetime _ _ _ _ => Raised (elog "unexpected jsonb value type: %d")
  end.

Definition JsonItemUnquote (jsi : JsonItem) : Outcome string :=
  match jsi with
  | jsiDatetime value typid _ tz => Done (JsonEncodeDateTime value typid tz)
  | _ => JsonbValueUnquote jsi
  end.

(** The text the C string and its length denote. *)
Definition JsonItemUnquoteText (jsi : JsonItem) : Outcome string :=
  JsonItemUnquote jsi.

(** jsonb_path_query_first_text
      Executes jsonpath for given jsonb document and returns first result
      item as text.  If there are no items, NULL returned ([None]). *)
Definition jsonb_path_query_first_text (fuel : nat) (fcinfo : FunctionCallInfo)
  : Outcome (option string) :=
  map_outcome
    (fun '(_, cxt) =>
       match cxt with
       | None => Undefined
       | Some cxt =>
           if JsonValueListLength (uf_found cxt) >=? 1 then
             match JsonValueListHead (uf_found cxt) with
             | Some jb => map_outcome (fun txt => Done (Some txt))
                            (JsonItemUnquoteText jb)
             | None => Undefined
             end
           else Done None
       end)
    (executeUserFunc fuel fcinfo true false).

(** jsonb_path_exists_opr: "jsonb @? jsonpath", just calls the other one. *)
Definition jsonb_path_exists_opr (fuel : nat) (fcinfo : FunctionCallInfo)
  : Outcome SqlResult := jsonb_path_exists fuel fcinfo.

(** jsonb_path_match_opr: "jsonb @@ jsonpath", just calls the other one. *)
Definition jsonb_path_match_opr (fuel : nat) (fcinfo : FunctionCallInfo)
  : Outcome SqlResult := jsonb_path_match fuel fcinfo.

End Text.

(** ** An executable instance of the external routines

    Numerics are rationals, which covers the integer and decimal literals of
    the examples below exactly.  Datetime values are integers and no template
    parses; no string parses as a double; regular expressions match nothing.
    The generated [.keyvalue()] object is laid out at address 8192 with its
    pairs in jsonb's key order (shorter keys first, then bytewise).  The examples use none of the
    stubbed routines. *)
Module Test.

#[export] Instance types : PgTypes :=
  {| Numeric := Q; float8 := Q; Datum := Z |}.

Definition Qcmp (a b : Q) : Z :=
  match Qcompare a b with Lt => -1 | Eq => 0 | Gt => 1 end.

Definition Qtrunc (q : Q) : Z :=
  if Qle_bool 0 q then Qfloor q else Qceiling q.

Definition Qround_half_away (q : Q) : Z :=
  if Qle_bool 0 q then Qfloor (q + (1 # 2)) else Qceiling (q - (1 # 2)).

Definition Qint4 (q : Q) : option Z :=
  let z := Qround_half_away q in
  if (PG_INT32_MIN <=? z) && (z <? 2 ^ 31) then Some z else None.

Definition Qdiv_opt (a b : Q) : option Q :=
  if Qeq_bool b 0 then None else Some (a / b)%Q.

Definition Qmod_opt (a b : Q) : option Q :=
  if Qeq_bool b 0 then None
  else Some (a - inject_Z (Qtrunc (a / b)) * b)%Q.

Definition jsonb_key_le (a b : string) : bool :=
  match Nat.compare (String.length a) (String.length b) with
  | Lt => true
  | Gt => false
  | Eq => match String.compare a b with Gt => false | _ => true end
  end.

Fixpoint insert_pair (p : string * JsonItem) (l : list (string * JsonItem))
  : list (string * JsonItem) :=
  match l with
  | [] => [p]
  | q :: l' =>
      if jsonb_key_le (fst p) (fst q) then p :: l else q :: insert_pair p l'
  end.

Definition sort_pairs (l : list (string * JsonItem))
  : list (string * JsonItem) :=
  fold_right insert_pair [] l.

#[export] Instance lib : PgLib :=
  {| numeric_cmp := Qcmp;
     int4_numeric := inject_Z;
     int8_numeric := inject_Z;
     float8_numeric := fun q => q;
     numeric_out := fun _ => "";
     numeric_uminus := Qopp;
     numeric_abs := Qabs;
     numeric_floor := fun q => inject_Z (Qfloor q);
     numeric_ceil := fun q => inject_Z (Qceiling q);
     numeric_trunc := fun q _ => inject_Z (Qtrunc q);
     numeric_int4_opt_error := Qint4;
     numeric_add_opt_error := fun a b => Some (a + b)%Q;
     numeric_sub_opt_error := fun a b => Some (a - b)%Q;
     numeric_mul_opt_error := fun a b => Some (a * b)%Q;
     numeric_div_opt_error := Qdiv_opt;
     numeric_mod_opt_error := Qmod_opt;
     float8in_internal_opt_error := fun _ => None;
     isinf := fun _ => false;
     varstr_cmp := fun a b =>
       match String.compare a b with Lt => -1 | Eq => 0 | Gt => 1 end;
     RE_compile_and_execute := fun _ _ _ => false;
     REG_ADVANCED := 3;
     REG_ICASE := 8;
     REG_NEWLINE := 192;
     REG_EXPANDED := 32;
     parse_datetime := fun _ _ _ _ _ => None;
     date_cmp := Z.sub;
     time_cmp := Z.sub;
     timetz_cmp := Z.sub;
     timestamp_cmp := Z.sub;
     make_timetz := fun t _ => t;
     date2timestamp_internal := fun d => Some d;
     date2timestamptz_internal := fun d _ => Some d;
     timestamp2timestamptz_internal := fun t _ => Some t;
     JsonbValueToJsonb := fun pairs =>
       {| jsonb_root := JObject 8192 (sort_pairs pairs) |} |}.

(** Integer numeric literal and item. *)
Definition num (z : Z) : JsonItem := jbvNumeric (inject_Z z).
Definition lit (z : Z) : JsonPathItem := jpiNumeric (inject_Z z) None.

(** [[1, "two", 3]] at address 4096. *)
Definition doc_1_two_3 : Jsonb :=
  {| jsonb_root := JArray 4096 false [num 1; jbvString "two"; num 3] |}.

(** [$[*] ? (@ > 0)] *)
Definition filter_gt0 : JsonPathItem :=
  jpiRoot (Some (jpiAnyArray (Some
    (jpiFilter (jpiComparison jpiGreater (jpiCurrent None) (lit 0) None) None)))).

Definition strict (jsp : JsonPathItem) : JsonPath :=
  {| header_lax := false; jspInit := jsp |}.
Definition lax (jsp : JsonPathItem) : JsonPath :=
  {| header_lax := true; jspInit := jsp |}.

(** The context in which executeJsonPath starts to run a path over
    [[1, "two", 3]], the root already pushed. *)
Definition context (path : JsonPath) (throwErrors : bool) : JsonPathExecContext :=
  let jsi := JsonbInitBinary doc_1_two_3 in
  set_stack [jsi] (initial_context path None jsi 0 throwErrors).

(** [{"k": {"a": 1, "b": 2}}]: the root container at address 4096 and the
    container of "k" 16 bytes further. *)
Definition doc_k : Jsonb :=
  {| jsonb_root :=
       JObject 4096 [("k", jbvBinary (JObject 4112 [("a", num 1); ("b", num 2)]))] |}.

(** [$.k.keyvalue()] *)
Definition k_keyvalue : JsonPathItem :=
  jpiRoot (Some (jpiKey "k" (Some (jpiKeyValue None)))).

(** The object [{"key": key, "value": val, "id": id}] as [lib] lays it out. *)
Definition kv (key : string) (val : JsonItem) (id : Z) : JsonItem :=
  jbvBinary
    (JObject 8192 [("id", num id); ("key", jbvString key); ("value", val)]).

(** [1 == 1], [1 == 2] and ["a" == 1] *)
Definition one_eq_one : JsonPathItem := jpiComparison jpiEqual (lit 1) (lit 1) None.
Definition one_eq_two : JsonPathItem := jpiComparison jpiEqual (lit 1) (lit 2) None.
Definition a_eq_one : JsonPathItem :=
  jpiComparison jpiEqual (jpiString "a" None) (lit 1) None.

(** [$[*] > 0] *)
Definition all_gt0 : JsonPathItem :=
  jpiComparison jpiGreater (jpiRoot (Some (jpiAnyArray None))) (lit 0) None.

(** [[1, 2]] *)
Definition elems_1_2 : list JsonItem := [num 1; num 2].
Definition doc_1_2 : Jsonb := {| jsonb_root := JArray 4096 false elems_1_2 |}.

(** [$.**[5]] *)
Definition any_index5 : JsonPathItem :=
  jpiRoot (Some (jpiAny 0 PG_UINT32_MAX (Some (jpiIndexArray [(lit 5, None)] None)))).

(** The subscripts [[-1 to 5, 0]] *)
Definition subs_m1_to_5_and_0 : list (JsonPathItem * option JsonPathItem) :=
  [(lit (-1), Some (lit 5)); (lit 0, None)].

(** [[1, "a"]] and [$[*].abs()] *)
Definition doc_1_a : Jsonb :=
  {| jsonb_root := JArray 4096 false [num 1; jbvString "a"] |}.
Definition all_abs : JsonPathItem :=
  jpiRoot (Some (jpiAnyArray (Some (jpiNumericMethod jpiAbs None)))).

(** Container items by address. *)
Definition obj (addr : Z) (pairs : list (string * JsonItem)) : JsonItem :=
  jbvBinary (JObject addr pairs).
Definition arr (addr : Z) (elems : list JsonItem) : JsonItem :=
  jbvBinary (JArray addr false elems).

(** [{"a": {"b": [1, 2, 3]}}] and [$.a.b[1]] *)
Definition doc_a_b : Jsonb :=
  {| jsonb_root :=
       JObject 4096 [("a", obj 4112 [("b", arr 4128 [num 1; num 2; num 3])])] |}.
Definition a_b_1 : JsonPathItem :=
  jpiRoot (Some (jpiKey "a" (Some (jpiKey "b" (Some
    (jpiIndexArray [(lit 1, None)] None)))))).

(** [[{"x": 1}, {"x": 2}, {"x": 3}]] and [$[*] ? (@.x >= 2)] *)
Definition doc_xs : Jsonb :=
  {| jsonb_root :=
       JArray 4096 false
         [obj 4112 [("x", num 1)]; obj 4128 [("x", num 2)];
          obj 4144 [("x", num 3)]] |}.
Definition filter_x_ge2 : JsonPathItem :=
  jpiRoot (Some (jpiAnyArray (Some
    (jpiFilter
       (jpiComparison jpiGreaterOrEqual
          (jpiCurrent (Some (jpiKey "x" None))) (lit 2) None)
       None)))).

(** [{"a": [10, 20, 30, 40]}] and [$.a[1 to last]] *)
Definition doc_a_10_40 : Jsonb :=
  {| jsonb_root :=
       JObject 4096 [("a", arr 4112 [num 10; num 20; num 30; num 40])] |}.
Definition a_1_to_last : JsonPathItem :=
  jpiRoot (Some (jpiKey "a" (Some
    (jpiIndexArray [(lit 1, Some (jpiLast None))] None)))).

(** [{"a": 1, "b": "x"}] and [$ ? ((@.a == 1) && (@.b == s))] *)
Definition doc_a1_bx : Jsonb :=
  {| jsonb_root := JObject 4096 [("a", num 1); ("b", jbvString "x")] |}.
Definition filter_a1_b (s : string) : JsonPathItem :=
  jpiRoot (Some (jpiFilter
    (jpiAnd
       (jpiComparison jpiEqual (jpiCurrent (Some (jpiKey "a" None))) (lit 1) None)
       (jpiComparison jpiEqual (jpiCurrent (Some (jpiKey "b" None)))
          (jpiString s None) None)
       None)
    None)).

(** [{}] and [$.missing] *)
Definition doc_empty : Jsonb := {| jsonb_root := JObject 4096 [] |}.
Definition missing : JsonPathItem := jpiRoot (Some (jpiKey "missing" None)).

(** The context in which executeJsonPath starts to run a path over [doc],
    the root already pushed. *)
Definition context_of (doc : Jsonb) (path : JsonPath) (throwErrors : bool)
  : JsonPathExecContext :=
  let jsi := JsonbInitBinary doc in
  set_stack [jsi] (initial_context path None jsi 0 throwErrors).

(** [[[1, 2], 3]] *)
Definition doc_nested : Jsonb :=
  {| jsonb_root := JArray 4096 false [arr 4112 [num 1; num 2]; num 3] |}.

(** [[[1], 2, 3]] and [$[0, last] ? ((exists (@[5])) is unknown)] *)
Definition doc_1_in_array : Jsonb :=
  {| jsonb_root := JArray 4096 false [arr 4112 [num 1]; num 2; num 3] |}.
Definition first_and_last (next : option JsonPathItem) : JsonPathItem :=
  jpiRoot (Some (jpiIndexArray [(lit 0, None); (jpiLast None, None)] next)).
Definition probe_index5 : JsonPathItem :=
  jpiFilter
    (jpiIsUnknown
       (jpiExists (jpiCurrent (Some (jpiIndexArray [(lit 5, None)] None))) None)
       None)
    None.

End Test.

(** ** Specification-side definitions

    What the properties below compare the executor with. *)
Section Spec.
Context {T : PgTypes} {L : PgLib}.

Definition is_null (jb : JsonItem) : bool :=
  match jb with jbvNull => true | _ => false end.

(** Conjunction of the three-valued logic: false dominates, then unknown. *)
Definition jpb_and (a b : JsonPathBool) : JsonPathBool :=
  match a, b with
  | jpbFalse, _ => jpbFalse
  | jpbTrue, jpbTrue => jpbTrue
  | jpbTrue, jpbFalse => jpbFalse
  | jpbTrue, jpbUnknown => jpbUnknown
  | jpbUnknown, jpbTrue => jpbUnknown
  | jpbUnknown, jpbFalse => jpbFalse
  | jpbUnknown, jpbUnknown => jpbUnknown
  end.

Definition jpb_eqb (a b : JsonPathBool) : bool :=
  match a, b with
  | jpbFalse, jpbFalse | jpbTrue, jpbTrue | jpbUnknown, jpbUnknown => true
  | _, _ => false
  end.

(** The results of a predicate on every left/right pair, left item first. *)
Definition pair_results (exec : JsonItem -> JsonItem -> JsonPathBool)
    (lseq rseq : JsonValueList) : list JsonPathBool :=
  flat_map (fun l => map (fun r => exec l r) rseq) lseq.

(** Strict: unknown if any pair is unknown, else true iff some pair is true.
    Lax: true if some pair is true, else unknown iff some pair is unknown. *)
Definition predicate_spec (strict : bool) (rs : list JsonPathBool)
  : JsonPathBool :=
  if strict then
    if existsb (jpb_eqb jpbUnknown) rs then jpbUnknown
    else if existsb (jpb_eqb jpbTrue) rs then jpbTrue else jpbFalse
  else
    if existsb (jpb_eqb jpbTrue) rs then jpbTrue
    else if existsb (jpb_eqb jpbUnknown) rs then jpbUnknown else jpbFalse.

(** The first of the seven ISO templates, in their fixed order, that parses
    [datetime] (strictly, with no time zone given). *)
Definition first_iso_format (datetime : string) : option Parsed :=
  let try fmt := parse_datetime datetime fmt None true PG_INT32_MIN in
  match try "yyyy-mm-dd HH24:MI:SS TZH:TZM" with
  | Some d => Some d
  | None =>
  match try "yyyy-mm-dd HH24:MI:SS TZH" with
  | Some d => Some d
  | None =>
  match try "yyyy-mm-dd HH24:MI:SS" with
  | Some d => Some d
  | None =>
  match try "yyyy-mm-dd" with
  | Some d => Some d
  | None =>
  match try "HH24:MI:SS TZH:TZM" with
  | Some d => Some d
  | None =>
  match try "HH24:MI:SS TZH" with
  | Some d => Some d
  | None => try "HH24:MI:SS"
  end end end end end end.

Definition unrecognized_datetime_format : PgError :=
  ereport ERRCODE_INVALID_ARGUMENT_FOR_JSON_DATETIME_FUNCTION
    "unrecognized datetime format"
    "use datetime template argument for explicit format specification".

Definition opt_list {A} (o : option A) : list A :=
  match o with Some a => [a] | None => [] end.

(** A subscript is within an array of [size] elements. *)
Definition in_bounds (size : Z) (b : Z * Z) : bool :=
  (0 <=? fst b) && (fst b <=? snd b) && (snd b <? size).

(** The elements at indices [from .. to], in ascending order; empty when
    [to < from]. *)
Definition array_slice (elems : list JsonItem) (from to : Z) : list JsonItem :=
  firstn (Z.to_nat (to - from + 1)) (skipn (Z.to_nat from) elems).

(** The slice a subscript selects once its bounds are clamped to the array. *)
Definition clamped_slice (elems : list JsonItem) (b : Z * Z) : list JsonItem :=
  array_slice elems (Z.max 0 (fst b))
    (Z.min (Z.of_nat (List.length elems) - 1) (snd b)).

(** In context [c] the subscript [sub] ('expr' or 'expr TO expr') evaluates
    to the bounds [b] and leaves the context as it is. *)
Definition subscript_evaluates (self : Self) (jb : JsonItem)
    (c : JsonPathExecContext) (sub : JsonPathItem * option JsonPathItem)
    (b : Z * Z) : Prop :=
  getArrayIndex self (fst sub) jb c = Done ((jperOk, fst b), c)
  /\ match snd sub with
     | Some to => getArrayIndex self to jb c = Done ((jperOk, snd b), c)
     | None => snd b = fst b
     end.

Definition invalid_subscript : PgError :=
  ereport ERRCODE_INVALID_JSON_SUBSCRIPT
    "jsonpath array subscript is out of bounds" "".

(** [m] is quiet: run with [throwErrors == false] it throws no suppressible
    error and leaves [throwErrors] false. *)
Definition quiet {A} (m : Exec A) : Prop :=
  forall cxt : JsonPathExecContext,
    throwErrors cxt = false ->
    match m cxt with
    | Done (_, cxt') => throwErrors cxt' = false
    | Raised e => suppressible e = false
    | OutOfFuel | Undefined => True
    end.

Definition quiet_self (self : Self) : Prop :=
  (forall jsp jb found unwrap,
      quiet (self_executeItemOptUnwrapTarget self jsp jb found unwrap))
  /\ (forall jsp jb canHaveNext,
         quiet (self_executeBoolItem self jsp jb canHaveNext))
  /\ (forall jsp jbc found level first last ignore unwrapNext,
         quiet (self_executeAnyItem self jsp jbc found level first last
                  ignore unwrapNext)).

(** [m'] settles whatever [m] settles: where [m] ends otherwise than by
    running out of recursion depth, [m'] ends the same way. *)
Definition settles {A} (m m' : Exec A) : Prop :=
  forall cxt : JsonPathExecContext, m cxt <> OutOfFuel -> m' cxt = m cxt.

Definition settles_self (self self' : Self) : Prop :=
  (forall jsp jb found unwrap,
      settles (self_executeItemOptUnwrapTarget self jsp jb found unwrap)
              (self_executeItemOptUnwrapTarget self' jsp jb found unwrap))
  /\ (forall jsp jb canHaveNext,
         settles (self_executeBoolItem self jsp jb canHaveNext)
                 (self_executeBoolItem self' jsp jb canHaveNext))
  /\ (forall jsp jbc found level first last ignore unwrapNext,
         settles (self_executeAnyItem self jsp jbc found level first last
                    ignore unwrapNext)
                 (self_executeAnyItem self' jsp jbc found level first last
                    ignore unwrapNext)).

(** *** What an evaluation establishes

    [wp m Q c]: if [m], run in context [c], returns, then [Q] holds of its
    result and of the context it leaves. *)
Definition wp {A} (m : Exec A) (Q : A -> JsonPathExecContext -> Prop)
    (c : JsonPathExecContext) : Prop :=
  match m c with Done (a, c') => Q a c' | _ => True end.

(** [c'] is [c] but for innermostArraySize and a generated-object counter
    that may have advanced. *)
Definition frame (c c' : JsonPathExecContext) : Prop :=
  vars c' = vars c /\ root c' = root c /\ stack c' = stack c
  /\ baseObject c' = baseObject c /\ laxMode c' = laxMode c
  /\ ignoreStructuralErrors c' = ignoreStructuralErrors c
  /\ throwErrors c' = throwErrors c
  /\ lastGeneratedObjectId c <= lastGeneratedObjectId c'.

Definition keeps {A} (m : Exec A) : Prop :=
  forall c, wp m (fun _ c' => frame c c') c.

Definition keeps_self (self : Self) : Prop :=
  (forall jsp jb found unwrap,
      keeps (self_executeItemOptUnwrapTarget self jsp jb found unwrap))
  /\ (forall jsp jb canHaveNext,
         keeps (self_executeBoolItem self jsp jb canHaveNext))
  /\ (forall jsp jbc found level first last ignore unwrapNext,
         keeps (self_executeAnyItem self jsp jbc found level first last
                  ignore unwrapNext)).

(** The result list [b] is the list [a] with items appended; a NULL list
    stays NULL. *)
Definition extends (a b : Found) : Prop :=
  match a, b with
  | None, None => True
  | Some l, Some l' => exists x, l' = l ++ x
  | _, _ => False
  end.

Definition grows (found : Found) (m : Exec Res) : Prop :=
  forall c, wp m (fun r _ => extends found (snd r)) c.

(** The C assertion [Assert(!throwErrors || !jperIsError(res))]. *)
Definition asserted (m : Exec Res) : Prop :=
  forall c, throwErrors c = true ->
            wp m (fun r _ => jperIsError (fst r) = false) c.

(** [m] throws no suppressible error, whatever [throwErrors] is. *)
Definition calm {A} (m : Exec A) : Prop :=
  forall c : JsonPathExecContext,
    match m c with Raised e => suppressible e = false | _ => True end.

(** Disjunction of the three-valued logic: true dominates, then unknown. *)
Definition jpb_or (a b : JsonPathBool) : JsonPathBool :=
  match a, b with
  | jpbTrue, _ => jpbTrue
  | _, jpbTrue => jpbTrue
  | jpbUnknown, _ => jpbUnknown
  | _, jpbUnknown => jpbUnknown
  | jpbFalse, jpbFalse => jpbFalse
  end.

(** Negation of the three-valued logic: unknown stays unknown. *)
Definition jpb_not (a : JsonPathBool) : JsonPathBool :=
  match a with
  | jpbTrue => jpbFalse
  | jpbFalse => jpbTrue
  | jpbUnknown => jpbUnknown
  end.

Definition is_string (jb : JsonItem) : bool :=
  match jb with jbvString _ => true | _ => false end.

Definition is_numeric (jb : JsonItem) : bool :=
  match jb with jbvNumeric _ => true | _ => false end.

(** What one level of lax unwrapping makes of an item: the elements of an
    array, the item itself otherwise. *)
Definition unwrap_item (item : JsonItem) : list JsonItem :=
  match item with
  | jbvBinary (JArray _ _ elems) => elems
  | _ => [item]
  end.

(** The member [key] of an item, if the item is an object that has it. *)
Definition member (key : string) (item : JsonItem) : list JsonItem :=
  match item with
  | jbvBinary (JObject _ pairs) => opt_list (find_pair key pairs)
  | _ => []
  end.

Definition member_not_found : PgError :=
  ereport ERRCODE_JSON_MEMBER_NOT_FOUND "JSON object does not contain key %s" "".

Definition operand_error (side : string) : PgError :=
  ereport ERRCODE_SINGLETON_JSON_ITEM_REQUIRED
    (side ++ " operand of binary jsonpath operator %s is not a singleton numeric value")
    "".

(** The numeric of a sequence that is exactly one numeric item. *)
Definition singleton_numeric (seq : JsonValueList) : option Numeric :=
  match seq with
  | [jbvNumeric n] => Some n
  | _ => None
  end.

Definition undefined_variable : PgError :=
  ereport ERRCODE_UNDEFINED_OBJECT "cannot find jsonpath variable '%s'" "".

Definition vars_not_an_object : PgError :=
  ereport ERRCODE_INVALID_PARAMETER_VALUE
    "jsonb containing jsonpath variables is not an object" "".

Definition singleton_boolean_required : PgError :=
  ereport ERRCODE_SINGLETON_JSON_ITEM_REQUIRED
    "expression should return a singleton boolean" "".

(** What RETURN_ERROR does with [e] in a function that returns [found]
    untouched. *)
Definition signals (e : PgError) (found : Found) (c : JsonPathExecContext)
  : Outcome (Res * JsonPathExecContext) :=
  if throwErrors c then Raised e else Done ((jperError, found), c).

(** The unary operator node over [arg] at the end of a path, and the
    function it applies ([NULL] for unary plus). *)
Definition unary_node (minus : bool) (arg : JsonPathItem) : JsonPathItem :=
  if minus then jpiMinus arg None else jpiPlus arg None.

Definition unary_func (minus : bool) (n : Numeric) : Numeric :=
  if minus then numeric_uminus n else n.

Definition unary_operand_error : PgError :=
  ereport ERRCODE_JSON_NUMBER_NOT_FOUND
    "operand of unary jsonpath operator %s is not a numeric value" "".

(** Every value nested in an item, in document order: each value is
    followed by the values nested in it. *)
Fixpoint descendants (v : JsonItem) : list JsonItem :=
  match v with
  | jbvBinary (JArray _ _ elems) =>
      flat_map (fun e => e :: descendants e) elems
  | jbvBinary (JObject _ pairs) =>
      flat_map (fun p => snd p :: descendants (snd p)) pairs
  | _ => []
  end.

(** Nesting depth: 0 for a scalar, one more than its deepest value for a
    container. *)
Fixpoint item_depth (v : JsonItem) : nat :=
  match v with
  | jbvBinary (JArray _ _ elems) => S (list_max (map item_depth elems))
  | jbvBinary (JObject _ pairs) =>
      S (list_max (map (fun p => item_depth (snd p)) pairs))
  | _ => O
  end.

End Spec.

(** * Properties *)

Section Properties.
Context {T : PgTypes} {L : PgLib}.

(** ** The recursion depth

    A result obtained with some depth [fuel] is the result for every larger
    depth: the bound only decides whether there is a result. *)

Lemma settles_refl : forall A (m : Exec A), settles m m.
Proof. intros A m cxt H. reflexivity. Qed.

Lemma settles_bind :
  forall A B (m m' : Exec A) (k k' : A -> Exec B),
    settles m m' -> (forall a, settles (k a) (k' a)) ->
    settles (bind m k) (bind m' k').
Proof.
  intros A B m m' k k' Hm Hk cxt H. unfold bind in *.
  specialize (Hm cxt).
  destruct (m cxt) as [[a c]| | |] eqn:E.
  - rewrite Hm by discriminate. apply Hk. exact H.
  - now rewrite Hm.
  - congruence.
  - now rewrite Hm.
Qed.

Lemma settles_foreach :
  forall X S R (xs : list X) (body body' : X -> S -> Exec (Ctl S R)) (s : S),
    (forall x s, settles (body x s) (body' x s)) ->
    settles (foreach xs body s) (foreach xs body' s).
Proof.
  intros X S R xs body body' s Hb. revert s.
  induction xs as [|x xs IH]; intros s; simpl.
  - apply settles_refl.
  - apply settles_bind; [apply Hb|].
    intros [s'|s'|r]; [apply IH | apply settles_refl | apply settles_refl].
Qed.

Ltac settles_step :=
  cbv beta;
  match goal with
  | |- settles ?m ?m => apply settles_refl
  | |- settles (bind _ _) (bind _ _) => apply settles_bind; [ | intros ? ]
  | |- settles (foreach _ _ _) (foreach _ _ _) =>
      apply settles_foreach; intros ? ?
  | |- settles (match ?x with _ => _ end) (match ?x with _ => _ end) =>
      destruct x
  | |- settles ((match ?x with _ => _ end) _) ((match ?x with _ => _ end) _) =>
      destruct x
  end.

Create HintDb settles.

Ltac settles_auto :=
  repeat (first [ solve [auto 2 with settles nocore] | settles_step ]).

Section SettlesExecutor.

Variables self self' : Self.
Hypothesis Hitem :
  forall jsp jb found unwrap,
    settles (self_executeItemOptUnwrapTarget self jsp jb found unwrap)
            (self_executeItemOptUnwrapTarget self' jsp jb found unwrap).
Hypothesis Hbool :
  forall jsp jb canHaveNext,
    settles (self_executeBoolItem self jsp jb canHaveNext)
            (self_executeBoolItem self' jsp jb canHaveNext).
Hypothesis Hany :
  forall jsp jbc found level first last ignore unwrapNext,
    settles (self_executeAnyItem self jsp jbc found level first last ignore
               unwrapNext)
            (self_executeAnyItem self' jsp jbc found level first last ignore
               unwrapNext).

Lemma settles_executeItem :
  forall jsp jb found,
    settles (executeItem self jsp jb found) (executeItem self' jsp jb found).
Proof. intros. unfold executeItem. settles_auto. Qed.
Hint Resolve settles_executeItem : settles.

Lemma settles_executeNextItem :
  forall cur next v found copy,
    settles (executeNextItem self cur next v found copy)
            (executeNextItem self' cur next v found copy).
Proof. intros. unfold executeNextItem. settles_auto. Qed.
Hint Resolve settles_executeNextItem : settles.

Lemma settles_executeAnyItem :
  forall jsp jbc found level first last ignore unwrapNext,
    settles (executeAnyItem self jsp jbc found level first last ignore unwrapNext)
            (executeAnyItem self' jsp jbc found level first last ignore unwrapNext).
Proof. intros. unfold executeAnyItem. settles_auto. Qed.
Hint Resolve settles_executeAnyItem : settles.

Lemma settles_executeItemUnwrapTargetArray :
  forall jsp jb found unwrapElements,
    settles (executeItemUnwrapTargetArray self jsp jb found unwrapElements)
            (executeItemUnwrapTargetArray self' jsp jb found unwrapElements).
Proof. intros. unfold executeItemUnwrapTargetArray. settles_auto. Qed.
Hint Resolve settles_executeItemUnwrapTargetArray : settles.

Lemma settles_executeItemOptUnwrapResult :
  forall jsp jb unwrap found,
    settles (executeItemOptUnwrapResult self jsp jb unwrap found)
            (executeItemOptUnwrapResult self' jsp jb unwrap found).
Proof. intros. unfold executeItemOptUnwrapResult. settles_auto. Qed.
Hint Resolve settles_executeItemOptUnwrapResult : settles.

Lemma settles_executeItemOptUnwrapResultNoThrow :
  forall jsp jb unwrap found,
    settles (executeItemOptUnwrapResultNoThrow self jsp jb unwrap found)
            (executeItemOptUnwrapResultNoThrow self' jsp jb unwrap found).
Proof. intros. unfold executeItemOptUnwrapResultNoThrow. settles_auto. Qed.
Hint Resolve settles_executeItemOptUnwrapResultNoThrow : settles.

Lemma settles_executePredicate :
  forall pred larg rarg jb unwrapRightArg exec,
    settles (executePredicate self pred larg rarg jb unwrapRightArg exec)
            (executePredicate self' pred larg rarg jb unwrapRightArg exec).
Proof. intros. unfold executePredicate. settles_auto. Qed.
Hint Resolve settles_executePredicate : settles.

Lemma settles_executeBinaryArithmExpr :
  forall jsp larg rarg jb func found,
    settles (executeBinaryArithmExpr self jsp larg rarg jb func found)
            (executeBinaryArithmExpr self' jsp larg rarg jb func found).
Proof. intros. unfold executeBinaryArithmExpr. settles_auto. Qed.
Hint Resolve settles_executeBinaryArithmExpr : settles.

Lemma settles_executeUnaryArithmExpr :
  forall jsp arg jb func found,
    settles (executeUnaryArithmExpr self jsp arg jb func found)
            (executeUnaryArithmExpr self' jsp arg jb func found).
Proof. intros. unfold executeUnaryArithmExpr. settles_auto. Qed.
Hint Resolve settles_executeUnaryArithmExpr : settles.

Lemma settles_executeNumericItemMethod :
  forall jsp jb unwrap func found,
    settles (executeNumericItemMethod self jsp jb unwrap func found)
            (executeNumericItemMethod self' jsp jb unwrap func found).
Proof. intros. unfold executeNumericItemMethod. settles_auto. Qed.
Hint Resolve settles_executeNumericItemMethod : settles.

Lemma settles_executeKeyValueMethod :
  forall jsp jb found,
    settles (executeKeyValueMethod self jsp jb found)
            (executeKeyValueMethod self' jsp jb found).
Proof. intros. unfold executeKeyValueMethod. settles_auto. Qed.
Hint Resolve settles_executeKeyValueMethod : settles.

Lemma settles_appendBoolResult :
  forall jsp found res,
    settles (appendBoolResult self jsp found res)
            (appendBoolResult self' jsp found res).
Proof. intros. unfold appendBoolResult. settles_auto. Qed.
Hint Resolve settles_appendBoolResult : settles.

Lemma settles_getArrayIndex :
  forall jsp jb,
    settles (getArrayIndex self jsp jb) (getArrayIndex self' jsp jb).
Proof. intros. unfold getArrayIndex. settles_auto. Qed.
Hint Resolve settles_getArrayIndex : settles.

Lemma settles_executeBoolItem :
  forall jsp jb canHaveNext,
    settles (executeBoolItem self jsp jb canHaveNext)
            (executeBoolItem self' jsp jb canHaveNext).
Proof. intros. unfold executeBoolItem. settles_auto. Qed.
Hint Resolve settles_executeBoolItem : settles.

Lemma settles_executeNestedBoolItem :
  forall jsp jb,
    settles (executeNestedBoolItem self jsp jb)
            (executeNestedBoolItem self' jsp jb).
Proof. intros. unfold executeNestedBoolItem. settles_auto. Qed.
Hint Resolve settles_executeNestedBoolItem : settles.

Lemma settles_executeIndexArray :
  forall jsp elems jb found,
    settles (executeIndexArray self jsp elems jb found)
            (executeIndexArray self' jsp elems jb found).
Proof. intros. unfold executeIndexArray. settles_auto. Qed.
Hint Resolve settles_executeIndexArray : settles.

Lemma settles_executeDatetimeMethod :
  forall jsp larg rarg jb found unwrap,
    settles (executeDatetimeMethod self jsp larg rarg jb found unwrap)
            (executeDatetimeMethod self' jsp larg rarg jb found unwrap).
Proof. intros. unfold executeDatetimeMethod. settles_auto. Qed.
Hint Resolve settles_executeDatetimeMethod : settles.

Lemma settles_executeItemOptUnwrapTarget :
  forall jsp jb found unwrap,
    settles (executeItemOptUnwrapTarget self jsp jb found unwrap)
            (executeItemOptUnwrapTarget self' jsp jb found unwrap).
Proof. intros. unfold executeItemOptUnwrapTarget. settles_auto. Qed.

Lemma settles_executeJsonPath_run :
  forall jsp jsi result,
    settles (executeJsonPath_run self jsp jsi result)
            (executeJsonPath_run self' jsp jsi result).
Proof. intros. unfold executeJsonPath_run. settles_auto. Qed.

End SettlesExecutor.

Lemma settles_unroll_S : forall fuel : nat,
  settles_self (unroll fuel) (unroll (S fuel)).
Proof.
  induction fuel as [|n [Hitem [Hbool Hany]]].
  - repeat split; intros; intros cxt H; exfalso; apply H; reflexivity.
  - repeat split; intros;
      cbn [unroll self_executeItemOptUnwrapTarget self_executeBoolItem
             self_executeAnyItem].
    + apply settles_executeItemOptUnwrapTarget; assumption.
    + apply settles_executeBoolItem; assumption.
    + apply settles_executeAnyItem; assumption.
Qed.

Lemma settles_self_trans : forall s1 s2 s3 : Self,
  settles_self s1 s2 -> settles_self s2 s3 -> settles_self s1 s3.
Proof.
  intros s1 s2 s3 [I1 [B1 A1]] [I2 [B2 A2]].
  repeat split; intros; intros cxt H.
  - rewrite <- (I1 _ _ _ _ cxt H). apply I2. rewrite (I1 _ _ _ _ cxt H). exact H.
  - rewrite <- (B1 _ _ _ cxt H). apply B2. rewrite (B1 _ _ _ cxt H). exact H.
  - rewrite <- (A1 _ _ _ _ _ _ _ _ cxt H). apply A2.
    rewrite (A1 _ _ _ _ _ _ _ _ cxt H). exact H.
Qed.

Lemma settles_unroll : forall fuel more : nat,
  settles_self (unroll fuel) (unroll (more + fuel)).
Proof.
  intros fuel more. induction more as [|k IH]; simpl.
  - repeat split; intros; apply settles_refl.
  - eapply settles_self_trans; [exact IH | apply settles_unroll_S].
Qed.

(** A result of executeJsonPath does not depend on the depth that was
    enough to reach it. *)
Lemma executeJsonPath_more_fuel :
  forall fuel more path vars json throwErrors result,
    executeJsonPath fuel path vars json throwErrors result <> OutOfFuel ->
    executeJsonPath (more + fuel) path vars json throwErrors result
    = executeJsonPath fuel path vars json throwErrors result.
Proof.
  intros fuel more path vars json throwErrors result. unfold executeJsonPath.
  destruct (getJsonPathVariableFromJsonb_count vars) as [e|nvars];
    [reflexivity|].
  destruct (settles_unroll fuel more) as [Hitem [Hbool Hany]].
  match goal with
  | |- context [executeJsonPath_run (unroll fuel) ?j ?i ?r ?c] =>
      pose proof (settles_executeJsonPath_run _ _ Hitem j i r c) as S
  end.
  intros H. rewrite S; [reflexivity|].
  intros E. apply H. rewrite E. reflexivity.
Qed.

(** C8. When exactly one of the two compared items is null, [!=] gives true
    and each of [==], [<], [>], [<=], [>=] gives false; the result is never
    unknown. *)
Theorem compareItems_null_against_non_null :
  forall (op : CmpOp) (jb1 jb2 : JsonItem),
    xorb (is_null jb1) (is_null jb2) = true ->
    compareItems op jb1 jb2 =
    match op with jpiNotEqual => jpbTrue | _ => jpbFalse end.
Proof.
  intros op jb1 jb2 H.
  unfold compareItems.
  destruct jb1, jb2; simpl in H; try discriminate; reflexivity.
Qed.

(** C9. Evaluating [!!P] gives what evaluating [P] gives (the same tri-state
    value and the same context, or the same error): double negation is the
    identity, at the cost of two more levels of recursion. *)
Theorem executeBoolItem_not_not :
  forall (n : nat) (P : JsonPathItem) (jb : JsonItem) (canHaveNext : bool)
         (cxt : JsonPathExecContext),
    executeBoolItem (unroll (S (S n))) (jpiNot (jpiNot P None) None) jb
      canHaveNext cxt
    = executeBoolItem (unroll n) P jb false cxt.
Proof.
  intros n P jb c cxt.
  unfold executeBoolItem at 1.
  replace (negb c && jspHasNext (jpiNot (jpiNot P None) None)) with false
    by (destruct c; reflexivity).
  cbn [unroll self_executeBoolItem].
  unfold executeBoolItem at 1.
  cbn [jspHasNext jspGetNext negb andb self_executeBoolItem].
  unfold bind, ret.
  destruct (executeBoolItem (unroll n) P jb false cxt) as [[r cxt']| | |];
    try reflexivity.
  destruct r; reflexivity.
Qed.

(** C3 (as the code has it).  When the left operand of [&&] evaluates to
    false the result is false and the right operand is not evaluated;
    otherwise the right operand is evaluated and the result is the
    three-valued conjunction: the left value when the right one is true, and
    the right value (false or unknown) otherwise. *)
Theorem executeBoolItem_and :
  forall (n : nat) (larg rarg : JsonPathItem) (jb : JsonItem)
         (canHaveNext : bool) (cxt cxt1 : JsonPathExecContext)
         (a : JsonPathBool),
    executeBoolItem (unroll n) larg jb false cxt = Done (a, cxt1) ->
    (a = jpbFalse ->
     executeBoolItem (unroll (S n)) (jpiAnd larg rarg None) jb canHaveNext cxt
     = Done (jpbFalse, cxt1))
    /\
    (forall (b : JsonPathBool) (cxt2 : JsonPathExecContext),
        a <> jpbFalse ->
        executeBoolItem (unroll n) rarg jb false cxt1 = Done (b, cxt2) ->
        executeBoolItem (unroll (S n)) (jpiAnd larg rarg None) jb canHaveNext cxt
        = Done (jpb_and a b, cxt2)).
Proof.
  intros n larg rarg jb c cxt cxt1 a HL.
  assert (E : executeBoolItem (unroll (S n)) (jpiAnd larg rarg None) jb c cxt
              = (res <- executeBoolItem (unroll n) larg jb false ;;
                 match res with
                 | jpbFalse => ret jpbFalse
                 | _ =>
                     res2 <- executeBoolItem (unroll n) rarg jb false ;;
                     ret (match res2 with jpbTrue => res | _ => res2 end)
                 end) cxt).
  { unfold executeBoolItem at 1. destruct c; reflexivity. }
  split.
  - intros Ha. rewrite E. unfold bind. rewrite HL, Ha. reflexivity.
  - intros b cxt2 Ha HR. rewrite E. unfold bind. rewrite HL.
    destruct a; try congruence; rewrite HR; destruct b; reflexivity.
Qed.

(** The inner pair loop in strict mode. *)
Lemma predicate_rloop_strict :
  forall (exec : JsonItem -> option JsonItem -> JsonPathBool) (l : JsonItem)
         (rseq : JsonValueList) (error found : bool),
    predicate_rloop true exec l (map Some rseq) error found =
    let rs := map (fun r => exec l (Some r)) rseq in
    if existsb (jpb_eqb jpbUnknown) rs then inr jpbUnknown
    else inl (error, found || existsb (jpb_eqb jpbTrue) rs).
Proof.
  intros exec l rseq. induction rseq as [|r rseq IH]; intros error found.
  - simpl. now rewrite orb_false_r.
  - simpl. destruct (exec l (Some r)); simpl.
    + apply IH.
    + rewrite IH. simpl.
      destruct (existsb _ _); [reflexivity|]. now rewrite orb_true_r.
    + reflexivity.
Qed.

(** The inner pair loop in lax mode. *)
Lemma predicate_rloop_lax :
  forall (exec : JsonItem -> option JsonItem -> JsonPathBool) (l : JsonItem)
         (rseq : JsonValueList) (error found : bool),
    predicate_rloop false exec l (map Some rseq) error found =
    let rs := map (fun r => exec l (Some r)) rseq in
    if existsb (jpb_eqb jpbTrue) rs then inr jpbTrue
    else inl (error || existsb (jpb_eqb jpbUnknown) rs, found).
Proof.
  intros exec l rseq. induction rseq as [|r rseq IH]; intros error found.
  - simpl. now rewrite orb_false_r.
  - simpl. destruct (exec l (Some r)); simpl.
    + apply IH.
    + reflexivity.
    + rewrite IH. simpl.
      destruct (existsb _ _); [reflexivity|]. now rewrite orb_true_r.
Qed.

(** Both pair loops against [predicate_spec], from the initial locals. *)
Lemma predicate_lloop_strict :
  forall (exec : JsonItem -> option JsonItem -> JsonPathBool)
         (lseq rseq : JsonValueList) (error found : bool),
    predicate_lloop true exec lseq (map Some rseq) error found =
    let rs := pair_results (fun l r => exec l (Some r)) lseq rseq in
    if existsb (jpb_eqb jpbUnknown) rs then inr jpbUnknown
    else inl (error, found || existsb (jpb_eqb jpbTrue) rs).
Proof.
  intros exec lseq rseq.
  induction lseq as [|l lseq IH]; intros error found.
  - simpl. now rewrite orb_false_r.
  - cbn [predicate_lloop pair_results flat_map].
    rewrite predicate_rloop_strict. cbv zeta.
    rewrite !existsb_app.
    destruct (existsb (jpb_eqb jpbUnknown) (map _ rseq)); [reflexivity|].
    rewrite IH. cbv zeta. unfold pair_results. simpl.
    rewrite orb_assoc. reflexivity.
Qed.

Lemma predicate_lloop_lax :
  forall (exec : JsonItem -> option JsonItem -> JsonPathBool)
         (lseq rseq : JsonValueList) (error found : bool),
    predicate_lloop false exec lseq (map Some rseq) error found =
    let rs := pair_results (fun l r => exec l (Some r)) lseq rseq in
    if existsb (jpb_eqb jpbTrue) rs then inr jpbTrue
    else inl (error || existsb (jpb_eqb jpbUnknown) rs, found).
Proof.
  intros exec lseq rseq.
  induction lseq as [|l lseq IH]; intros error found.
  - simpl. now rewrite orb_false_r.
  - cbn [predicate_lloop pair_results flat_map].
    rewrite predicate_rloop_lax. cbv zeta.
    rewrite !existsb_app.
    destruct (existsb (jpb_eqb jpbTrue) (map _ rseq)); [reflexivity|].
    rewrite IH. cbv zeta. unfold pair_results. simpl.
    rewrite orb_assoc. reflexivity.
Qed.

(** Both pair loops against [predicate_spec], from the initial locals. *)
Lemma predicate_lloop_spec :
  forall (strict : bool) (exec : JsonItem -> option JsonItem -> JsonPathBool)
         (lseq rseq : JsonValueList),
    match predicate_lloop strict exec lseq (map Some rseq) false false with
    | inr r => r
    | inl (error, found) =>
        if found then jpbTrue else if error then jpbUnknown else jpbFalse
    end
    = predicate_spec strict (pair_results (fun l r => exec l (Some r)) lseq rseq).
Proof.
  intros strict exec lseq rseq.
  unfold predicate_spec. destruct strict.
  - rewrite predicate_lloop_strict. cbv zeta.
    destruct (existsb (jpb_eqb jpbUnknown) _); [reflexivity|]. simpl.
    destruct (existsb (jpb_eqb jpbTrue) _); reflexivity.
  - rewrite predicate_lloop_lax. cbv zeta.
    destruct (existsb (jpb_eqb jpbTrue) _); [reflexivity|]. simpl.
    destruct (existsb (jpb_eqb jpbUnknown) _); reflexivity.
Qed.

(** executePredicate on a binary predicate whose operands evaluate without
    error. *)
Lemma executePredicate_pairs :
  forall (self : Self) (pred larg rarg : JsonPathItem) (jb : JsonItem)
         (unwrapRightArg : bool) (exec : JsonPathPredicateCallback)
         (cxt cxt1 cxt2 : JsonPathExecContext)
         (r1 r2 : JsonPathExecResult) (lseq rseq : JsonValueList),
    executeItemOptUnwrapResultNoThrow self larg jb true (Some []) cxt
    = Done ((r1, Some lseq), cxt1) ->
    jperIsError r1 = false ->
    executeItemOptUnwrapResultNoThrow self rarg jb unwrapRightArg (Some []) cxt1
    = Done ((r2, Some rseq), cxt2) ->
    jperIsError r2 = false ->
    executePredicate self pred larg (Some rarg) jb unwrapRightArg exec cxt
    = Done (predicate_spec (jspStrictAbsenseOfErrors cxt2)
              (pair_results (fun l r => exec pred l (Some r)) lseq rseq),
            cxt2).
Proof.
  intros self pred larg rarg jb u exec cxt cxt1 cxt2 r1 r2 lseq rseq
         H1 E1 H2 E2.
  unfold executePredicate, bind. rewrite H1, E1, H2, E2.
  unfold get. cbn [found_list].
  rewrite <- predicate_lloop_spec.
  destruct (predicate_lloop _ _ _ _ _ _) as [[error found]|r]; [|reflexivity].
  destruct found; [reflexivity|]. destruct error; reflexivity.
Qed.

(** C5. A comparison predicate whose operand sequences [lseq] and [rseq]
    evaluate without error pairs every left item with every right item.  In
    strict mode the result is unknown if any pair compares to unknown,
    otherwise true iff some pair satisfies the comparison, otherwise false.
    In lax mode the result is true as soon as some pair satisfies the
    comparison, and it is unknown rather than false only when no pair is true
    and at least one pair is unknown. *)
Theorem comparison_predicate_result :
  forall (self : Self) (op : CmpOp) (larg rarg : JsonPathItem)
         (next : option JsonPathItem) (jb : JsonItem)
         (cxt cxt1 cxt2 : JsonPathExecContext)
         (r1 r2 : JsonPathExecResult) (lseq rseq : JsonValueList),
    executeItemOptUnwrapResultNoThrow self larg jb true (Some []) cxt
    = Done ((r1, Some lseq), cxt1) ->
    jperIsError r1 = false ->
    executeItemOptUnwrapResultNoThrow self rarg jb true (Some []) cxt1
    = Done ((r2, Some rseq), cxt2) ->
    jperIsError r2 = false ->
    executeBoolItem self (jpiComparison op larg rarg next) jb true cxt
    = Done (predicate_spec (jspStrictAbsenseOfErrors cxt2)
              (pair_results (compareItems op) lseq rseq),
            cxt2).
Proof.
  intros self op larg rarg next jb cxt cxt1 cxt2 r1 r2 lseq rseq H1 E1 H2 E2.
  unfold executeBoolItem. cbn [negb andb].
  apply (executePredicate_pairs self (jpiComparison op larg rarg next)
           larg rarg jb true executeComparison cxt cxt1 cxt2 r1 r2 lseq rseq
           H1 E1 H2 E2).
Qed.

(** The loop over the ISO formats stops at the first format that parses. *)
Lemma try_iso_formats_first :
  forall (datetime : string) (cxt : JsonPathExecContext),
    try_iso_formats datetime None PG_INT32_MIN cxt
    = Done (first_iso_format datetime, cxt).
Proof.
  intros datetime cxt.
  unfold try_iso_formats, first_iso_format, fmt_str, foreach,
    tryToParseDatetime, bind, ret.
  repeat match goal with
         | |- context [parse_datetime datetime ?f None true PG_INT32_MIN] =>
             destruct (parse_datetime datetime f None true PG_INT32_MIN);
             try reflexivity
         end.
Qed.

(** C7. [.datetime()] without a template, applied to a string: the seven ISO
    templates are tried in their fixed order and the first that parses gives
    the datetime item, which goes to the next path item or to the result
    list; when none parses, invalidArgumentForDatetime is signalled with the
    hint to use a template (thrown, or returned as jperError under
    [throwErrors == false]). *)
Theorem datetime_without_template :
  forall (self : Self) (next : option JsonPathItem) (s : string)
         (found : Found) (unwrap : bool) (cxt : JsonPathExecContext),
    let jsp := jpiDatetime None None next in
    fmt_str = [ "yyyy-mm-dd HH24:MI:SS TZH:TZM";
                "yyyy-mm-dd HH24:MI:SS TZH";
                "yyyy-mm-dd HH24:MI:SS";
                "yyyy-mm-dd";
                "HH24:MI:SS TZH:TZM";
                "HH24:MI:SS TZH";
                "HH24:MI:SS" ]
    /\
    executeItemOptUnwrapTarget self jsp (jbvString s) found unwrap cxt =
    match first_iso_format s with
    | Some (value, typid, typmod, tz) =>
        if negb (jspHasNext jsp) && is_null_ptr found
        then Done ((jperOk, found), cxt)
        else executeNextItem self (Some jsp) next
               (jsiDatetime value typid typmod tz) found (jspHasNext jsp) cxt
    | None =>
        if throwErrors cxt then Raised unrecognized_datetime_format
        else Done ((jperError, found), cxt)
    end.
Proof.
  intros self next s found unwrap cxt jsp. split; [reflexivity|].
  unfold executeItemOptUnwrapTarget, executeDatetimeMethod. subst jsp.
  replace (unwrap && jbvType_eqb (JsonbType (jbvString s)) tArray) with false
    by (destruct unwrap; reflexivity).
  cbn [getScalar item_type jbvType_eqb].
  unfold bind at 1. unfold ret at 1.
  unfold bind at 1. unfold bind at 1.
  rewrite try_iso_formats_first.
  destruct (first_iso_format s) as [[[[value typid] typmod] tz]|].
  - unfold ret at 1. cbn [jperIsError].
    destruct (negb (jspHasNext (jpiDatetime None None next)) && is_null_ptr found);
      reflexivity.
  - unfold RETURN_ERROR, unrecognized_datetime_format, invalid_datetime,
      jspThrowErrors, get, raise, ret, bind.
    destruct (throwErrors cxt); reflexivity.
Qed.

(** *** Error suppression

    Every executor function is [quiet]; the proof follows the call graph. *)

Lemma quiet_ret : forall A (a : A), quiet (ret a).
Proof. intros A a cxt H. exact H. Qed.

Lemma quiet_bind :
  forall A B (m : Exec A) (k : A -> Exec B),
    quiet m -> (forall a, quiet (k a)) -> quiet (bind m k).
Proof.
  intros A B m k Hm Hk cxt H. unfold bind.
  specialize (Hm cxt H). destruct (m cxt) as [[a cxt']| | |]; auto.
  apply (Hk a cxt' Hm).
Qed.

Lemma quiet_bind_get :
  forall B (k : JsonPathExecContext -> Exec B),
    (forall c, throwErrors c = false -> quiet (k c)) -> quiet (bind get k).
Proof. intros B k Hk cxt H. unfold bind, get. apply (Hk cxt H cxt H). Qed.

Lemma quiet_raise :
  forall A (e : PgError), suppressible e = false -> quiet (raise (A := A) e).
Proof. intros A e He cxt H. exact He. Qed.

Lemma quiet_undefined : forall A, quiet (undefined (A := A)).
Proof. intros A cxt H. exact I. Qed.

Lemma quiet_out_of_fuel : forall A, quiet (out_of_fuel (A := A)).
Proof. intros A cxt H. exact I. Qed.

Lemma quiet_modify :
  forall f, (forall c, throwErrors (f c) = throwErrors c) -> quiet (modify f).
Proof. intros f Hf cxt H. unfold modify. now rewrite Hf. Qed.

Lemma quiet_set_throwErrors_false : quiet (modify (set_throwErrors false)).
Proof. intros cxt H. reflexivity. Qed.

Lemma quiet_RETURN_ERROR :
  forall A (e : PgError) (a : A), quiet (RETURN_ERROR e a).
Proof.
  intros A e a cxt H. unfold RETURN_ERROR, bind, get, jspThrowErrors.
  rewrite H. exact H.
Qed.

Lemma quiet_foreach :
  forall X S R (xs : list X) (body : X -> S -> Exec (Ctl S R)) (s : S),
    (forall x s, quiet (body x s)) -> quiet (foreach xs body s).
Proof.
  intros X S R xs body s Hb. revert s.
  induction xs as [|x xs IH]; intros s; simpl.
  - apply quiet_ret.
  - apply quiet_bind; [apply Hb|].
    intros [s'|s'|r]; [apply IH | apply quiet_ret | apply quiet_ret].
Qed.

Lemma quiet_tryToParseDatetime :
  forall fmt datetime tzname strict tz,
    quiet (tryToParseDatetime fmt datetime tzname strict tz false).
Proof.
  intros. unfold tryToParseDatetime.
  destruct (parse_datetime _ _ _ _ _); apply quiet_ret.
Qed.

(** One step of the proofs below: split the monadic term at its head. *)
Ltac quiet_step :=
  cbv beta;
  match goal with
  | H : throwErrors ?c = false |- context [jspThrowErrors ?c] =>
      unfold jspThrowErrors; rewrite H; cbn [negb]
  | H : throwErrors ?c = false |- context [throwErrors ?c] =>
      rewrite H; cbn [negb]
  | |- quiet (ret _) => apply quiet_ret
  | |- quiet (bind get _) => apply quiet_bind_get; intros ? ?
  | |- quiet (bind _ _) => apply quiet_bind; [ | intros ? ]
  | |- quiet (raise _) => apply quiet_raise; reflexivity
  | |- quiet undefined => apply quiet_undefined
  | |- quiet (RETURN_ERROR _ _) => apply quiet_RETURN_ERROR
  | |- quiet (modify (set_throwErrors false)) =>
      apply quiet_set_throwErrors_false
  | |- quiet (modify _) => apply quiet_modify; intros; reflexivity
  | |- quiet (foreach _ _ _) => apply quiet_foreach; intros ? ?
  | |- quiet (tryToParseDatetime _ _ _ _ _ false) =>
      apply quiet_tryToParseDatetime
  | |- quiet (match ?x with _ => _ end) => destruct x
  | |- quiet ((match ?x with _ => _ end) _) => destruct x
  end.

Create HintDb quiet.

Ltac quiet_auto :=
  repeat (first [ solve [auto 2 with quiet nocore] | quiet_step ]).

Lemma quiet_setBaseObject : forall jbv id, quiet (setBaseObject jbv id).
Proof. intros. unfold setBaseObject. quiet_auto. Qed.
#[local] Hint Resolve quiet_setBaseObject : quiet.

Lemma quiet_pushJsonItem : forall item, quiet (pushJsonItem item).
Proof. intros. unfold pushJsonItem. quiet_auto. Qed.
#[local] Hint Resolve quiet_pushJsonItem : quiet.

Lemma quiet_popJsonItem : quiet popJsonItem.
Proof. unfold popJsonItem. quiet_auto. Qed.
#[local] Hint Resolve quiet_popJsonItem : quiet.

Lemma quiet_getJsonPathItem : forall item, quiet (getJsonPathItem item).
Proof. intros. unfold getJsonPathItem, getJsonPathVariable. quiet_auto. Qed.
#[local] Hint Resolve quiet_getJsonPathItem : quiet.

Section QuietExecutor.
Variable self : Self.
Hypothesis Hitem :
  forall jsp jb found unwrap,
    quiet (self_executeItemOptUnwrapTarget self jsp jb found unwrap).
Hypothesis Hbool :
  forall jsp jb canHaveNext, quiet (self_executeBoolItem self jsp jb canHaveNext).
Hypothesis Hany :
  forall jsp jbc found level first last ignore unwrapNext,
    quiet (self_executeAnyItem self jsp jbc found level first last ignore
             unwrapNext).

Lemma quiet_executeItem :
  forall jsp jb found, quiet (executeItem self jsp jb found).
Proof. intros. unfold executeItem. quiet_auto. Qed.
Hint Resolve quiet_executeItem : quiet.

Lemma quiet_executeNextItem :
  forall cur next v found copy,
    quiet (executeNextItem self cur next v found copy).
Proof. intros. unfold executeNextItem. quiet_auto. Qed.
Hint Resolve quiet_executeNextItem : quiet.

Lemma quiet_executeAnyItem :
  forall jsp jbc found level first last ignore unwrapNext,
    quiet (executeAnyItem self jsp jbc found level first last ignore unwrapNext).
Proof. intros. unfold executeAnyItem. quiet_auto. Qed.
Hint Resolve quiet_executeAnyItem : quiet.

Lemma quiet_executeItemUnwrapTargetArray :
  forall jsp jb found unwrapElements,
    quiet (executeItemUnwrapTargetArray self jsp jb found unwrapElements).
Proof. intros. unfold executeItemUnwrapTargetArray. quiet_auto. Qed.
Hint Resolve quiet_executeItemUnwrapTargetArray : quiet.

Lemma quiet_executeItemOptUnwrapResult :
  forall jsp jb unwrap found,
    quiet (executeItemOptUnwrapResult self jsp jb unwrap found).
Proof. intros. unfold executeItemOptUnwrapResult. quiet_auto. Qed.
Hint Resolve quiet_executeItemOptUnwrapResult : quiet.

Lemma quiet_executeItemOptUnwrapResultNoThrow :
  forall jsp jb unwrap found,
    quiet (executeItemOptUnwrapResultNoThrow self jsp jb unwrap found).
Proof. intros. unfold executeItemOptUnwrapResultNoThrow. quiet_auto. Qed.
Hint Resolve quiet_executeItemOptUnwrapResultNoThrow : quiet.

Lemma quiet_executePredicate :
  forall pred larg rarg jb unwrapRightArg exec,
    quiet (executePredicate self pred larg rarg jb unwrapRightArg exec).
Proof. intros. unfold executePredicate. quiet_auto. Qed.
Hint Resolve quiet_executePredicate : quiet.

Lemma quiet_executeBinaryArithmExpr :
  forall jsp larg rarg jb func found,
    quiet (executeBinaryArithmExpr self jsp larg rarg jb func found).
Proof. intros. unfold executeBinaryArithmExpr. quiet_auto. Qed.
Hint Resolve quiet_executeBinaryArithmExpr : quiet.

Lemma quiet_executeUnaryArithmExpr :
  forall jsp arg jb func found,
    quiet (executeUnaryArithmExpr self jsp arg jb func found).
Proof. intros. unfold executeUnaryArithmExpr. quiet_auto. Qed.
Hint Resolve quiet_executeUnaryArithmExpr : quiet.

Lemma quiet_executeNumericItemMethod :
  forall jsp jb unwrap func found,
    quiet (executeNumericItemMethod self jsp jb unwrap func found).
Proof. intros. unfold executeNumericItemMethod. quiet_auto. Qed.
Hint Resolve quiet_executeNumericItemMethod : quiet.

Lemma quiet_executeKeyValueMethod :
  forall jsp jb found, quiet (executeKeyValueMethod self jsp jb found).
Proof. intros. unfold executeKeyValueMethod. quiet_auto. Qed.
Hint Resolve quiet_executeKeyValueMethod : quiet.

Lemma quiet_appendBoolResult :
  forall jsp found res, quiet (appendBoolResult self jsp found res).
Proof. intros. unfold appendBoolResult. quiet_auto. Qed.
Hint Resolve quiet_appendBoolResult : quiet.

Lemma quiet_getArrayIndex :
  forall jsp jb, quiet (getArrayIndex self jsp jb).
Proof. intros. unfold getArrayIndex. quiet_auto. Qed.
Hint Resolve quiet_getArrayIndex : quiet.

Lemma quiet_executeBoolItem :
  forall jsp jb canHaveNext, quiet (executeBoolItem self jsp jb canHaveNext).
Proof. intros. unfold executeBoolItem. quiet_auto. Qed.
Hint Resolve quiet_executeBoolItem : quiet.

Lemma quiet_executeNestedBoolItem :
  forall jsp jb, quiet (executeNestedBoolItem self jsp jb).
Proof. intros. unfold executeNestedBoolItem. quiet_auto. Qed.
Hint Resolve quiet_executeNestedBoolItem : quiet.

Lemma quiet_executeIndexArray :
  forall jsp elems jb found, quiet (executeIndexArray self jsp elems jb found).
Proof. intros. unfold executeIndexArray. quiet_auto. Qed.
Hint Resolve quiet_executeIndexArray : quiet.

Lemma quiet_try_iso_formats :
  forall datetime tzname tz, quiet (try_iso_formats datetime tzname tz).
Proof. intros. unfold try_iso_formats. quiet_auto. Qed.
Hint Resolve quiet_try_iso_formats : quiet.

Lemma quiet_executeDatetimeMethod :
  forall jsp larg rarg jb found unwrap,
    quiet (executeDatetimeMethod self jsp larg rarg jb found unwrap).
Proof. intros. unfold executeDatetimeMethod. quiet_auto. Qed.
Hint Resolve quiet_executeDatetimeMethod : quiet.

Lemma quiet_executeItemOptUnwrapTarget :
  forall jsp jb found unwrap,
    quiet (executeItemOptUnwrapTarget self jsp jb found unwrap).
Proof. intros. unfold executeItemOptUnwrapTarget. quiet_auto. Qed.

End QuietExecutor.

Lemma quiet_unroll : forall fuel : nat, quiet_self (unroll fuel).
Proof.
  induction fuel as [|n [Hitem [Hbool Hany]]].
  - repeat split; intros; apply quiet_out_of_fuel.
  - repeat split; intros; cbn [unroll self_executeItemOptUnwrapTarget
                                self_executeBoolItem self_executeAnyItem].
    + apply quiet_executeItemOptUnwrapTarget; assumption.
    + apply quiet_executeBoolItem; assumption.
    + apply quiet_executeAnyItem; assumption.
Qed.

Lemma quiet_executeJsonPath_run :
  forall fuel jsp jsi result,
    quiet (executeJsonPath_run (unroll fuel) jsp jsi result).
Proof.
  intros. destruct (quiet_unroll fuel) as [Hitem [Hbool Hany]].
  pose proof (quiet_executeItem (unroll fuel) Hitem) as HI.
  unfold executeJsonPath_run. quiet_auto.
Qed.

(** executeJsonPath with [throwErrors == false] throws no suppressible
    error. *)
Lemma executeJsonPath_no_throw :
  forall fuel path vars json result e,
    executeJsonPath fuel path vars json false result = Raised e ->
    suppressible e = false.
Proof.
  intros fuel path vars json result e. unfold executeJsonPath.
  destruct vars as [v|]; cbn [getJsonPathVariableFromJsonb_count].
  1: destruct (negb (JsonContainerIsObject (jsonb_root v)));
       [intros [= <-]; reflexivity|].
  all: match goal with
       | |- context [executeJsonPath_run ?s ?j ?i ?r ?c] =>
           pose proof (quiet_executeJsonPath_run fuel j i r c eq_refl) as Q;
           destruct (executeJsonPath_run s j i r c) as [[r' c']| | |]
       end; intros [= <-]; exact Q.
Qed.


Lemma executeUserFunc_two_args :
  forall fuel jb jp with_cxt copy,
    executeUserFunc fuel (fcinfo2 jb jp) with_cxt copy =
    map_outcome
      (fun '(res, found) =>
         Done (res,
               if with_cxt
               then Some {| uf_jb := jb; uf_jp := jp; uf_vars := None;
                            uf_found := found_list found; uf_silent := true |}
               else None))
      (executeJsonPath fuel jp None jb false
         (if with_cxt then Some [] else None)).
Proof.
  intros. unfold executeUserFunc, user_func_vars_silent, map_outcome.
  cbn [PG_GETARG_JSONB_P_0 PG_GETARG_JSONPATH_P_1 negb].
  destruct (executeJsonPath fuel jp None jb false _) as [[res found]| | |];
    reflexivity.
Qed.

(** C10 (as the code has it).  Called with two arguments, the five entry
    points run the executor with silent = true, that is with
    [throwErrors == false] and no variables, and none of them throws a
    suppressible error.  jsonb_path_exists returns NULL when the executor
    reports jperError; jsonb_path_query, jsonb_path_query_array and
    jsonb_path_query_first ignore the executor's status and return what
    the result list holds when the executor stops, which is empty (or NULL)
    only if nothing was found before the error. *)
Theorem two_argument_form_is_silent :
  forall (fuel : nat) (jb : Jsonb) (jp : JsonPath),
    let fcinfo := fcinfo2 jb jp in
    let run result := executeJsonPath fuel jp None jb false result in
    user_func_vars_silent fcinfo = (None, true)
    /\ (forall e,
           jsonb_path_exists fuel fcinfo = Raised e
           \/ jsonb_path_match fuel fcinfo = Raised e
           \/ jsonb_path_query fuel fcinfo = Raised e
           \/ jsonb_path_query_array fuel fcinfo = Raised e
           \/ jsonb_path_query_first fuel fcinfo = Raised e ->
           suppressible e = false)
    /\ (forall found,
           run None = Done (jperError, found) ->
           jsonb_path_exists fuel fcinfo = Done PG_RETURN_NULL)
    /\ (forall res found,
           run (Some []) = Done (res, found) ->
           jsonb_path_query fuel fcinfo = Done (SRF_ROWS (found_list found))
           /\ jsonb_path_query_array fuel fcinfo
              = Done (PG_RETURN_JSONB_ARRAY (found_list found))
           /\ jsonb_path_query_first fuel fcinfo
              = Done (match found_list found with
                      | jb :: _ => PG_RETURN_JSONB_P jb
                      | [] => PG_RETURN_NULL
                      end)).
Proof.
  intros fuel jb jp fcinfo run. subst fcinfo run.
  split; [reflexivity|]. split; [|split].
  - intros e H.
    unfold jsonb_path_exists, jsonb_path_match, jsonb_path_query,
      jsonb_path_query_array, jsonb_path_query_first in H.
    rewrite !executeUserFunc_two_args in H.
    pose proof (executeJsonPath_no_throw fuel jp None jb None e) as Q1.
    pose proof (executeJsonPath_no_throw fuel jp None jb (Some []) e) as Q2.
    cbv beta iota in H.
    destruct (executeJsonPath fuel jp None jb false None)
      as [[res1 found1]| | |];
      destruct (executeJsonPath fuel jp None jb false (Some []))
        as [[res2 found2]| | |];
      cbn in H;
      repeat match goal with
             | H : _ \/ _ |- _ => destruct H as [H|H]
             end;
      try discriminate; auto.
    all: repeat match type of H with
                | context [if ?b then _ else _] => destruct b
                | context [match ?x with _ => _ end] => destruct x
                end; try discriminate.
    all: injection H as H; subst;
      solve [ apply Q1; reflexivity | apply Q2; reflexivity ].
  - intros found H. unfold jsonb_path_exists.
    rewrite executeUserFunc_two_args. cbv beta iota. rewrite H. reflexivity.
  - intros res found H.
    unfold jsonb_path_query, jsonb_path_query_array, jsonb_path_query_first.
    rewrite !executeUserFunc_two_args. cbv beta iota. rewrite H. cbn.
    repeat split.
    destruct (found_list found) as [|x xs]; [reflexivity|].
    unfold JsonValueListLength. cbn [List.length hd_error JsonValueListHead].
    destruct (Z.of_nat (S (List.length xs)) >=? 1) eqn:E; [reflexivity|].
    rewrite Z.geb_leb in E. apply Z.leb_gt in E. lia.
Qed.

Lemma set_lastGeneratedObjectId_twice :
  forall (cxt : JsonPathExecContext) (n m : Z),
    set_lastGeneratedObjectId m (set_lastGeneratedObjectId n cxt)
    = set_lastGeneratedObjectId m cxt.
Proof. intros [] n m. reflexivity. Qed.

(** C1 (as the code has it).  [.keyvalue()] at the end of a path, applied to
    an object with at least one pair and writing into a result list: it
    appends one object per pair, in the object's order, and every one of
    them carries the same "id", 10^10 * (id of the base object) + (offset of
    the object's container from the base object's), which is congruent to
    that offset modulo 10^10.  The id names the object the pairs come from,
    not the pair.  Each generated object takes one value of the id counter
    as its own base-object id. *)
Theorem keyvalue_objects_share_one_id :
  forall (self : Self) (addr : Z) (p : string * JsonItem)
         (ps : list (string * JsonItem)) (found : JsonValueList)
         (cxt : JsonPathExecContext),
    let offset := addr - base_addr (baseObject cxt) in
    let id := offset + id_of (baseObject cxt) * 10000000000 in
    let idval := jbvNumeric (int8_numeric id) in
    executeKeyValueMethod self (jpiKeyValue None)
      (jbvBinary (JObject addr (p :: ps))) (Some found) cxt
    = Done ((jperOk,
             Some (found ++
                   map (fun kv => keyvalue_object (fst kv) (snd kv) idval)
                       (p :: ps))),
            set_lastGeneratedObjectId
              (lastGeneratedObjectId cxt + Z.of_nat (List.length (p :: ps)))
              cxt)
    /\ id mod 10000000000 = offset mod 10000000000.
Proof.
  intros self addr p ps found cxt offset id idval.
  split; [|subst id; apply Z_mod_plus_full].
  unfold executeKeyValueMethod.
  cbn [JsonbType JsonContainerIsObject jbvType_eqb negb JsonContainerSize
       container_pairs container_addr jspHasNext jspGetNext].
  replace (Z.of_nat (List.length (p :: ps)) =? 0) with false
    by (symmetry; apply Z.eqb_neq; cbn [List.length]; lia).
  unfold bind at 1. unfold get at 1.
  fold offset. fold id. fold idval.
  match goal with
  | |- context [foreach _ ?b _] => set (body := b)
  end.
  assert (Loop : forall pairs res l c,
             baseObject c = baseObject cxt ->
             foreach pairs body (res, Some l) c
             = Done (inl (match pairs with [] => res | _ => jperOk end,
                          Some (l ++ map (fun kv =>
                                            keyvalue_object (fst kv) (snd kv)
                                              idval) pairs)),
                     set_lastGeneratedObjectId
                       (lastGeneratedObjectId c + Z.of_nat (List.length pairs))
                       c)).
  { induction pairs as [|[key val] pairs IH]; intros res l c Hb.
    - cbn. rewrite app_nil_r, Z.add_0_r. destruct c; reflexivity.
    - cbn [foreach]. unfold bind at 1.
      assert (Step : body (key, val) (res, Some l) c
                     = Done (Next (jperOk,
                                   Some (l ++ [keyvalue_object key val idval])),
                             set_lastGeneratedObjectId
                               (lastGeneratedObjectId c + 1) c)).
      { unfold body. cbn [negb andb is_null_ptr].
        unfold setBaseObject, executeNextItem, bind, get, modify, ret.
        destruct c; reflexivity. }
      rewrite Step.
      rewrite IH by (destruct c; exact Hb).
      rewrite set_lastGeneratedObjectId_twice.
      cbn [map fst snd]. rewrite <- app_assoc. cbn [app].
      replace (lastGeneratedObjectId
                 (set_lastGeneratedObjectId (lastGeneratedObjectId c + 1) c)
               + Z.of_nat (List.length pairs))
        with (lastGeneratedObjectId c
              + Z.of_nat (List.length ((key, val) :: pairs)))
        by (destruct c; cbn [lastGeneratedObjectId set_lastGeneratedObjectId
                             List.length]; lia).
      destruct pairs; reflexivity. }
  unfold bind. rewrite Loop by reflexivity. reflexivity.
Qed.

(** *** Array subscripts *)

(** Replace the call the goal is waiting on by its known outcome [E]. *)
Ltac run_with E :=
  match type of E with
  | _ = ?Y =>
      match goal with
      | |- context [match ?X with Done _ => _ | Raised _ => _
                             | OutOfFuel => _ | Undefined => _ end] =>
          let TX := type of X in
          let TY := type of Y in
          unify TX TY;
          replace X with Y by (symmetry; exact E)
      end
  end; cbv beta iota.


Lemma skipn_nth_error :
  forall (A : Type) (m : nat) (l : list A),
    match skipn m l with
    | [] => nth_error l m = None /\ skipn (S m) l = []
    | x :: rest => nth_error l m = Some x /\ skipn (S m) l = rest
    end.
Proof.
  intros A m. induction m as [|m IH]; intros [|a l]; try (cbn; auto; fail).
  exact (IH l).
Qed.

Lemma nth_range_slice :
  forall (elems : list JsonItem) (n : nat) (from : Z),
    0 <= from ->
    flat_map (fun i => opt_list (if i <? 0 then None else nth_error elems (Z.to_nat i)))
      (map (fun k => from + Z.of_nat k) (seq 0 n))
    = firstn n (skipn (Z.to_nat from) elems).
Proof.
  intros elems n. induction n as [|n IH]; intros from Hf.
  - reflexivity.
  - cbn [seq map flat_map]. rewrite <- seq_shift, map_map.
    rewrite (map_ext _ (fun k => (from + 1) + Z.of_nat k))
      by (intros; lia).
    rewrite IH by lia.
    rewrite Z.add_0_r.
    replace (from <? 0) with false by (symmetry; apply Z.ltb_ge; lia).
    replace (Z.to_nat (from + 1)) with (S (Z.to_nat from)) by lia.
    pose proof (skipn_nth_error _ (Z.to_nat from) elems) as H.
    destruct (skipn (Z.to_nat from) elems) as [|x rest];
      destruct H as [H1 H2]; rewrite H1, H2; cbn.
    + now destruct n.
    + reflexivity.
Qed.

Lemma set_innermostArraySize_restore :
  forall (cxt : JsonPathExecContext) (n : Z),
    set_innermostArraySize (innermostArraySize cxt)
      (set_innermostArraySize n cxt) = cxt.
Proof. intros [] n. reflexivity. Qed.


(** A loop whose every step appends to the list, keeps the context and goes
    on appends the steps' items in order. *)
Lemma foreach_appends :
  forall (X Y : Type) (R : X -> Y -> Prop) (f : Y -> list JsonItem)
         (body : X -> JsonPathExecResult * Found ->
                 Exec (Ctl (JsonPathExecResult * Found) Res))
         (c : JsonPathExecContext),
    (forall x y res l,
        R x y -> jperIsError res = false ->
        exists res',
          body x (res, Some l) c = Done (Next (res', Some (l ++ f y)), c)
          /\ jperIsError res' = false) ->
    forall xs ys,
      Forall2 R xs ys ->
      forall res l,
        jperIsError res = false ->
        exists res',
          foreach xs body (res, Some l) c
          = Done (inl (res', Some (l ++ flat_map f ys)), c)
          /\ jperIsError res' = false.
Proof.
  intros X Y R f body c Hstep xs ys HR.
  induction HR as [|x y xs ys Hxy HR IH]; intros res l Hres.
  - exists res. cbn. now rewrite app_nil_r.
  - destruct (Hstep x y res l Hxy Hres) as [res1 [E1 H1]].
    destruct (IH res1 (l ++ f y) H1) as [res2 [E2 H2]].
    exists res2. cbn [foreach flat_map]. unfold bind. rewrite E1.
    cbv beta iota. split; [rewrite app_assoc; exact E2 | exact H2].
Qed.

Lemma Forall2_eq_refl : forall (A : Type) (l : list A), Forall2 eq l l.
Proof. induction l; constructor; auto. Qed.

(** The loop over the indices of one subscript, for a path that ends at the
    subscript and a result list. *)
Lemma index_loop_appends :
  forall (self : Self) (jsp : JsonPathItem) (data : JsonbContainer)
         (indices : list Z) (res : JsonPathExecResult) (l : JsonValueList)
         (c : JsonPathExecContext),
    jspGetNext jsp = None ->
    jperIsError res = false ->
    exists res',
      foreach indices
        (fun (index : Z) '(res2, found0) =>
           match getIthJsonbValueFromContainer data index with
           | Some jsi =>
               if is_null_ptr found0
               then ret (Return (jperOk, found0))
               else
                 x1 <- executeNextItem self (Some jsp) None jsi found0 false ;;
                 (let (res3, found1) := x1 in
                  if jperIsError res3
                  then ret (Break (res3, found1))
                  else if jperIsOk res3 && is_null_ptr found1
                       then ret (Break (res3, found1))
                       else ret (Next (res3, found1)))
           | None => ret (Next (res2, found0))
           end)
        (res, Some l) c
      = Done (inl (res',
                   Some (l ++ flat_map
                                (fun i => opt_list
                                            (getIthJsonbValueFromContainer data i))
                                indices)), c)
      /\ jperIsError res' = false.
Proof.
  intros self jsp data indices res l c Hnext Hres.
  apply (foreach_appends Z Z eq
           (fun i => opt_list (getIthJsonbValueFromContainer data i)));
    [|apply Forall2_eq_refl|exact Hres].
  intros x y res0 l0 <- H0.
  destruct (getIthJsonbValueFromContainer data x) as [jsi|]; cbn [opt_list].
  - exists jperOk. split; [|reflexivity].
    cbn [is_null_ptr]. unfold executeNextItem, bind, ret. rewrite Hnext.
    reflexivity.
  - exists res0. rewrite app_nil_r. split; [reflexivity|exact H0].
Qed.

Lemma clamp_from : forall f : Z, (if f <? 0 then 0 else f) = Z.max 0 f.
Proof. intros f. destruct (Z.ltb_spec f 0); lia. Qed.

Lemma clamp_to :
  forall t size : Z, (if t >=? size then size - 1 else t) = Z.min (size - 1) t.
Proof. intros t size. rewrite Z.geb_leb. destruct (Z.leb_spec size t); lia. Qed.

Lemma index_range_slice :
  forall (addr : Z) (sc : bool) (elems : list JsonItem) (b : Z * Z),
    flat_map (fun i => opt_list (getIthJsonbValueFromContainer
                                   (JArray addr sc elems) i))
      (Zrange (Z.max 0 (fst b))
         (Z.min (Z.of_nat (List.length elems) - 1) (snd b)))
    = clamped_slice elems b.
Proof.
  intros. unfold clamped_slice, array_slice, Zrange.
  cbn [getIthJsonbValueFromContainer].
  apply nth_range_slice. lia.
Qed.


Lemma clamped_slice_incl :
  forall (elems : list JsonItem) (b : Z * Z), incl (clamped_slice elems b) elems.
Proof.
  intros elems b x H. unfold clamped_slice, array_slice in H.
  set (n := Z.to_nat _) in H. set (m := Z.to_nat _) in H.
  rewrite <- (firstn_skipn m elems). apply in_or_app. right.
  rewrite <- (firstn_skipn n (skipn m elems)). apply in_or_app. now left.
Qed.

(** C6 (as the code has it).  An array subscript list [subscripts] at the
    end of a path, applied to an array with [size] elements and writing into
    a result list, where every subscript expression evaluates to its bounds.
    What decides between an error and clamping is [ignoreStructuralErrors],
    which is the lax flag at the top level and is switched on inside a [.**]
    descent even in strict mode.
    - [ignoreStructuralErrors] off: if some subscript has index_from < 0,
      index_from > index_to or index_to >= size, the invalidSubscript error
      is signalled (thrown, or returned as jperError under
      [throwErrors == false]).
    - [ignoreStructuralErrors] on, or all subscripts within bounds:
      index_from is clamped to 0 and index_to to size - 1, an empty range
      contributes nothing, and the elements appended are the clamped slices
      in the order of the subscript list, ascending within each range; the
      context is left as it was.
    - The appended elements are all elements of the array. *)
Theorem index_array_bounds :
  forall (self : Self) (addr : Z) (elems : list JsonItem)
         (subs : list (JsonPathItem * option JsonPathItem))
         (bounds : list (Z * Z)) (l : JsonValueList) (unwrap : bool)
         (cxt : JsonPathExecContext),
    let jb := jbvBinary (JArray addr false elems) in
    let size := Z.of_nat (List.length elems) in
    let jsp := jpiIndexArray subs None in
    let run := executeItemOptUnwrapTarget self jsp jb (Some l) unwrap cxt in
    Forall2 (subscript_evaluates self jb (set_innermostArraySize size cxt))
      subs bounds ->
    (ignoreStructuralErrors cxt = false ->
     forallb (in_bounds size) bounds = false ->
     (throwErrors cxt = true -> run = Raised invalid_subscript)
     /\ (throwErrors cxt = false ->
         exists found' cxt', run = Done ((jperError, found'), cxt')))
    /\
    (ignoreStructuralErrors cxt = true
     \/ forallb (in_bounds size) bounds = true ->
     exists res,
       run = Done ((res, Some (l ++ flat_map (clamped_slice elems) bounds)), cxt)
       /\ jperIsError res = false)
    /\ incl (flat_map (clamped_slice elems) bounds) elems.
Proof.
  intros self addr elems subs bounds l unwrap cxt jb size jsp run Hsub.
  assert (Erun : run = executeItemOptUnwrapTarget self jsp jb (Some l) unwrap cxt)
    by reflexivity.
  clearbody run.
  unfold executeItemOptUnwrapTarget in Erun. subst jsp. cbv iota beta in Erun.
  unfold executeIndexArray in Erun.
  unfold bind at 1 in Erun. unfold get at 1 in Erun.
  cbn [JsonbType jb JsonContainerIsObject jbvType_eqb orb JsonbArraySize
       JsonContainerIsArray JsonContainerIsScalar negb andb JsonContainerSize]
    in Erun.
  fold size in Erun.
  replace (size <? 0) with false in Erun by (symmetry; apply Z.ltb_ge; lia).
  cbn [jspHasNext jspGetNext negb andb] in Erun.
  unfold bind at 1 in Erun. unfold modify at 1 in Erun.
  set (c1 := set_innermostArraySize size cxt) in *.
  match type of Erun with
  | context [foreach subs ?b _] => set (outer := b) in Erun
  end.
  assert (Step : forall sub b res l0,
             subscript_evaluates self jb c1 sub b
             /\ (ignoreStructuralErrors cxt = true \/ in_bounds size b = true) ->
             jperIsError res = false ->
             exists res',
               outer sub (res, Some l0) c1
               = Done (Next (res', Some (l0 ++ clamped_slice elems b)), c1)
               /\ jperIsError res' = false).
  { intros [from to] [f t] res l0 [[E1 E2] Hb] Hres.
    cbn [fst snd] in E1, E2.
    unfold outer. unfold bind at 1. rewrite E1. cbv beta iota.
    cbn [jperIsError].
    assert (E2' : match to with
                  | Some to0 => getArrayIndex self to0 jb
                  | None => ret (jperOk, f)
                  end c1 = Done ((jperOk, t), c1)).
    { destruct to; [exact E2|]. now rewrite E2. }
    unfold bind at 1. rewrite E2'. cbv beta iota. cbn [jperIsError].
    unfold bind at 1. unfold get at 1.
    replace (negb (jspIgnoreStructuralErrors c1)
             && ((f <? 0) || (f >? t) || (t >=? size))) with false.
    2:{ symmetry. destruct Hb as [Hb|Hb].
        - unfold jspIgnoreStructuralErrors, c1.
          cbn [set_innermostArraySize ignoreStructuralErrors].
          now rewrite Hb.
        - unfold in_bounds in Hb. cbn [fst snd] in Hb.
          apply andb_true_iff in Hb. destruct Hb as [Hb H3].
          apply andb_true_iff in Hb. destruct Hb as [H1 H2].
          apply Z.leb_le in H1, H2. apply Z.ltb_lt in H3.
          replace (f <? 0) with false by (symmetry; apply Z.ltb_ge; lia).
          replace (f >? t) with false
            by (symmetry; rewrite Z.gtb_ltb; apply Z.ltb_ge; lia).
          replace (t >=? size) with false
            by (symmetry; rewrite Z.geb_leb; apply Z.leb_gt; lia).
          now rewrite andb_false_r. }
    rewrite clamp_from, clamp_to.
    destruct (index_loop_appends self (jpiIndexArray subs None)
                (JArray addr false elems)
                (Zrange (Z.max 0 f) (Z.min (size - 1) t))
                jperNotFound l0 c1 eq_refl eq_refl) as [res' [EL HL]].
    unfold bind at 1.
    run_with EL. rewrite HL.
    cbn [is_null_ptr]. rewrite andb_false_r.
    exists res'. split; [|exact HL].
    unfold ret.
    rewrite <- (index_range_slice addr false elems (f, t)). reflexivity. }
  assert (Rel : forall bs,
             ignoreStructuralErrors cxt = true
             \/ forallb (in_bounds size) bs = true ->
             forall ss,
               Forall2 (subscript_evaluates self jb c1) ss bs ->
               Forall2 (fun sub b =>
                          subscript_evaluates self jb c1 sub b
                          /\ (ignoreStructuralErrors cxt = true
                              \/ in_bounds size b = true)) ss bs).
  { intros bs Hb ss H. induction H as [|s b ss bs Hsb H IH].
    - constructor.
    - constructor.
      + split; [exact Hsb|]. destruct Hb as [Hb|Hb]; [now left|right].
        cbn in Hb. now apply andb_true_iff in Hb.
      + apply IH. destruct Hb as [Hb|Hb]; [now left|right].
        cbn in Hb. now apply andb_true_iff in Hb. }
  assert (Bad : forall sub b res l0,
             subscript_evaluates self jb c1 sub b ->
             ignoreStructuralErrors cxt = false ->
             in_bounds size b = false ->
             outer sub (res, Some l0) c1
             = if throwErrors cxt then Raised invalid_subscript
               else Done (Return (jperError, Some l0), c1)).
  { intros [from to] [f t] res l0 [E1 E2] Hi Hb.
    cbn [fst snd] in E1, E2.
    unfold outer. unfold bind at 1. rewrite E1. cbv beta iota.
    cbn [jperIsError].
    assert (E2' : match to with
                  | Some to0 => getArrayIndex self to0 jb
                  | None => ret (jperOk, f)
                  end c1 = Done ((jperOk, t), c1)).
    { destruct to; [exact E2|]. now rewrite E2. }
    unfold bind at 1. rewrite E2'. cbv beta iota. cbn [jperIsError].
    unfold bind at 1. unfold get at 1.
    replace (negb (jspIgnoreStructuralErrors c1)
             && ((f <? 0) || (f >? t) || (t >=? size))) with true.
    2:{ symmetry. unfold jspIgnoreStructuralErrors, c1.
        cbn [set_innermostArraySize ignoreStructuralErrors].
        rewrite Hi. cbn [negb andb].
        unfold in_bounds in Hb. cbn [fst snd] in Hb.
        rewrite Z.gtb_ltb, Z.geb_leb.
        destruct (Z.ltb_spec f 0); [reflexivity|].
        destruct (Z.ltb_spec t f); [reflexivity|].
        destruct (Z.leb_spec size t); [reflexivity|].
        exfalso.
        replace (0 <=? f) with true in Hb by (symmetry; apply Z.leb_le; lia).
        replace (f <=? t) with true in Hb by (symmetry; apply Z.leb_le; lia).
        replace (t <? size) with true in Hb by (symmetry; apply Z.ltb_lt; lia).
        discriminate. }
    unfold RETURN_ERROR, bind, get, jspThrowErrors, raise, ret, c1.
    cbn [set_innermostArraySize throwErrors].
    destruct (throwErrors cxt); reflexivity. }
  assert (Err : forall ss bs,
             Forall2 (subscript_evaluates self jb c1) ss bs ->
             ignoreStructuralErrors cxt = false ->
             forallb (in_bounds size) bs = false ->
             forall res l0,
               jperIsError res = false ->
               (throwErrors cxt = true ->
                foreach ss outer (res, Some l0) c1 = Raised invalid_subscript)
               /\ (throwErrors cxt = false ->
                   exists l',
                     foreach ss outer (res, Some l0) c1
                     = Done (inr (jperError, Some l'), c1))).
  { intros ss bs H Hi. induction H as [|s b ss bs Hsb H IH];
      intros Hb res l0 Hres; [discriminate|].
    cbn [forallb] in Hb. cbn [foreach]. unfold bind.
    destruct (in_bounds size b) eqn:Eb.
    - destruct (Step s b res l0 (conj Hsb (or_intror Eb)) Hres)
        as [res1 [E1 H1]].
      rewrite E1. cbv beta iota.
      apply (IH Hb res1 _ H1).
    - rewrite (Bad s b res l0 Hsb Hi Eb).
      split; intros Ht; rewrite Ht; [reflexivity|].
      exists l0. reflexivity. }
  split; [|split].
  - intros Hi Hb.
    destruct (Err subs bounds Hsub Hi Hb jperNotFound l eq_refl) as [E1 E2].
    split; intros Ht.
    + rewrite Erun. unfold bind. specialize (E1 Ht). run_with E1.
      reflexivity.
    + destruct (E2 Ht) as [l' E]. exists (Some l'), c1.
      rewrite Erun. unfold bind. run_with E. reflexivity.
  - intros Hok.
    destruct (foreach_appends _ _ _ (clamped_slice elems) outer c1 Step
                subs bounds (Rel bounds Hok subs Hsub) jperNotFound l eq_refl)
      as [res [E H]].
    exists res. split; [|exact H].
    rewrite Erun. unfold bind at 1. run_with E.
    unfold bind, modify, ret. unfold c1.
    now rewrite set_innermostArraySize_restore.
  - intros x Hx. apply in_flat_map in Hx. destruct Hx as [b [_ Hx]].
    exact (clamped_slice_incl elems b x Hx).
Qed.

(** A filter whose predicate is not true, in whatever mode, keeps nothing
    of the item and is not an error. *)
Lemma filter_not_true :
  forall (self : Self) elem next jb found cxt cxt' st,
    executeNestedBoolItem self elem jb cxt = Done (st, cxt') ->
    st <> jpbTrue ->
    executeItemOptUnwrapTarget self (jpiFilter elem next) jb found false cxt
    = Done ((jperNotFound, found), cxt').
Proof.
  intros self elem next jb found cxt cxt' st E Hst.
  cbn [executeItemOptUnwrapTarget andb]. unfold bind. rewrite E.
  destruct st; try reflexivity; congruence.
Qed.

(** ** Further properties of the executor *)

(** *** Reasoning about what an evaluation establishes *)

Lemma wp_ret : forall A (a : A) Q c, Q a c -> wp (ret a) Q c.
Proof. intros. exact H. Qed.

Lemma wp_bind :
  forall A B (m : Exec A) (k : A -> Exec B) Q c,
    wp m (fun a c' => wp (k a) Q c') c -> wp (bind m k) Q c.
Proof.
  intros A B m k Q c H. unfold wp, bind in *.
  destruct (m c) as [[a c']| | |]; auto.
Qed.

Lemma wp_get : forall Q c, Q c c -> wp get Q c.
Proof. intros. exact H. Qed.

Lemma wp_modify : forall f Q c, Q tt (f c) -> wp (modify f) Q c.
Proof. intros. exact H. Qed.

Lemma wp_RETURN_ERROR :
  forall A (e : PgError) (a : A) Q c, Q a c -> wp (RETURN_ERROR e a) Q c.
Proof.
  intros A e a Q c H. unfold wp, RETURN_ERROR, bind, get.
  destruct (jspThrowErrors c); [exact I | exact H].
Qed.

Lemma wp_conseq :
  forall A (m : Exec A) (P Q : A -> JsonPathExecContext -> Prop) c,
    wp m P c -> (forall a c', P a c' -> Q a c') -> wp m Q c.
Proof.
  intros A m P Q c H HQ. unfold wp in *.
  destruct (m c) as [[a c']| | |]; auto.
Qed.

Lemma wp_keeps :
  forall A (m : Exec A) Q c,
    keeps m -> (forall a c', frame c c' -> Q a c') -> wp m Q c.
Proof. intros A m Q c H HQ. eapply wp_conseq; [apply H | exact HQ]. Qed.

Lemma wp_foreach :
  forall X S R (I : S -> JsonPathExecContext -> Prop)
         (IR : R -> JsonPathExecContext -> Prop)
         (xs : list X) (body : X -> S -> Exec (Ctl S R)) s c Q,
    I s c ->
    (forall x s c1, I s c1 ->
       wp (body x s)
          (fun ctl c2 => match ctl with
                         | Next s' => I s' c2
                         | Break s' => I s' c2
                         | Return r => IR r c2
                         end) c1) ->
    (forall s c2, I s c2 -> Q (inl s) c2) ->
    (forall r c2, IR r c2 -> Q (inr r) c2) ->
    wp (foreach xs body s) Q c.
Proof.
  intros X S R I IR xs body s c Q HI Hb HQl HQr. revert s c HI.
  induction xs as [|x xs IH]; intros s c HI; simpl.
  - apply HQl, HI.
  - apply wp_bind. eapply wp_conseq; [apply (Hb x s c HI)|].
    intros [s'|s'|r] c' H; cbv beta iota in H.
    + apply IH, H.
    + apply HQl, H.
    + apply HQr, H.
Qed.

Lemma wp_any :
  forall A (m : Exec A) (Q : A -> JsonPathExecContext -> Prop) c,
    (forall a c', Q a c') -> wp m Q c.
Proof. intros A m Q c H. unfold wp. destruct (m c) as [[a c']| | |]; auto. Qed.

Lemma wp_and :
  forall A (m : Exec A) (P Q : A -> JsonPathExecContext -> Prop) c,
    wp m P c -> wp m Q c -> wp m (fun a c' => P a c' /\ Q a c') c.
Proof.
  intros A m P Q c HP HQ. unfold wp in *.
  destruct (m c) as [[a c']| | |]; auto.
Qed.

(** *** The context is restored *)

Lemma frame_refl : forall c, frame c c.
Proof. intros c. unfold frame. repeat split; lia. Qed.

Ltac frame_solve :=
  unfold frame, jspIgnoreStructuralErrors, jspThrowErrors in *;
  cbn [set_stack set_baseObject set_lastGeneratedObjectId
       set_innermostArraySize set_ignoreStructuralErrors set_throwErrors
       vars root stack baseObject lastGeneratedObjectId innermostArraySize
       laxMode ignoreStructuralErrors throwErrors] in *;
  repeat match goal with H : _ /\ _ |- _ => destruct H end;
  repeat split; first [congruence | lia].

Create HintDb keeps.

Ltac keeps_step c0 :=
  cbv beta;
  match goal with
  | |- wp (ret _) _ _ => apply wp_ret
  | |- wp (bind _ _) _ _ => apply wp_bind
  | |- wp get _ _ => apply wp_get
  | |- wp (modify _) _ _ => apply wp_modify
  | |- wp (raise _) _ _ => exact I
  | |- wp undefined _ _ => exact I
  | |- wp (RETURN_ERROR _ _) _ _ => apply wp_RETURN_ERROR
  | |- wp (foreach _ _ _) _ _ =>
      apply wp_foreach with (I := fun _ c => frame c0 c)
                            (IR := fun _ c => frame c0 c);
      [ | intros ? ? ? ? | intros ? ? ? | intros ? ? ? ]
  | |- wp (match ?x with _ => _ end) _ _ => destruct x eqn:?
  | |- wp ((match ?x with _ => _ end) _) _ _ => destruct x eqn:?
  | |- match ?x with _ => _ end => destruct x eqn:?
  | |- wp _ _ _ =>
      apply wp_keeps; [ solve [auto 2 with keeps nocore] | intros ? ? ? ]
  | |- frame _ _ => solve [frame_solve]
  end.

Ltac keeps_auto c0 := repeat (keeps_step c0).

Section KeepsExecutor.
Variable self : Self.
Hypothesis Hitem :
  forall jsp jb found unwrap,
    keeps (self_executeItemOptUnwrapTarget self jsp jb found unwrap).
Hypothesis Hbool :
  forall jsp jb canHaveNext, keeps (self_executeBoolItem self jsp jb canHaveNext).
Hypothesis Hany :
  forall jsp jbc found level first last ignore unwrapNext,
    keeps (self_executeAnyItem self jsp jbc found level first last ignore
             unwrapNext).
Hint Resolve Hitem Hbool Hany : keeps.

Lemma keeps_executeItem :
  forall jsp jb found, keeps (executeItem self jsp jb found).
Proof. intros jsp jb found c0. unfold executeItem. keeps_auto c0. Qed.
Hint Resolve keeps_executeItem : keeps.

Lemma keeps_executeNextItem :
  forall cur next v found copy,
    keeps (executeNextItem self cur next v found copy).
Proof. intros cur next v found copy c0. unfold executeNextItem. keeps_auto c0. Qed.
Hint Resolve keeps_executeNextItem : keeps.

Lemma keeps_executeAnyItem :
  forall jsp jbc found level first last ignore unwrapNext,
    keeps (executeAnyItem self jsp jbc found level first last ignore unwrapNext).
Proof. intros *. intros c0. unfold executeAnyItem. keeps_auto c0. Qed.
Hint Resolve keeps_executeAnyItem : keeps.

Lemma keeps_executeItemUnwrapTargetArray :
  forall jsp jb found unwrapElements,
    keeps (executeItemUnwrapTargetArray self jsp jb found unwrapElements).
Proof. intros * c0. unfold executeItemUnwrapTargetArray. keeps_auto c0. Qed.
Hint Resolve keeps_executeItemUnwrapTargetArray : keeps.

Lemma keeps_executeItemOptUnwrapResult :
  forall jsp jb unwrap found,
    keeps (executeItemOptUnwrapResult self jsp jb unwrap found).
Proof. intros * c0. unfold executeItemOptUnwrapResult. keeps_auto c0. Qed.
Hint Resolve keeps_executeItemOptUnwrapResult : keeps.

Lemma keeps_executeItemOptUnwrapResultNoThrow :
  forall jsp jb unwrap found,
    keeps (executeItemOptUnwrapResultNoThrow self jsp jb unwrap found).
Proof. intros * c0. unfold executeItemOptUnwrapResultNoThrow. keeps_auto c0. Qed.
Hint Resolve keeps_executeItemOptUnwrapResultNoThrow : keeps.

Lemma keeps_executePredicate :
  forall pred larg rarg jb unwrapRightArg exec,
    keeps (executePredicate self pred larg rarg jb unwrapRightArg exec).
Proof. intros * c0. unfold executePredicate. keeps_auto c0. Qed.
Hint Resolve keeps_executePredicate : keeps.

Lemma keeps_executeBinaryArithmExpr :
  forall jsp larg rarg jb func found,
    keeps (executeBinaryArithmExpr self jsp larg rarg jb func found).
Proof. intros * c0. unfold executeBinaryArithmExpr. keeps_auto c0. Qed.
Hint Resolve keeps_executeBinaryArithmExpr : keeps.

Lemma keeps_executeUnaryArithmExpr :
  forall jsp arg jb func found,
    keeps (executeUnaryArithmExpr self jsp arg jb func found).
Proof. intros * c0. unfold executeUnaryArithmExpr. keeps_auto c0. Qed.
Hint Resolve keeps_executeUnaryArithmExpr : keeps.

Lemma keeps_executeNumericItemMethod :
  forall jsp jb unwrap func found,
    keeps (executeNumericItemMethod self jsp jb unwrap func found).
Proof. intros * c0. unfold executeNumericItemMethod. keeps_auto c0. Qed.
Hint Resolve keeps_executeNumericItemMethod : keeps.

Lemma keeps_executeKeyValueMethod :
  forall jsp jb found, keeps (executeKeyValueMethod self jsp jb found).
Proof.
  intros * c0. unfold executeKeyValueMethod, setBaseObject. keeps_auto c0.
Qed.
Hint Resolve keeps_executeKeyValueMethod : keeps.

Lemma keeps_appendBoolResult :
  forall jsp found res, keeps (appendBoolResult self jsp found res).
Proof. intros * c0. unfold appendBoolResult. keeps_auto c0. Qed.
Hint Resolve keeps_appendBoolResult : keeps.

Lemma keeps_getArrayIndex :
  forall jsp jb, keeps (getArrayIndex self jsp jb).
Proof. intros * c0. unfold getArrayIndex. keeps_auto c0. Qed.
Hint Resolve keeps_getArrayIndex : keeps.

Lemma keeps_executeBoolItem :
  forall jsp jb canHaveNext, keeps (executeBoolItem self jsp jb canHaveNext).
Proof. intros * c0. unfold executeBoolItem. keeps_auto c0. Qed.
Hint Resolve keeps_executeBoolItem : keeps.

Lemma keeps_executeNestedBoolItem :
  forall jsp jb, keeps (executeNestedBoolItem self jsp jb).
Proof.
  intros * c0. unfold executeNestedBoolItem, pushJsonItem, popJsonItem.
  keeps_auto c0.
Qed.
Hint Resolve keeps_executeNestedBoolItem : keeps.

Lemma keeps_executeIndexArray :
  forall jsp elems jb found, keeps (executeIndexArray self jsp elems jb found).
Proof. intros * c0. unfold executeIndexArray. keeps_auto c0. Qed.
Hint Resolve keeps_executeIndexArray : keeps.

Lemma keeps_executeDatetimeMethod :
  forall jsp larg rarg jb found unwrap,
    keeps (executeDatetimeMethod self jsp larg rarg jb found unwrap).
Proof.
  intros * c0.
  unfold executeDatetimeMethod, try_iso_formats, tryToParseDatetime.
  keeps_auto c0.
Qed.
Hint Resolve keeps_executeDatetimeMethod : keeps.

Lemma keeps_executeItemOptUnwrapTarget :
  forall jsp jb found unwrap,
    keeps (executeItemOptUnwrapTarget self jsp jb found unwrap).
Proof.
  intros * c0.
  unfold executeItemOptUnwrapTarget, setBaseObject, getJsonPathItem,
    getJsonPathVariable, setBaseObject.
  keeps_auto c0.
Qed.

End KeepsExecutor.

Lemma keeps_unroll : forall fuel : nat, keeps_self (unroll fuel).
Proof.
  induction fuel as [|n [Hitem [Hbool Hany]]].
  - repeat split; intros; intros c; exact I.
  - repeat split; intros; cbn [unroll self_executeItemOptUnwrapTarget
                                self_executeBoolItem self_executeAnyItem].
    + apply keeps_executeItemOptUnwrapTarget; assumption.
    + apply keeps_executeBoolItem; assumption.
    + apply keeps_executeAnyItem; assumption.
Qed.

(** X1. Whatever a path item or a predicate evaluates to, when the call
    returns the context is as it was before the call: the variables, the
    root, the stack of current items, the base object and the three mode
    flags are restored, and the counter of generated objects has not gone
    back.  (innermostArraySize is not part of this.) *)
Theorem evaluation_restores_context :
  forall fuel : nat,
    (forall jsp jb found unwrap c r c',
        executeItemOptUnwrapTarget (unroll fuel) jsp jb found unwrap c
        = Done (r, c') ->
        frame c c')
    /\ (forall jsp jb canHaveNext c r c',
           executeBoolItem (unroll fuel) jsp jb canHaveNext c = Done (r, c') ->
           frame c c').
Proof.
  intros fuel. destruct (keeps_unroll fuel) as [Kitem [Kbool Kany]].
  split; intros.
  - pose proof (keeps_executeItemOptUnwrapTarget (unroll fuel) Kitem Kbool Kany
                  jsp jb found unwrap c) as K.
    unfold wp in K. rewrite H in K. exact K.
  - pose proof (keeps_executeBoolItem (unroll fuel) Kitem Kbool Kany
                  jsp jb canHaveNext c) as K.
    unfold wp in K. rewrite H in K. exact K.
Qed.

(** *** The result list only grows *)

Lemma extends_refl : forall f, extends f f.
Proof. intros [l|]; simpl; [exists []; now rewrite app_nil_r | exact I]. Qed.

Lemma extends_trans : forall a b c, extends a b -> extends b c -> extends a c.
Proof.
  intros [a|] [b|] [c|]; simpl; try tauto.
  intros [x ->] [y ->]. exists (x ++ y). now rewrite app_assoc.
Qed.

Lemma extends_append :
  forall f l v, extends f (Some l) -> extends f (Some (JsonValueListAppend l v)).
Proof.
  intros f l v H. eapply extends_trans; [exact H|].
  simpl. exists [v]. reflexivity.
Qed.

Lemma wp_grows :
  forall f (m : Exec Res) Q c,
    grows f m -> (forall r c', extends f (snd r) -> Q r c') -> wp m Q c.
Proof. intros f m Q c H HQ. eapply wp_conseq; [apply H | exact HQ]. Qed.

Ltac extends_solve :=
  subst; cbn [snd fst] in *;
  eauto 5 using extends_refl, extends_trans, extends_append.

Create HintDb grows.

Ltac grows_step f0 :=
  cbv beta;
  match goal with
  | |- wp (ret _) _ _ => apply wp_ret
  | |- wp (bind _ _) _ _ => apply wp_bind
  | |- wp get _ _ => apply wp_get
  | |- wp (modify _) _ _ => apply wp_modify
  | |- wp (raise _) _ _ => exact I
  | |- wp undefined _ _ => exact I
  | |- wp (RETURN_ERROR _ _) _ _ => apply wp_RETURN_ERROR
  | |- wp (foreach _ _ _) _ _ =>
      first [ apply wp_foreach with (I := fun s _ => extends f0 (snd s))
                                    (IR := fun r _ => extends f0 (snd r))
            | apply wp_foreach with (I := fun s _ => extends f0 s)
                                    (IR := fun r _ => extends f0 (snd r)) ];
      [ | intros ? ? ? ? | intros ? ? ? | intros ? ? ? ]
  | |- wp (match ?x with _ => _ end) _ _ => destruct x eqn:?
  | |- wp ((match ?x with _ => _ end) _) _ _ => destruct x eqn:?
  | |- match ?x with _ => _ end => destruct x eqn:?
  | |- extends _ _ =>
      first [ solve [extends_solve]
            | progress cbn [snd fst]
            | match goal with
              | |- context [match ?x with _ => _ end] => destruct x eqn:?
              end ]
  | |- wp _ _ _ =>
      first [ eapply wp_grows; [ solve [auto 2 with grows nocore] | intros ? ? ? ]
            | apply wp_any; intros ? ? ]
  end.

Ltac grows_auto f0 := repeat (grows_step f0).

Section GrowsExecutor.
Variable self : Self.
Hypothesis Hitem :
  forall jsp jb found unwrap,
    grows found (self_executeItemOptUnwrapTarget self jsp jb found unwrap).
Hypothesis Hany :
  forall jsp jbc found level first last ignore unwrapNext,
    grows found (self_executeAnyItem self jsp jbc found level first last ignore
                   unwrapNext).
Hint Resolve Hitem Hany : grows.

Lemma grows_executeItem :
  forall jsp jb found, grows found (executeItem self jsp jb found).
Proof. intros * c0. unfold executeItem. grows_auto found. Qed.
Hint Resolve grows_executeItem : grows.

Lemma grows_executeNextItem :
  forall cur next v found copy,
    grows found (executeNextItem self cur next v found copy).
Proof. intros * c0. unfold executeNextItem. grows_auto found. Qed.
Hint Resolve grows_executeNextItem : grows.

Lemma grows_executeAnyItem :
  forall jsp jbc found level first last ignore unwrapNext,
    grows found
      (executeAnyItem self jsp jbc found level first last ignore unwrapNext).
Proof. intros * c0. unfold executeAnyItem. grows_auto found. Qed.
Hint Resolve grows_executeAnyItem : grows.

Lemma grows_executeItemUnwrapTargetArray :
  forall jsp jb found unwrapElements,
    grows found (executeItemUnwrapTargetArray self jsp jb found unwrapElements).
Proof. intros * c0. unfold executeItemUnwrapTargetArray. grows_auto found. Qed.
Hint Resolve grows_executeItemUnwrapTargetArray : grows.

Lemma grows_executeItemOptUnwrapResult :
  forall jsp jb unwrap found,
    grows found (executeItemOptUnwrapResult self jsp jb unwrap found).
Proof. intros * c0. unfold executeItemOptUnwrapResult. grows_auto found. Qed.
Hint Resolve grows_executeItemOptUnwrapResult : grows.

Lemma grows_executeItemOptUnwrapResultNoThrow :
  forall jsp jb unwrap found,
    grows found (executeItemOptUnwrapResultNoThrow self jsp jb unwrap found).
Proof. intros * c0. unfold executeItemOptUnwrapResultNoThrow. grows_auto found. Qed.
Hint Resolve grows_executeItemOptUnwrapResultNoThrow : grows.

Lemma grows_executeBinaryArithmExpr :
  forall jsp larg rarg jb func found,
    grows found (executeBinaryArithmExpr self jsp larg rarg jb func found).
Proof. intros * c0. unfold executeBinaryArithmExpr. grows_auto found. Qed.
Hint Resolve grows_executeBinaryArithmExpr : grows.

Lemma grows_executeUnaryArithmExpr :
  forall jsp arg jb func found,
    grows found (executeUnaryArithmExpr self jsp arg jb func found).
Proof. intros * c0. unfold executeUnaryArithmExpr. grows_auto found. Qed.
Hint Resolve grows_executeUnaryArithmExpr : grows.

Lemma grows_executeNumericItemMethod :
  forall jsp jb unwrap func found,
    grows found (executeNumericItemMethod self jsp jb unwrap func found).
Proof. intros * c0. unfold executeNumericItemMethod. grows_auto found. Qed.
Hint Resolve grows_executeNumericItemMethod : grows.

Lemma grows_executeKeyValueMethod :
  forall jsp jb found, grows found (executeKeyValueMethod self jsp jb found).
Proof. intros * c0. unfold executeKeyValueMethod. grows_auto found. Qed.
Hint Resolve grows_executeKeyValueMethod : grows.

Lemma grows_appendBoolResult :
  forall jsp found res, grows found (appendBoolResult self jsp found res).
Proof. intros * c0. unfold appendBoolResult. grows_auto found. Qed.
Hint Resolve grows_appendBoolResult : grows.

Lemma grows_executeIndexArray :
  forall jsp elems jb found,
    grows found (executeIndexArray self jsp elems jb found).
Proof. intros * c0. unfold executeIndexArray. grows_auto found. Qed.
Hint Resolve grows_executeIndexArray : grows.

Lemma grows_executeDatetimeMethod :
  forall jsp larg rarg jb found unwrap,
    grows found (executeDatetimeMethod self jsp larg rarg jb found unwrap).
Proof. intros * c0. unfold executeDatetimeMethod. grows_auto found. Qed.
Hint Resolve grows_executeDatetimeMethod : grows.

Lemma grows_executeItemOptUnwrapTarget :
  forall jsp jb found unwrap,
    grows found (executeItemOptUnwrapTarget self jsp jb found unwrap).
Proof. intros * c0. unfold executeItemOptUnwrapTarget. grows_auto found. Qed.

End GrowsExecutor.

Lemma grows_unroll :
  forall fuel : nat,
    (forall jsp jb found unwrap,
        grows found (self_executeItemOptUnwrapTarget (unroll fuel) jsp jb found
                       unwrap))
    /\ (forall jsp jbc found level first last ignore unwrapNext,
           grows found (self_executeAnyItem (unroll fuel) jsp jbc found level
                          first last ignore unwrapNext)).
Proof.
  induction fuel as [|n [Gitem Gany]].
  - split; intros; intros c; exact I.
  - split; intros; cbn [unroll self_executeItemOptUnwrapTarget
                          self_executeAnyItem].
    + apply grows_executeItemOptUnwrapTarget; assumption.
    + apply grows_executeAnyItem; assumption.
Qed.

(** X2. executeJsonPath only appends to the list it is given: the list it
    returns is that list followed by the items found, and a NULL list stays
    NULL. *)
Theorem found_list_is_append_only :
  forall (fuel : nat) (path : JsonPath) (vars : option Jsonb) (json : Jsonb)
         (throwErrors : bool) (result found' : Found)
         (res : JsonPathExecResult),
    executeJsonPath fuel path vars json throwErrors result = Done (res, found') ->
    extends result found'.
Proof.
  intros fuel path vars json throwErrors result found' res.
  unfold executeJsonPath.
  destruct (getJsonPathVariableFromJsonb_count vars) as [e|nvars];
    [discriminate|].
  destruct (grows_unroll fuel) as [Gitem Gany].
  match goal with
  | |- context [executeJsonPath_run ?s ?j ?i ?r ?c] =>
      assert (W : wp (executeJsonPath_run s j i r)
                     (fun x _ => extends result (snd x)) c)
  end.
  { unfold executeJsonPath_run, pushJsonItem.
    pose proof (grows_executeItem (unroll fuel) Gitem) as GI.
    repeat first
      [ match goal with
        | |- wp (executeItem _ _ _ _) _ _ =>
            eapply wp_grows; [apply GI | intros ? ? ?]
        end
      | grows_step result ]. }
  unfold wp in W.
  match goal with
  | |- context [executeJsonPath_run ?s ?j ?i ?r ?c] =>
      destruct (executeJsonPath_run s j i r c) as [[x c']| | |];
        try discriminate
  end.
  intros [= ->]. exact W.
Qed.

(** *** With errors thrown, no error status is returned *)

Lemma wp_asserted :
  forall (m : Exec Res) Q c,
    keeps m -> asserted m -> throwErrors c = true ->
    (forall r c', frame c c' -> jperIsError (fst r) = false -> Q r c') ->
    wp m Q c.
Proof.
  intros m Q c K A H HQ.
  eapply wp_conseq; [apply wp_and; [apply K | apply (A c H)]|].
  intros r c' [F E]. apply HQ; assumption.
Qed.

Lemma frame_throwErrors :
  forall c c', frame c c' -> throwErrors c = true -> throwErrors c' = true.
Proof. intros c c' F H. unfold frame in F. intuition congruence. Qed.

Create HintDb asserted.

Ltac asserted_solve :=
  unfold frame, jspIgnoreStructuralErrors, jspThrowErrors in *;
  cbn [set_stack set_baseObject set_lastGeneratedObjectId
       set_innermostArraySize set_ignoreStructuralErrors set_throwErrors
       vars root stack baseObject lastGeneratedObjectId innermostArraySize
       laxMode ignoreStructuralErrors throwErrors fst snd jperIsError] in *;
  repeat match goal with H : _ /\ _ |- _ => destruct H end;
  subst;
  repeat split; first [congruence | lia].

Ltac asserted_step c0 :=
  cbv beta;
  match goal with
  | |- wp (ret _) _ _ => apply wp_ret
  | |- wp (bind _ _) _ _ => apply wp_bind
  | |- wp get _ _ => apply wp_get
  | |- wp (modify _) _ _ => apply wp_modify
  | |- wp (raise _) _ _ => exact I
  | |- wp undefined _ _ => exact I
  | |- wp (foreach _ _ _) _ _ =>
      first [ apply wp_foreach with
                (I := fun s c => frame c0 c /\ jperIsError (fst s) = false)
                (IR := fun r c => frame c0 c /\ jperIsError (fst r) = false)
            | apply wp_foreach with
                (I := fun s c => frame c0 c)
                (IR := fun r c => frame c0 c /\ jperIsError (fst r) = false) ];
      [ | intros ? ? ? ? | intros ? ? ? | intros ? ? ? ]
  | |- context [jspThrowErrors ?c] =>
      let H := fresh in
      assert (H : jspThrowErrors c = true) by (solve [asserted_solve]);
      rewrite H; cbn [negb]
  | |- wp (match ?x with _ => _ end) _ _ => destruct x eqn:?
  | |- wp ((match ?x with _ => _ end) _) _ _ => destruct x eqn:?
  | |- match ?x with _ => _ end => destruct x eqn:?
  | |- wp _ _ _ =>
      first [ apply wp_asserted;
              [ solve [auto 2 with keeps nocore]
              | solve [auto 2 with asserted nocore]
              | solve [asserted_solve]
              | intros ? ? ? ? ]
            | apply wp_keeps;
              [ solve [auto 2 with keeps nocore] | intros ? ? ? ] ]
  | |- _ => solve [asserted_solve]
  end.

Ltac asserted_auto c0 := repeat (asserted_step c0).

Section AssertedExecutor.
Variable self : Self.
Hypothesis Kitem :
  forall jsp jb found unwrap,
    keeps (self_executeItemOptUnwrapTarget self jsp jb found unwrap).
Hypothesis Kbool :
  forall jsp jb canHaveNext, keeps (self_executeBoolItem self jsp jb canHaveNext).
Hypothesis Kany :
  forall jsp jbc found level first last ignore unwrapNext,
    keeps (self_executeAnyItem self jsp jbc found level first last ignore
             unwrapNext).
Hypothesis Aitem :
  forall jsp jb found unwrap,
    asserted (self_executeItemOptUnwrapTarget self jsp jb found unwrap).
Hypothesis Aany :
  forall jsp jbc found level first last ignore unwrapNext,
    asserted (self_executeAnyItem self jsp jbc found level first last ignore
                unwrapNext).
Hint Resolve Kitem Kbool Kany : keeps.
Hint Resolve Aitem Aany : asserted.
Hint Resolve keeps_executeItem keeps_executeNextItem keeps_executeAnyItem
  keeps_executeItemUnwrapTargetArray keeps_executeItemOptUnwrapResult
  keeps_executeItemOptUnwrapResultNoThrow keeps_executePredicate
  keeps_executeBinaryArithmExpr keeps_executeUnaryArithmExpr
  keeps_executeNumericItemMethod keeps_executeKeyValueMethod
  keeps_appendBoolResult keeps_getArrayIndex keeps_executeBoolItem
  keeps_executeNestedBoolItem keeps_executeIndexArray
  keeps_executeDatetimeMethod keeps_executeItemOptUnwrapTarget : keeps.

Lemma asserted_executeItem :
  forall jsp jb found, asserted (executeItem self jsp jb found).
Proof. intros * c0 H0. unfold executeItem. asserted_auto c0. Qed.
Hint Resolve asserted_executeItem : asserted.

Lemma asserted_executeNextItem :
  forall cur next v found copy,
    asserted (executeNextItem self cur next v found copy).
Proof. intros * c0 H0. unfold executeNextItem. asserted_auto c0. Qed.
Hint Resolve asserted_executeNextItem : asserted.

Lemma asserted_executeAnyItem :
  forall jsp jbc found level first last ignore unwrapNext,
    asserted
      (executeAnyItem self jsp jbc found level first last ignore unwrapNext).
Proof. intros * c0 H0. unfold executeAnyItem. asserted_auto c0. Qed.
Hint Resolve asserted_executeAnyItem : asserted.

Lemma asserted_executeItemUnwrapTargetArray :
  forall jsp jb found unwrapElements,
    asserted (executeItemUnwrapTargetArray self jsp jb found unwrapElements).
Proof. intros * c0 H0. unfold executeItemUnwrapTargetArray. asserted_auto c0. Qed.
Hint Resolve asserted_executeItemUnwrapTargetArray : asserted.

Lemma asserted_executeItemOptUnwrapResult :
  forall jsp jb unwrap found,
    asserted (executeItemOptUnwrapResult self jsp jb unwrap found).
Proof. intros * c0 H0. unfold executeItemOptUnwrapResult. asserted_auto c0. Qed.
Hint Resolve asserted_executeItemOptUnwrapResult : asserted.

Lemma asserted_executeBinaryArithmExpr :
  forall jsp larg rarg jb func found,
    asserted (executeBinaryArithmExpr self jsp larg rarg jb func found).
Proof.
  intros * c0 H0. unfold executeBinaryArithmExpr, RETURN_ERROR.
  asserted_auto c0.
Qed.
Hint Resolve asserted_executeBinaryArithmExpr : asserted.

Lemma asserted_executeUnaryArithmExpr :
  forall jsp arg jb func found,
    asserted (executeUnaryArithmExpr self jsp arg jb func found).
Proof.
  intros * c0 H0. unfold executeUnaryArithmExpr, RETURN_ERROR.
  asserted_auto c0.
Qed.
Hint Resolve asserted_executeUnaryArithmExpr : asserted.

Lemma asserted_executeNumericItemMethod :
  forall jsp jb unwrap func found,
    asserted (executeNumericItemMethod self jsp jb unwrap func found).
Proof.
  intros * c0 H0. unfold executeNumericItemMethod, RETURN_ERROR.
  asserted_auto c0.
Qed.
Hint Resolve asserted_executeNumericItemMethod : asserted.

Lemma asserted_executeKeyValueMethod :
  forall jsp jb found, asserted (executeKeyValueMethod self jsp jb found).
Proof.
  intros * c0 H0. unfold executeKeyValueMethod, setBaseObject, RETURN_ERROR.
  asserted_auto c0.
Qed.
Hint Resolve asserted_executeKeyValueMethod : asserted.

Lemma asserted_appendBoolResult :
  forall jsp found res, asserted (appendBoolResult self jsp found res).
Proof. intros * c0 H0. unfold appendBoolResult. asserted_auto c0. Qed.
Hint Resolve asserted_appendBoolResult : asserted.

Lemma asserted_getArrayIndex :
  forall jsp jb c,
    throwErrors c = true ->
    wp (getArrayIndex self jsp jb)
       (fun r c' => frame c c' /\ jperIsError (fst r) = false) c.
Proof.
  intros * H0. unfold getArrayIndex, RETURN_ERROR. asserted_auto c.
Qed.

Lemma asserted_executeIndexArray :
  forall jsp elems jb found,
    asserted (executeIndexArray self jsp elems jb found).
Proof.
  intros * c0 H0. unfold executeIndexArray, RETURN_ERROR.
  repeat first
    [ match goal with
      | |- wp (getArrayIndex _ _ _) _ _ =>
          eapply wp_conseq;
          [ apply asserted_getArrayIndex; solve [asserted_solve]
          | intros ? ? [? ?] ]
      end
    | asserted_step c0 ].
Qed.
Hint Resolve asserted_executeIndexArray : asserted.

Lemma asserted_executeDatetimeMethod :
  forall jsp larg rarg jb found unwrap,
    asserted (executeDatetimeMethod self jsp larg rarg jb found unwrap).
Proof.
  intros * c0 H0.
  unfold executeDatetimeMethod, try_iso_formats, tryToParseDatetime,
    RETURN_ERROR.
  asserted_auto c0.
Qed.
Hint Resolve asserted_executeDatetimeMethod : asserted.

Lemma asserted_executeItemOptUnwrapTarget :
  forall jsp jb found unwrap,
    asserted (executeItemOptUnwrapTarget self jsp jb found unwrap).
Proof.
  intros * c0 H0.
  unfold executeItemOptUnwrapTarget, setBaseObject, getJsonPathItem,
    getJsonPathVariable, setBaseObject, RETURN_ERROR.
  asserted_auto c0.
Qed.
End AssertedExecutor.

Lemma asserted_unroll :
  forall fuel : nat,
    (forall jsp jb found unwrap,
        asserted (self_executeItemOptUnwrapTarget (unroll fuel) jsp jb found
                    unwrap))
    /\ (forall jsp jbc found level first last ignore unwrapNext,
           asserted (self_executeAnyItem (unroll fuel) jsp jbc found level
                       first last ignore unwrapNext)).
Proof.
  induction fuel as [|n [Aitem Aany]].
  - split; intros; intros c H; exact I.
  - destruct (keeps_unroll n) as [Kitem [Kbool Kany]].
    split; intros; cbn [unroll self_executeItemOptUnwrapTarget
                          self_executeAnyItem].
    + apply asserted_executeItemOptUnwrapTarget; assumption.
    + apply asserted_executeAnyItem; assumption.
Qed.

(** X3. The assertion at the end of executeJsonPath holds: with
    [throwErrors == true] an evaluation that returns does not return
    jperError. *)
Theorem throwing_evaluation_returns_no_error :
  forall (fuel : nat) (path : JsonPath) (vars : option Jsonb) (json : Jsonb)
         (result found' : Found) (res : JsonPathExecResult),
    executeJsonPath fuel path vars json true result = Done (res, found') ->
    jperIsError res = false.
Proof.
  intros fuel path vars json result found' res.
  unfold executeJsonPath.
  destruct (getJsonPathVariableFromJsonb_count vars) as [e|nvars];
    [discriminate|].
  destruct (asserted_unroll fuel) as [Aitem Aany].
  destruct (keeps_unroll fuel) as [Kitem [Kbool Kany]].
  match goal with
  | |- context [executeJsonPath_run ?s ?j ?i ?r ?c] =>
      assert (W : wp (executeJsonPath_run s j i r)
                     (fun x _ => jperIsError (fst x) = false) c)
  end.
  { unfold executeJsonPath_run, pushJsonItem.
    pose proof (asserted_executeItem (unroll fuel) Kitem Aitem) as AI.
    pose proof (keeps_executeItem (unroll fuel) Kitem) as KI.
    apply wp_bind, wp_modify, wp_bind, wp_get.
    match goal with
    | |- wp (if ?b then _ else _) _ _ => destruct b
    end.
    - apply wp_bind. eapply wp_conseq; [apply AI; reflexivity|].
      intros [r f] c' E. cbn [fst] in E. rewrite E.
      apply wp_ret. destruct (JsonValueListIsEmpty _); reflexivity.
    - apply AI. reflexivity. }
  unfold wp in W.
  match goal with
  | |- context [executeJsonPath_run ?s ?j ?i ?r ?c] =>
      destruct (executeJsonPath_run s j i r c) as [[x c']| | |];
        try discriminate
  end.
  intros [= ->]. exact W.
Qed.

(** *** Predicates keep their operands' errors to themselves *)

Lemma calm_ret : forall A (a : A), calm (ret a).
Proof. intros A a c. exact I. Qed.

Lemma calm_bind :
  forall A B (m : Exec A) (k : A -> Exec B),
    calm m -> (forall a, calm (k a)) -> calm (bind m k).
Proof.
  intros A B m k Hm Hk c. unfold bind. specialize (Hm c).
  destruct (m c) as [[a c']| | |]; auto. apply Hk.
Qed.

Lemma calm_get : calm get.
Proof. intros c. exact I. Qed.

Lemma calm_raise :
  forall A (e : PgError), suppressible e = false -> calm (raise (A := A) e).
Proof. intros A e He c. exact He. Qed.

Lemma calm_NoThrow :
  forall (self : Self) jsp jb unwrap found,
    quiet_self self ->
    calm (executeItemOptUnwrapResultNoThrow self jsp jb unwrap found).
Proof.
  intros self jsp jb unwrap found [Hitem [Hbool Hany]] c.
  unfold executeItemOptUnwrapResultNoThrow, bind, get, modify.
  assert (Q : quiet (executeItemOptUnwrapResult self jsp jb unwrap found))
    by (apply quiet_executeItemOptUnwrapResult; assumption).
  specialize (Q (set_throwErrors false c) eq_refl).
  destruct (executeItemOptUnwrapResult self jsp jb unwrap found
              (set_throwErrors false c)) as [[r c']| | |]; auto.
  exact I.
Qed.

Ltac calm_step :=
  cbv beta;
  match goal with
  | |- calm (ret _) => apply calm_ret
  | |- calm get => apply calm_get
  | |- calm (bind _ _) => apply calm_bind; [ | intros ? ]
  | |- calm (raise _) => apply calm_raise; reflexivity
  | |- calm (executeItemOptUnwrapResultNoThrow _ _ _ _ _) =>
      apply calm_NoThrow; assumption
  | |- calm (match ?x with _ => _ end) => destruct x
  | |- calm _ => solve [auto 2]
  end.

Lemma calm_executePredicate :
  forall (self : Self) pred larg rarg jb unwrapRightArg exec,
    quiet_self self ->
    calm (executePredicate self pred larg rarg jb unwrapRightArg exec).
Proof. intros * Q. unfold executePredicate. repeat calm_step. Qed.

Lemma calm_executeBoolItem :
  forall (self : Self) jsp jb canHaveNext,
    quiet_self self ->
    (forall jsp jb canHaveNext, calm (self_executeBoolItem self jsp jb canHaveNext)) ->
    calm (executeBoolItem self jsp jb canHaveNext).
Proof.
  intros * Q H. pose proof (calm_executePredicate self) as HP.
  unfold executeBoolItem. repeat calm_step.
Qed.

Lemma calm_unroll :
  forall fuel jsp jb canHaveNext,
    calm (executeBoolItem (unroll fuel) jsp jb canHaveNext).
Proof.
  induction fuel as [|n IH]; intros.
  - apply calm_executeBoolItem; [apply quiet_unroll|].
    intros. intros c. exact I.
  - apply calm_executeBoolItem; [apply quiet_unroll|].
    intros. apply IH.
Qed.

(** X4. A predicate throws no suppressible error, whatever [throwErrors] is:
    its operands are evaluated with errors suppressed, and an operand error
    makes the predicate unknown. *)
Theorem predicate_throws_no_suppressible_error :
  forall (fuel : nat) (jsp : JsonPathItem) (jb : JsonItem) (canHaveNext : bool)
         (cxt : JsonPathExecContext) (e : PgError),
    executeBoolItem (unroll fuel) jsp jb canHaveNext cxt = Raised e ->
    suppressible e = false.
Proof.
  intros fuel jsp jb canHaveNext cxt e H.
  pose proof (calm_unroll fuel jsp jb canHaveNext cxt) as C.
  rewrite H in C. exact C.
Qed.

(** *** The connectives and the comparison *)

(** X5. When the left operand of [||] evaluates to true the result is true
    and the right operand is not evaluated; otherwise the right operand is
    evaluated and the result is the three-valued disjunction. *)
Theorem executeBoolItem_or :
  forall (n : nat) (larg rarg : JsonPathItem) (jb : JsonItem)
         (canHaveNext : bool) (cxt cxt1 : JsonPathExecContext)
         (a : JsonPathBool),
    executeBoolItem (unroll n) larg jb false cxt = Done (a, cxt1) ->
    (a = jpbTrue ->
     executeBoolItem (unroll (S n)) (jpiOr larg rarg None) jb canHaveNext cxt
     = Done (jpbTrue, cxt1))
    /\
    (forall (b : JsonPathBool) (cxt2 : JsonPathExecContext),
        a <> jpbTrue ->
        executeBoolItem (unroll n) rarg jb false cxt1 = Done (b, cxt2) ->
        executeBoolItem (unroll (S n)) (jpiOr larg rarg None) jb canHaveNext cxt
        = Done (jpb_or a b, cxt2)).
Proof.
  intros n larg rarg jb c cxt cxt1 a HL.
  assert (E : executeBoolItem (unroll (S n)) (jpiOr larg rarg None) jb c cxt
              = (res <- executeBoolItem (unroll n) larg jb false ;;
                 match res with
                 | jpbTrue => ret jpbTrue
                 | _ =>
                     res2 <- executeBoolItem (unroll n) rarg jb false ;;
                     ret (match res2 with jpbFalse => res | _ => res2 end)
                 end) cxt).
  { unfold executeBoolItem at 1. destruct c; reflexivity. }
  split.
  - intros Ha. rewrite E. unfold bind. rewrite HL, Ha. reflexivity.
  - intros b cxt2 Ha HR. rewrite E. unfold bind. rewrite HL.
    destruct a; try congruence; rewrite HR; destruct b; reflexivity.
Qed.

(** X6. [!] swaps true and false and keeps unknown; [is unknown] is true
    for unknown and false otherwise, so it is never unknown itself. *)
Theorem executeBoolItem_not_is_unknown :
  forall (n : nat) (arg : JsonPathItem) (jb : JsonItem) (canHaveNext : bool)
         (cxt cxt1 : JsonPathExecContext) (a : JsonPathBool),
    executeBoolItem (unroll n) arg jb false cxt = Done (a, cxt1) ->
    executeBoolItem (unroll (S n)) (jpiNot arg None) jb canHaveNext cxt
    = Done (jpb_not a, cxt1)
    /\ executeBoolItem (unroll (S n)) (jpiIsUnknown arg None) jb canHaveNext cxt
       = Done (if jpb_eqb a jpbUnknown then jpbTrue else jpbFalse, cxt1).
Proof.
  intros n arg jb c cxt cxt1 a H.
  split; unfold executeBoolItem at 1;
    cbn [jspHasNext jspGetNext unroll self_executeBoolItem];
    rewrite andb_false_r; unfold bind; rewrite H; destruct a; reflexivity.
Qed.

Lemma compare_result_not_unknown :
  forall op cmp, compare_result op cmp <> jpbUnknown.
Proof. intros op cmp. unfold compare_result. destruct op; simpl;
  match goal with |- (if ?b then _ else _) <> _ => destruct b end; discriminate. Qed.

Lemma compareDatetime_symmetric :
  forall v1 t1 tz1 v2 t2 tz2,
    compareDatetime v1 t1 tz1 v2 t2 tz2 = None <->
    compareDatetime v2 t2 tz2 v1 t1 tz1 = None.
Proof.
  intros v1 t1 tz1 v2 t2 tz2.
  destruct t1, t2; cbn -[PG_INT32_MIN];
    unfold time_to_timetz, date_to_timestamp, date_to_timestamptz,
      timestamp_to_timestamptz;
    repeat match goal with
           | |- context [if ?b then _ else _] => destruct b
           | |- context [match ?x with Some _ => _ | None => _ end] => destruct x
           end;
    split; intros H; try reflexivity; try discriminate.
Qed.

(** X7. Whether two items are comparable depends neither on the operator nor
    on the order of the operands: a comparison is unknown exactly when the
    comparison of the swapped operands, by any operator, is unknown. *)
Theorem compareItems_unknown_symmetric :
  forall (op op' : CmpOp) (jb1 jb2 : JsonItem),
    compareItems op jb1 jb2 = jpbUnknown <->
    compareItems op' jb2 jb1 = jpbUnknown.
Proof.
  intros op op' jb1 jb2.
  destruct jb1, jb2; unfold compareItems; cbn [item_type jbvType_eqb negb orb];
    try (split; reflexivity);
    try (split; intros H; exfalso; revert H;
         solve [ apply compare_result_not_unknown
               | destruct op; discriminate
               | destruct op'; discriminate
               | destruct op; try apply compare_result_not_unknown;
                 destruct (String.eqb _ _); discriminate
               | destruct op'; try apply compare_result_not_unknown;
                 destruct (String.eqb _ _); discriminate ]).
  pose proof (compareDatetime_symmetric value typid tz value0 typid0 tz0) as S.
  destruct (compareDatetime value typid tz value0 typid0 tz0),
           (compareDatetime value0 typid0 tz0 value typid tz);
    split; intros H; try reflexivity;
    try (exfalso; revert H; apply compare_result_not_unknown).
  - destruct S as [_ S]. discriminate (S eq_refl).
  - destruct S as [S _]. discriminate (S eq_refl).
Qed.

(** X8. [!=] is the negation of [==] for every pair of items that are not
    both strings (for two strings [==] compares bytes and [!=] compares by
    collation); [>=] is the negation of [<] and [<=] of [>] unless exactly
    one of the items is null. *)
Theorem compareItems_negation :
  forall jb1 jb2 : JsonItem,
    (is_string jb1 && is_string jb2 = false ->
     compareItems jpiNotEqual jb1 jb2 = jpb_not (compareItems jpiEqual jb1 jb2))
    /\ (xorb (is_null jb1) (is_null jb2) = false ->
        compareItems jpiGreaterOrEqual jb1 jb2
        = jpb_not (compareItems jpiLess jb1 jb2)
        /\ compareItems jpiLessOrEqual jb1 jb2
           = jpb_not (compareItems jpiGreater jb1 jb2)).
Proof.
  assert (C1 : forall cmp, compare_result jpiNotEqual cmp
                           = jpb_not (compare_result jpiEqual cmp)).
  { intros cmp. unfold compare_result. destruct (cmp =? 0); reflexivity. }
  assert (C2 : forall cmp, compare_result jpiGreaterOrEqual cmp
                           = jpb_not (compare_result jpiLess cmp)).
  { intros cmp. unfold compare_result. rewrite Z.geb_leb.
    destruct (Z.ltb_spec cmp 0), (Z.leb_spec 0 cmp); try reflexivity; lia. }
  assert (C3 : forall cmp, compare_result jpiLessOrEqual cmp
                           = jpb_not (compare_result jpiGreater cmp)).
  { intros cmp. unfold compare_result. rewrite Z.gtb_ltb.
    destruct (Z.ltb_spec 0 cmp), (Z.leb_spec cmp 0); try reflexivity; lia. }
  intros jb1 jb2. split.
  - intros H. destruct jb1, jb2; try discriminate H;
      unfold compareItems; cbn [item_type jbvType_eqb negb orb];
      try reflexivity; try apply C1.
    destruct (compareDatetime _ _ _ _ _ _); [apply C1 | reflexivity].
  - intros H. destruct jb1, jb2; try discriminate H;
      unfold compareItems; cbn [item_type jbvType_eqb negb orb];
      try (split; reflexivity); try (split; [apply C2 | apply C3]).
    destruct (compareDatetime _ _ _ _ _ _);
      [split; [apply C2 | apply C3] | split; reflexivity].
Qed.

(** *** Accessors *)

(** The values of a container go to the result list in document order. *)
Lemma executeAnyItem_collect :
  forall (self : Self) (jbc : JsonbContainer) (l : JsonValueList)
         (ignore unwrapNext : bool) (c : JsonPathExecContext),
    executeAnyItem self None jbc (Some l) 1 1 1 ignore unwrapNext c
    = Done ((jperNotFound, Some (l ++ container_values jbc)), c).
Proof.
  intros self jbc l ignore unwrapNext c.
  unfold executeAnyItem. change (1 >? 1) with false. cbv iota.
  match goal with
  | |- context [foreach ?vs ?body ?s] => set (B := body)
  end.
  assert (H : forall vs l0,
             foreach vs B (jperNotFound, Some l0) c
             = Done (inl (jperNotFound, Some (l0 ++ vs)), c)).
  { induction vs as [|v vs IH]; intros l0.
    - simpl. now rewrite app_nil_r.
    - cbn [foreach]. unfold bind at 1.
      assert (E : B v (jperNotFound, Some l0) c
                  = Done (Next (jperNotFound, Some (l0 ++ [v])), c))
        by (subst B; destruct v; reflexivity).
      rewrite E. cbv beta iota. rewrite IH, <- app_assoc. reflexivity. }
  unfold bind. rewrite H. reflexivity.
Qed.

(** With no result list, the first value answers the probe. *)
Lemma executeAnyItem_probe :
  forall (self : Self) (jbc : JsonbContainer)
         (ignore unwrapNext : bool) (c : JsonPathExecContext),
    executeAnyItem self None jbc None 1 1 1 ignore unwrapNext c
    = Done ((if JsonContainerSize jbc =? 0 then jperNotFound else jperOk, None),
            c).
Proof.
  intros self jbc ignore unwrapNext c.
  unfold executeAnyItem. change (1 >? 1) with false. cbv iota.
  assert (S : JsonContainerSize jbc
              = Z.of_nat (List.length (container_values jbc)))
    by (destruct jbc; cbn; [reflexivity | now rewrite length_map]).
  rewrite S. destruct (container_values jbc) as [|v vs]; reflexivity.
Qed.

(** X9. The wildcard accessors at the end of a path.  [[*]] collects every
    element of an array in order; on anything else it yields the item
    itself in lax mode, and in strict mode signals the array-not-found error
    (nothing at all when structural errors are ignored).  [.*] collects the
    values of an object in document order.  The status stays jperNotFound
    when the items go to a result list. *)
Theorem wildcard_accessors_collect :
  forall (self : Self) (l : JsonValueList) (unwrap : bool)
         (c : JsonPathExecContext),
    (forall jb : JsonItem,
        executeItemOptUnwrapTarget self (jpiAnyArray None) jb (Some l) unwrap c =
        match jb with
        | jbvBinary (JArray _ _ elems) =>
            Done ((jperNotFound, Some (l ++ elems)), c)
        | _ =>
            if laxMode c then Done ((jperOk, Some (l ++ [jb])), c)
            else if ignoreStructuralErrors c
                 then Done ((jperNotFound, Some l), c)
                 else signals
                        (ereport ERRCODE_JSON_ARRAY_NOT_FOUND
                           "jsonpath wildcard array accessor can only be applied to an array" "")
                        (Some l) c
        end)
    /\ (forall (addr : Z) (pairs : list (string * JsonItem)),
           executeItemOptUnwrapTarget self (jpiAnyKey None)
             (jbvBinary (JObject addr pairs)) (Some l) unwrap c
           = Done ((jperNotFound, Some (l ++ map snd pairs)), c)).
Proof.
  intros self l unwrap c. split.
  - intros jb.
    assert (N : forall jb',
               JsonbType jb' <> tArray ->
               executeItemOptUnwrapTarget self (jpiAnyArray None) jb' (Some l)
                 unwrap c =
               if laxMode c then Done ((jperOk, Some (l ++ [jb'])), c)
               else if ignoreStructuralErrors c
                    then Done ((jperNotFound, Some l), c)
                    else signals
                           (ereport ERRCODE_JSON_ARRAY_NOT_FOUND
                              "jsonpath wildcard array accessor can only be applied to an array" "")
                           (Some l) c).
    { intros jb' H. cbn [executeItemOptUnwrapTarget].
      unfold bind at 1, get at 1.
      destruct (jbvType_eqb (JsonbType jb') tArray) eqn:E.
      - exfalso. apply H. destruct (JsonbType jb'); try discriminate; reflexivity.
      - unfold jspAutoWrap, jspIgnoreStructuralErrors, RETURN_ERROR, signals,
          jspThrowErrors, executeNextItem, bind, get, ret, raise.
        cbn [jspGetNext negb].
        destruct (laxMode c); [reflexivity|].
        destruct (ignoreStructuralErrors c); cbn [negb]; cbv beta iota;
          [reflexivity|].
        destruct (throwErrors c); reflexivity. }
    destruct jb as [| | | |[addr sc elems|addr pairs]|];
      try (apply N; cbn; discriminate).
    cbn [executeItemOptUnwrapTarget]. unfold bind at 1, get at 1.
    cbn [JsonbType JsonContainerIsObject jbvType_eqb jspGetNext
         executeItemUnwrapTargetArray].
    apply (executeAnyItem_collect self (JArray addr sc elems)).
  - intros addr pairs.
    cbn [executeItemOptUnwrapTarget JsonbType JsonContainerIsObject
         jbvType_eqb jspGetNext].
    unfold bind at 1, get at 1.
    apply (executeAnyItem_collect self (JObject addr pairs)).
Qed.

(** X10. In lax mode the result of an operand whose arrays are to be
    unwrapped is its sequence with every array replaced by its elements, one
    level deep. *)
Theorem lax_unwraps_result_arrays :
  forall (self : Self) (jsp : JsonPathItem) (jb : JsonItem)
         (l seq : JsonValueList) (res : JsonPathExecResult)
         (c c' : JsonPathExecContext),
    laxMode c = true ->
    executeItem self jsp jb (Some []) c = Done ((res, Some seq), c') ->
    executeItemOptUnwrapResult self jsp jb true (Some l) c =
    if jperIsError res then Done ((res, Some l), c')
    else Done ((jperOk, Some (l ++ flat_map unwrap_item seq)), c').
Proof.
  intros self jsp jb l seq res c c' Hlax H.
  unfold executeItemOptUnwrapResult. unfold bind at 1, get at 1.
  unfold jspAutoUnwrap. rewrite Hlax. cbn [andb].
  unfold bind at 1. rewrite H. cbv beta iota.
  destruct (jperIsError res); [reflexivity|].
  cbn [found_list].
  match goal with
  | |- context [foreach ?vs ?body ?s] => set (B := body)
  end.
  assert (E : forall items l0,
             foreach items B (Some l0) c'
             = Done (inl (Some (l0 ++ flat_map unwrap_item items)), c')).
  { induction items as [|item items IH]; intros l0.
    - simpl. now rewrite app_nil_r.
    - cbn [foreach flat_map]. unfold bind at 1.
      assert (E1 : B item (Some l0) c'
                   = Done (Next (Some (l0 ++ unwrap_item item)), c')).
      { subst B. cbv beta.
        destruct item as [| | | |[addr sc elems|addr pairs]|];
          try reflexivity.
        cbn [JsonbType JsonContainerIsObject jbvType_eqb
             executeItemUnwrapTargetArray unwrap_item].
        unfold bind. rewrite executeAnyItem_collect. reflexivity. }
      rewrite E1. cbv beta iota. rewrite IH, app_assoc. reflexivity. }
  unfold bind. rewrite E. reflexivity.
Qed.

(** X11. [$.key] over an object document yields the member's value; when
    the key is missing, lax mode yields nothing and strict mode signals the
    member-not-found error (thrown, or jperError when errors are
    suppressed). *)
Theorem member_accessor_on_document :
  forall (more : nat) (lax throwErrors : bool) (addr : Z)
         (pairs : list (string * JsonItem)) (key : string),
    executeJsonPath (more + 2)
      {| header_lax := lax; jspInit := jpiRoot (Some (jpiKey key None)) |}
      None {| jsonb_root := JObject addr pairs |} throwErrors (Some [])
    = match find_pair key pairs with
      | Some v => Done (jperOk, Some [v])
      | None =>
          if lax then Done (jperNotFound, Some [])
          else if throwErrors then Raised member_not_found
               else Done (jperError, Some [])
      end.
Proof.
  intros more lax throwErrors addr pairs key.
  assert (E : executeJsonPath 2
      {| header_lax := lax; jspInit := jpiRoot (Some (jpiKey key None)) |}
      None {| jsonb_root := JObject addr pairs |} throwErrors (Some [])
    = match find_pair key pairs with
      | Some v => Done (jperOk, Some [v])
      | None =>
          if lax then Done (jperNotFound, Some [])
          else if throwErrors then Raised member_not_found
               else Done (jperError, Some [])
      end).
  { destruct lax, throwErrors; cbv -[find_pair];
      destruct (find_pair key pairs); reflexivity. }
  rewrite executeJsonPath_more_fuel; [exact E|].
  rewrite E. destruct (find_pair key pairs); [discriminate|].
  destruct lax; [discriminate|]. destruct throwErrors; discriminate.
Qed.

(** The member accessor on one item, with no unwrapping and structural
    errors ignored. *)
Lemma member_accessor_ignoring_errors :
  forall (self : Self) (key : string) (v : JsonItem) (l : JsonValueList)
         (c : JsonPathExecContext),
    ignoreStructuralErrors c = true ->
    exists res,
      executeItemOptUnwrapTarget self (jpiKey key None) v (Some l) false c
      = Done ((res, Some (l ++ member key v)), c)
      /\ jperIsError res = false.
Proof.
  intros self key v l c Hign.
  destruct v as [| | | |[addr sc elems|addr pairs]|];
    cbn [executeItemOptUnwrapTarget JsonbType JsonContainerIsObject item_type
         jbvType_eqb andb member findJsonbValueFromContainer];
    try (exists jperNotFound; unfold bind, get, jspIgnoreStructuralErrors;
         rewrite Hign, app_nil_r; split; reflexivity).
  destruct (find_pair key pairs) as [v|]; cbn [opt_list].
  - exists jperOk. split; reflexivity.
  - exists jperNotFound. unfold bind, get, jspIgnoreStructuralErrors.
    rewrite Hign, app_nil_r. split; reflexivity.
Qed.

(** X12. With unwrapping (lax mode) the member accessor applied to an array
    yields, in order, the member of every element that is an object having
    the key; other elements, nested arrays included, are skipped. *)
Theorem lax_member_accessor_unwraps_array :
  forall (k : nat) (key : string) (addr : Z) (sc : bool)
         (elems : list JsonItem) (l : JsonValueList)
         (c : JsonPathExecContext),
    ignoreStructuralErrors c = true ->
    exists res,
      executeItemOptUnwrapTarget (unroll (S k)) (jpiKey key None)
        (jbvBinary (JArray addr sc elems)) (Some l) true c
      = Done ((res, Some (l ++ flat_map (member key) elems)), c)
      /\ jperIsError res = false.
Proof.
  intros k key addr sc elems l c Hign.
  cbn [executeItemOptUnwrapTarget JsonbType JsonContainerIsObject jbvType_eqb
       andb executeItemUnwrapTargetArray].
  unfold executeAnyItem. change (1 >? 1) with false. cbv iota.
  cbn [container_values].
  match goal with
  | |- context [foreach ?vs ?body ?s] => set (B := body)
  end.
  destruct (foreach_appends JsonItem JsonItem eq (member key) B c) with
    (xs := elems) (ys := elems) (res := jperNotFound) (l := l)
    as [res [E Hres]].
  - intros x y res0 l0 <- H0.
    destruct (member_accessor_ignoring_errors (unroll k) key x l0 c Hign)
      as [res1 [E1 H1]].
    exists res1. split; [|exact H1].
    subst B. cbv beta iota. change (1 >=? 1) with true. cbn [orb].
    change (1 <? 1) with false.
    cbn [unroll self_executeItemOptUnwrapTarget].
    unfold bind at 1. unfold bind at 1. rewrite E1. cbv beta iota.
    rewrite H1. cbn [is_null_ptr andb]. rewrite andb_false_r.
    destruct x; reflexivity.
  - apply Forall2_eq_refl.
  - reflexivity.
  - exists res. unfold bind. run_with E. split; [reflexivity|exact Hres].
Qed.
Lemma descendants_container :
  forall jbc : JsonbContainer,
    descendants (jbvBinary jbc)
    = flat_map (fun v => v :: descendants v) (container_values jbc).
Proof.
  intros [addr sc elems|addr pairs]; cbn [descendants container_values].
  - reflexivity.
  - rewrite flat_map_concat_map, flat_map_concat_map, map_map. reflexivity.
Qed.

Lemma item_depth_container :
  forall jbc : JsonbContainer,
    item_depth (jbvBinary jbc)
    = S (list_max (map item_depth (container_values jbc))).
Proof.
  intros [addr sc elems|addr pairs]; cbn [item_depth container_values].
  - reflexivity.
  - now rewrite map_map.
Qed.

Lemma item_depth_values :
  forall (vs : list JsonItem) (n : nat),
    (list_max (map item_depth vs) <= n)%nat ->
    Forall (fun v => (item_depth v <= n)%nat) vs.
Proof.
  intros vs n H. apply list_max_le in H. rewrite Forall_map in H. exact H.
Qed.

Lemma descent_loop :
  forall (fuel : nat) (jbc : JsonbContainer) (l : JsonValueList)
         (level : Z) (ignore unwrapNext : bool) (c : JsonPathExecContext),
    (item_depth (jbvBinary jbc) <= S fuel)%nat ->
    1 <= level ->
    level + Z.of_nat fuel < PG_UINT32_MAX ->
    executeAnyItem (unroll fuel) None jbc (Some l) level 0 PG_UINT32_MAX ignore
      unwrapNext c
    = Done ((jperNotFound, Some (l ++ descendants (jbvBinary jbc))), c).
Proof.
  induction fuel as [|k IH]; intros jbc l level ignore unwrapNext c Hd Hl Hm.
  - rewrite descendants_container. rewrite item_depth_container in Hd.
    unfold executeAnyItem.
    replace (level >? PG_UINT32_MAX) with false
      by (rewrite Z.gtb_ltb; symmetry; apply Z.ltb_ge; lia).
    cbv iota.
    match goal with
    | |- context [foreach ?vs ?body ?s] => set (B := body)
    end.
    assert (H : forall vs l0,
               Forall (fun v => (item_depth v <= 0)%nat) vs ->
               foreach vs B (jperNotFound, Some l0) c
               = Done (inl (jperNotFound,
                           Some (l0 ++ flat_map (fun v => v :: descendants v) vs)),
                       c)).
    { induction vs as [|v vs IHvs]; intros l0 Hvs.
      - simpl. now rewrite app_nil_r.
      - inversion Hvs as [|v' vs' Hv0 Hvs']; subst v' vs'.
        assert (Hv : item_depth v = O) by lia.
        cbn [foreach flat_map]. unfold bind at 1.
        assert (E : B v (jperNotFound, Some l0) c
                    = Done (Next (jperNotFound, Some (l0 ++ [v])), c)).
        { subst B. cbv beta iota.
          replace (level >=? 0) with true
            by (rewrite Z.geb_leb; symmetry; apply Z.leb_le; lia).
          cbn [orb]. unfold bind, ret.
          destruct v as [| | | |d|]; try reflexivity.
          rewrite item_depth_container in Hv. discriminate. }
        rewrite E. cbv beta iota. rewrite (IHvs _ Hvs').
        assert (Dv : descendants v = []).
        { destruct v as [| | | |d|]; try reflexivity.
          rewrite item_depth_container in Hv. discriminate. }
        rewrite Dv. rewrite <- app_assoc. reflexivity. }
    assert (HF : Forall (fun v => (item_depth v <= 0)%nat)
                   (container_values jbc))
      by (apply item_depth_values; lia).
    pose proof (H (container_values jbc) l HF) as E.
    unfold bind. run_with E. reflexivity.
  - rewrite descendants_container. rewrite item_depth_container in Hd.
    unfold executeAnyItem.
    replace (level >? PG_UINT32_MAX) with false
      by (rewrite Z.gtb_ltb; symmetry; apply Z.ltb_ge; lia).
    cbv iota.
    match goal with
    | |- context [foreach ?vs ?body ?s] => set (B := body)
    end.
    assert (H : forall vs l0,
               Forall (fun v => (item_depth v <= S k)%nat) vs ->
               foreach vs B (jperNotFound, Some l0) c
               = Done (inl (jperNotFound,
                           Some (l0 ++ flat_map (fun v => v :: descendants v) vs)),
                       c)).
    { induction vs as [|v vs IHvs]; intros l0 Hvs.
      - simpl. now rewrite app_nil_r.
      - inversion Hvs as [|v' vs' Hv Hvs']; subst v' vs'.
        cbn [foreach flat_map]. unfold bind at 1.
        assert (E : B v (jperNotFound, Some l0) c
                    = Done (Next (jperNotFound,
                                  Some (l0 ++ v :: descendants v)), c)).
        { subst B. cbv beta iota.
          replace (level >=? 0) with true
            by (rewrite Z.geb_leb; symmetry; apply Z.leb_le; lia).
          cbn [orb]. unfold bind at 1. unfold ret at 1.
          destruct v as [| | | |d|]; try reflexivity.
          replace (level <? PG_UINT32_MAX) with true
            by (symmetry; apply Z.ltb_lt; lia).
          cbn [unroll self_executeAnyItem]. unfold bind.
          rewrite IH; [|exact Hv|lia|lia].
          cbn [jperIsError jperIsOk andb]. unfold ret, JsonValueListAppend.
          rewrite <- app_assoc. reflexivity. }
        rewrite E. cbv beta iota. rewrite (IHvs _ Hvs').
        rewrite <- app_assoc. reflexivity. }
    assert (HF : Forall (fun v => (item_depth v <= S k)%nat)
                   (container_values jbc))
      by (apply item_depth_values; lia).
    pose proof (H (container_values jbc) l HF) as E.
    unfold bind. run_with E. reflexivity.
Qed.

(** X13. [.**] at the end of a path yields the item and then every value
    nested in it, in document order, each once; the recursion is as deep as
    the item. *)
Theorem recursive_descent_collects_descendants :
  forall (fuel : nat) (jb : JsonItem) (l : JsonValueList) (unwrap : bool)
         (c : JsonPathExecContext),
    (item_depth jb <= S fuel)%nat ->
    Z.of_nat fuel < PG_UINT32_MAX - 1 ->
    executeItemOptUnwrapTarget (unroll fuel) (jpiAny 0 PG_UINT32_MAX None) jb
      (Some l) unwrap c
    = Done ((if is_binary jb then jperNotFound else jperOk,
             Some (l ++ jb :: descendants jb)), c).
Proof.
  intros fuel jb l unwrap c Hd Hm.
  cbn [executeItemOptUnwrapTarget jspHasNext jspGetNext Z.eqb].
  unfold bind at 1. unfold bind at 1. unfold get at 1.
  unfold bind at 1. unfold modify at 1.
  unfold bind at 1. unfold executeNextItem at 1. cbn [jspGetNext jspHasNext].
  unfold ret at 1. unfold bind at 1. unfold modify at 1. unfold ret at 1.
  cbn [jperIsOk is_null_ptr andb].
  assert (R : set_ignoreStructuralErrors (jspIgnoreStructuralErrors c)
                (set_ignoreStructuralErrors true c) = c)
    by (destruct c; reflexivity).
  rewrite R.
  destruct jb as [| | | |d|]; try reflexivity.
  unfold bind, get. unfold JsonValueListAppend.
  rewrite descent_loop; [|exact Hd|lia|lia].
  rewrite <- app_assoc. reflexivity.
Qed.

(** *** Arithmetic, item methods, subscripts *)

Lemma singleton_scalar_numeric :
  forall seq : JsonValueList,
    singleton_scalar seq tNumeric
    = match singleton_numeric seq with
      | Some n => Some (jbvNumeric n)
      | None => None
      end.
Proof.
  intros [|x [|y rest]]; unfold singleton_scalar, JsonValueListLength.
  - reflexivity.
  - cbn. destruct x; reflexivity.
  - replace (Z.of_nat (List.length (x :: y :: rest)) =? 1) with false;
      [destruct x; reflexivity|].
    symmetry. apply Z.eqb_neq. cbn [List.length]. lia.
Qed.

(** X14. A binary arithmetic operator needs each operand to be exactly one
    numeric item: the left operand is checked first, then the right one, and
    a numeric error of the operation itself (division by zero) is thrown or
    returned as jperError like the others. *)
Theorem binary_arithmetic_on_singletons :
  forall (self : Self) (op : ArithOp) (larg rarg : JsonPathItem)
         (jb : JsonItem) (l lseq rseq : JsonValueList) (unwrap : bool)
         (r1 r2 : JsonPathExecResult) (c c1 c2 : JsonPathExecContext),
    executeItemOptUnwrapResult self larg jb true (Some []) c
    = Done ((r1, Some lseq), c1) ->
    jperIsError r1 = false ->
    executeItemOptUnwrapResult self rarg jb true (Some []) c1
    = Done ((r2, Some rseq), c2) ->
    jperIsError r2 = false ->
    executeItemOptUnwrapTarget self (jpiArithm op larg rarg None) jb (Some l)
      unwrap c
    = match singleton_numeric lseq, singleton_numeric rseq with
      | Some a, Some b =>
          match arithm_func op a b with
          | Some n => Done ((jperOk, Some (l ++ [jbvNumeric n])), c2)
          | None =>
              if throwErrors c2 then Raised (lib_error "numeric")
              else Done ((jperError, Some l), c2)
          end
      | Some _, None =>
          if throwErrors c2 then Raised (operand_error "right")
          else Done ((jperError, Some l), c2)
      | None, _ =>
          if throwErrors c2 then Raised (operand_error "left")
          else Done ((jperError, Some l), c2)
      end.
Proof.
  intros self op larg rarg jb l lseq rseq unwrap r1 r2 c c1 c2 H1 E1 H2 E2.
  cbn [executeItemOptUnwrapTarget]. unfold executeBinaryArithmExpr.
  unfold bind at 1. rewrite H1. cbv beta iota. rewrite E1.
  unfold bind at 1. rewrite H2. cbv beta iota. rewrite E2.
  cbn [found_list]. rewrite !singleton_scalar_numeric.
  destruct (singleton_numeric lseq) as [a|].
  - destruct (singleton_numeric rseq) as [b|].
    + unfold bind, get, jspThrowErrors.
      destruct (arithm_func op a b) as [n|]; [reflexivity|].
      destruct (throwErrors c2); reflexivity.
    + unfold RETURN_ERROR, bind, get, jspThrowErrors.
      destruct (throwErrors c2); reflexivity.
  - unfold RETURN_ERROR, bind, get, jspThrowErrors.
    destruct (throwErrors c2); reflexivity.
Qed.

(** X15. Item methods signal an item of the wrong type as an error in lax
    mode too: neither laxMode nor ignoreStructuralErrors is consulted. *)
Theorem item_methods_reject_other_types :
  forall (self : Self) (next : option JsonPathItem) (jb : JsonItem)
         (found : Found) (unwrap : bool) (c : JsonPathExecContext),
    unwrap && jbvType_eqb (JsonbType jb) tArray = false ->
    (forall m : NumMethod,
        is_numeric jb = false ->
        executeItemOptUnwrapTarget self (jpiNumericMethod m next) jb found
          unwrap c
        = signals
            (ereport ERRCODE_NON_NUMERIC_JSON_ITEM
               "jsonpath item method .%s() can only be applied to a numeric value" "")
            found c)
    /\ (jbvType_eqb (JsonbType jb) tObject = false ->
        executeItemOptUnwrapTarget self (jpiKeyValue next) jb found unwrap c
        = signals
            (ereport ERRCODE_JSON_OBJECT_NOT_FOUND
               "jsonpath item method .%s() can only be applied to an object" "")
            found c)
    /\ (forall larg rarg : option JsonPathItem,
           is_string jb = false ->
           executeItemOptUnwrapTarget self (jpiDatetime larg rarg next) jb found
             unwrap c
           = signals
               (invalid_datetime
                  "jsonpath item method .%s() is applied to not a string" "")
               found c)
    /\ (is_string jb = false -> is_numeric jb = false ->
        executeItemOptUnwrapTarget self (jpiDouble next) jb found unwrap c
        = signals
            (ereport ERRCODE_NON_NUMERIC_JSON_ITEM
               "jsonpath item method .%s() can only be applied to a string or numeric value" "")
            found c).
Proof.
  intros self next jb found unwrap c Hu.
  assert (R : forall e, RETURN_ERROR e (jperError, found) c = signals e found c).
  { intros e. unfold RETURN_ERROR, signals, bind, get, jspThrowErrors.
    destruct (throwErrors c); reflexivity. }
  repeat split.
  - intros m Hn. cbn [executeItemOptUnwrapTarget].
    unfold executeNumericItemMethod. rewrite Hu.
    destruct jb; try discriminate Hn; apply R.
  - intros Ho. cbn [executeItemOptUnwrapTarget]. rewrite Hu.
    unfold executeKeyValueMethod.
    destruct jb; try apply R. rewrite Ho. cbn [negb]. apply R.
  - intros larg rarg Hs. cbn [executeItemOptUnwrapTarget].
    unfold executeDatetimeMethod. rewrite Hu.
    destruct jb; try discriminate Hs; apply R.
  - intros Hs Hn. cbn [executeItemOptUnwrapTarget]. rewrite Hu.
    destruct jb; try discriminate Hs; try discriminate Hn; apply R.
Qed.

(** X16. When the first subscript is out of bounds in strict mode and errors
    are suppressed, the subscript case returns jperError at once and leaves
    innermostArraySize at the size of this array instead of restoring it. *)
Theorem out_of_bounds_subscript_leaves_array_size :
  forall (self : Self) (addr : Z) (elems : list JsonItem)
         (sub : JsonPathItem * option JsonPathItem)
         (rest : list (JsonPathItem * option JsonPathItem))
         (next : option JsonPathItem) (b : Z * Z) (found : Found)
         (unwrap : bool) (c : JsonPathExecContext),
    let jb := jbvBinary (JArray addr false elems) in
    let size := Z.of_nat (List.length elems) in
    ignoreStructuralErrors c = false ->
    throwErrors c = false ->
    subscript_evaluates self jb (set_innermostArraySize size c) sub b ->
    in_bounds size b = false ->
    executeItemOptUnwrapTarget self (jpiIndexArray (sub :: rest) next) jb found
      unwrap c
    = Done ((jperError, found), set_innermostArraySize size c).
Proof.
  intros self addr elems [from to] rest next [bf bt] found unwrap c jb size
         Hign Hthrow [Hfrom Hto] Hb.
  cbn [fst snd] in Hfrom, Hto. subst jb size.
  cbn [executeItemOptUnwrapTarget]. unfold executeIndexArray.
  unfold bind at 1, get at 1.
  cbn [JsonbType JsonContainerIsObject jbvType_eqb orb JsonbArraySize
       JsonContainerIsArray JsonContainerIsScalar negb andb JsonContainerSize].
  set (size := Z.of_nat (List.length elems)) in *.
  replace (size <? 0) with false by (symmetry; apply Z.ltb_ge; subst size; lia).
  cbv iota. unfold bind at 1, modify at 1.
  cbn [foreach]. unfold bind at 1. unfold bind at 1. unfold bind at 1.
  run_with Hfrom. cbn [jperIsError].
  assert (E2 : match to with
               | Some t =>
                   getArrayIndex self t (jbvBinary (JArray addr false elems))
               | None => ret (jperOk, bf)
               end (set_innermostArraySize size c)
               = Done ((jperOk, bt), set_innermostArraySize size c)).
  { destruct to as [t|]; [exact Hto|]. cbn in Hto. subst bt. reflexivity. }
  unfold bind at 1. run_with E2. cbn [jperIsError].
  unfold bind at 1, get at 1.
  unfold jspIgnoreStructuralErrors.
  cbn [set_innermostArraySize ignoreStructuralErrors]. rewrite Hign.
  cbn [negb andb].
  assert (O : (bf <? 0) || (bf >? bt) || (bt >=? size) = true).
  { unfold in_bounds in Hb. cbn [fst snd] in Hb.
    rewrite Z.gtb_ltb, Z.geb_leb.
    destruct (Z.leb_spec 0 bf), (Z.leb_spec bf bt), (Z.ltb_spec bt size);
      try discriminate;
      destruct (Z.ltb_spec bf 0), (Z.ltb_spec bt bf), (Z.leb_spec size bt);
      try reflexivity; lia. }
  rewrite O.
  unfold RETURN_ERROR, bind, get, jspThrowErrors, ret.
  change (throwErrors (set_innermostArraySize size c)) with (throwErrors c).
  rewrite Hthrow. reflexivity.
Qed.

(** *** The interface *)

(** X17. [$name] yields the value of the variable; a variable that is not
    passed is an error that is thrown whatever [throwErrors] is, and so is a
    vars argument that is not an object. *)
Theorem variable_reference :
  forall (more : nat) (lax throwErrors : bool) (json : Jsonb) (name : string),
    let path := {| header_lax := lax; jspInit := jpiVariable name None |} in
    (forall (addr : Z) (pairs : list (string * JsonItem)),
        executeJsonPath (more + 1) path
          (Some {| jsonb_root := JObject addr pairs |}) json throwErrors (Some [])
        = match find_pair name pairs with
          | Some v => Done (jperOk, Some [v])
          | None => Raised undefined_variable
          end)
    /\ executeJsonPath (more + 1) path None json throwErrors (Some [])
       = Raised undefined_variable
    /\ (forall (fuel : nat) (addr : Z) (sc : bool) (elems : list JsonItem),
           executeJsonPath fuel path
             (Some {| jsonb_root := JArray addr sc elems |}) json throwErrors
             (Some [])
           = Raised vars_not_an_object).
Proof.
  intros more lax throwErrors json name path. subst path.
  split; [|split].
  - intros addr pairs.
    assert (E : executeJsonPath 1
                  {| header_lax := lax; jspInit := jpiVariable name None |}
                  (Some {| jsonb_root := JObject addr pairs |}) json
                  throwErrors (Some [])
                = match find_pair name pairs with
                  | Some v => Done (jperOk, Some [v])
                  | None => Raised undefined_variable
                  end).
    { destruct lax, throwErrors; cbv -[find_pair];
        destruct (find_pair name pairs); reflexivity. }
    rewrite executeJsonPath_more_fuel; [exact E|].
    rewrite E. destruct (find_pair name pairs); discriminate.
  - rewrite executeJsonPath_more_fuel;
      destruct lax, throwErrors; cbv; solve [reflexivity | discriminate].
  - intros. reflexivity.
Qed.

(** X18. In strict mode the existence check (no result list) evaluates the
    whole path: its status is the error of the complete evaluation if there
    is one, and otherwise tells whether the complete sequence is empty. *)
Theorem strict_existence_check_is_complete :
  forall (fuel : nat) (jsp : JsonPathItem) (vars : option Jsonb) (json : Jsonb)
         (throwErrors : bool) (res : JsonPathExecResult) (vals : Found),
    let path := {| header_lax := false; jspInit := jsp |} in
    executeJsonPath fuel path vars json throwErrors (Some []) = Done (res, vals) ->
    executeJsonPath fuel path vars json throwErrors None
    = Done (if jperIsError res then res
            else if JsonValueListIsEmpty (found_list vals)
                 then jperNotFound else jperOk,
            None).
Proof.
  intros fuel jsp vars json throwErrors res vals path. subst path.
  unfold executeJsonPath. cbn [jspInit].
  destruct (getJsonPathVariableFromJsonb_count vars) as [e|nvars];
    [discriminate|].
  unfold executeJsonPath_run, bind, pushJsonItem, modify, get.
  cbn [jspStrictAbsenseOfErrors laxMode set_stack initial_context header_lax
       negb is_null_ptr andb].
  match goal with
  | |- context [executeItem ?s ?j ?i ?f ?c] =>
      destruct (executeItem s j i f c) as [[[r v] c']| | |]; try discriminate
  end.
  intros [= -> ->]. destruct (jperIsError res); reflexivity.
Qed.

(** X19. jsonb_path_match ignores the status of the evaluation and looks at
    the items found: one boolean gives this boolean, one null gives NULL,
    and anything else gives NULL when silent and the singleton-boolean error
    otherwise; the operator form, which is always silent, never gives that
    error. *)
Theorem jsonb_path_match_result :
  forall (fuel : nat) (fcinfo : FunctionCallInfo) (res : JsonPathExecResult)
         (items : JsonValueList),
    executeJsonPath fuel (PG_GETARG_JSONPATH_P_1 fcinfo)
      (fst (user_func_vars_silent fcinfo)) (PG_GETARG_JSONB_P_0 fcinfo)
      (negb (snd (user_func_vars_silent fcinfo))) (Some [])
    = Done (res, Some items) ->
    jsonb_path_match fuel fcinfo
    = match items with
      | [jbvBool b] => Done (PG_RETURN_BOOL b)
      | [jbvNull] => Done PG_RETURN_NULL
      | _ => if snd (user_func_vars_silent fcinfo) then Done PG_RETURN_NULL
             else Raised singleton_boolean_required
      end
    /\ (PG_NARGS fcinfo = 2 ->
        jsonb_path_match_opr fuel fcinfo
        = match items with
          | [jbvBool b] => Done (PG_RETURN_BOOL b)
          | _ => Done PG_RETURN_NULL
          end).
Proof.
  intros fuel fcinfo res items.
  destruct (user_func_vars_silent fcinfo) as [vars silent] eqn:U.
  cbn [fst snd]. intros H.
  assert (E : jsonb_path_match fuel fcinfo
              = match items with
                | [jbvBool b] => Done (PG_RETURN_BOOL b)
                | [jbvNull] => Done PG_RETURN_NULL
                | _ => if silent then Done PG_RETURN_NULL
                       else Raised singleton_boolean_required
                end).
  { unfold jsonb_path_match, executeUserFunc. rewrite U, H.
    cbn [map_outcome uf_found uf_silent found_list].
    destruct items as [|x [|y rest]].
    - cbn. destruct silent; reflexivity.
    - cbn. destruct x, silent; reflexivity.
    - replace (JsonValueListLength (x :: y :: rest) =? 1) with false.
      + destruct x, silent; reflexivity.
      + symmetry. apply Z.eqb_neq. unfold JsonValueListLength.
        cbn [List.length]. lia. }
  split; [exact E|].
  intros N. unfold jsonb_path_match_opr. rewrite E.
  destruct fcinfo as [jb jp|jb jp v s]; [|discriminate N].
  cbn in U. injection U as <- <-.
  destruct items as [|[] [|y rest]]; reflexivity.
Qed.

(** X20. jsonb_path_query_first_text is jsonb_path_query_first followed by
    unquoting: NULL when there is no item, and otherwise the first item as
    text, a string (also when it is the scalar of a scalar document) being
    given without its quotes. *)
Theorem query_first_text_unquotes_first :
  forall (X : PgText) (fuel : nat) (fcinfo : FunctionCallInfo),
    jsonb_path_query_first_text fuel fcinfo
    = map_outcome
        (fun r =>
           match r with
           | PG_RETURN_JSONB_P item =>
               map_outcome (fun txt => Done (Some txt)) (JsonItemUnquoteText item)
           | _ => Done None
           end)
        (jsonb_path_query_first fuel fcinfo)
    /\ (forall s : string, JsonItemUnquoteText (jbvString s) = Done s)
    /\ (forall addr s rest,
           JsonItemUnquoteText (jbvBinary (JArray addr true (jbvString s :: rest)))
           = Done s).
Proof.
  intros X fuel fcinfo. split; [|split; reflexivity].
  unfold jsonb_path_query_first_text, jsonb_path_query_first.
  destruct (executeUserFunc fuel fcinfo true false) as [[res [cxt|]]| | |];
    try reflexivity.
  cbn [map_outcome].
  destruct (uf_found cxt) as [|x rest].
  - reflexivity.
  - replace (JsonValueListLength (x :: rest) >=? 1) with true.
    + cbn [JsonValueListHead hd_error map_outcome]. reflexivity.
    + symmetry. rewrite Z.geb_leb. apply Z.leb_le.
      unfold JsonValueListLength. cbn [List.length]. lia.
Qed.

(** *** The result list *)

(** X21. The singleton/list pair of [struct JsonValueList] is a sequence:
    append, length, emptiness test and head agree with the list of items,
    and appending items to the empty list gives back these items. *)
Theorem JsonValueList_struct_is_a_sequence :
  forall (jvl : JsonValueListStruct.JsonValueList) (jbv : JsonItem),
    JsonValueListStruct.JsonValueListGetList
      (JsonValueListStruct.JsonValueListAppend jvl jbv)
    = JsonValueListAppend
        (JsonValueListStruct.JsonValueListGetList jvl) jbv
    /\ JsonValueListStruct.JsonValueListLength jvl
       = JsonValueListLength
           (JsonValueListStruct.JsonValueListGetList jvl)
    /\ JsonValueListStruct.JsonValueListIsEmpty jvl
       = JsonValueListIsEmpty
           (JsonValueListStruct.JsonValueListGetList jvl)
    /\ JsonValueListStruct.JsonValueListHead jvl
       = JsonValueListHead
           (JsonValueListStruct.JsonValueListGetList jvl)
    /\ (forall items : List.list JsonItem,
           JsonValueListStruct.JsonValueListGetList
             (fold_left JsonValueListStruct.JsonValueListAppend items
                JsonValueListStruct.empty)
           = items).
Proof.
  assert (A : forall (jvl : JsonValueListStruct.JsonValueList) (jbv : JsonItem),
             JsonValueListStruct.JsonValueListGetList
               (JsonValueListStruct.JsonValueListAppend jvl jbv)
             = JsonValueListStruct.JsonValueListGetList jvl ++ [jbv])
    by (intros [[s|] [|x rest]] jbv; reflexivity).
  intros jvl jbv. split; [apply A|].
  split; [|split; [|split]]; try (destruct jvl as [[s|] [|x rest]]; reflexivity).
  intros items.
  assert (G : forall (xs : List.list JsonItem) jvl0,
             JsonValueListStruct.JsonValueListGetList
               (fold_left JsonValueListStruct.JsonValueListAppend xs jvl0)
             = JsonValueListStruct.JsonValueListGetList jvl0 ++ xs).
  { induction xs as [|x xs IH]; intros jvl0; cbn [fold_left].
    - now rewrite app_nil_r.
    - rewrite IH, A, <- app_assoc. reflexivity. }
  apply (G items JsonValueListStruct.empty).
Qed.

Lemma iterate_cells :
  forall (jvl : JsonValueListStruct.JsonValueList) (rest : List.list JsonItem)
         (x : JsonItem) (fuel : nat),
    (List.length rest < fuel)%nat ->
    JsonValueListStruct.iterate fuel jvl
      {| JsonValueListStruct.value := Some x;
         JsonValueListStruct.next := rest |}
    = x :: rest.
Proof.
  intros jvl. induction rest as [|y rest IH]; intros x fuel H.
  - destruct fuel as [|[|n]]; try (simpl in H; lia); reflexivity.
  - destruct fuel as [|n]; [simpl in H; lia|].
    cbn [JsonValueListStruct.iterate JsonValueListStruct.JsonValueListNext
         JsonValueListStruct.value JsonValueListStruct.next]. f_equal.
    apply IH. simpl in H. lia.
Qed.

(** X22. The iterator hands out every item of the list once, in order, and
    then NULL. *)
Theorem JsonValueList_iterator_visits_all :
  forall (jvl : JsonValueListStruct.JsonValueList) (fuel : nat),
    (List.length (JsonValueListStruct.JsonValueListGetList jvl) < fuel)%nat ->
    JsonValueListStruct.iterate fuel jvl
      (JsonValueListStruct.JsonValueListInitIterator jvl)
    = JsonValueListStruct.JsonValueListGetList jvl.
Proof.
  intros [[s|] l] fuel H; unfold JsonValueListStruct.JsonValueListInitIterator,
      JsonValueListStruct.JsonValueListGetList in *;
    cbn [JsonValueListStruct.singleton JsonValueListStruct.list] in *.
  - apply iterate_cells. simpl in *. lia.
  - destruct l as [|x rest].
    + destruct fuel; reflexivity.
    + apply iterate_cells. simpl in H. lia.
Qed.


(** *** Unary arithmetic, [.size()] and [.type()], and the strict
    existence check as the user functions show it *)

Lemma foreach_numeric_prefix :
  forall (B : JsonItem -> Res -> Exec (Ctl Res Res)) (g : Numeric -> JsonItem),
    (forall n jper l c,
        B (jbvNumeric n) (jper, Some l) c
        = Done (Next (jperOk, Some (l ++ [g n])), c)) ->
    forall (nums : list Numeric) (tail : list JsonItem) (l : JsonValueList)
           (jper : JsonPathExecResult) (c : JsonPathExecContext),
      foreach (map jbvNumeric nums ++ tail) B (jper, Some l) c
      = foreach tail B
          (match nums with [] => jper | _ => jperOk end,
           Some (l ++ map g nums)) c.
Proof.
  intros B g HB nums tail.
  induction nums as [|n nums IH]; intros l jper c.
  - cbn [map app]. rewrite app_nil_r. reflexivity.
  - cbn [map app foreach]. unfold bind at 1. rewrite HB. cbv beta iota.
    rewrite IH. rewrite <- app_assoc. cbn [app].
    destruct nums; reflexivity.
Qed.

(** X23. Unary plus and minus apply to every item of the operand's
    sequence, arrays unwrapped in lax mode: a sequence of numbers gives the
    numbers (negated by minus) in order, and the status jperNotFound when
    the sequence is empty.  The first item that is not a number is an error,
    and the results of the numbers before it are already in the list. *)
Theorem unary_arithmetic_maps_sequence :
  forall (self : Self) (minus : bool) (arg : JsonPathItem) (jb : JsonItem)
         (l seq : JsonValueList) (unwrap : bool) (r : JsonPathExecResult)
         (c c1 : JsonPathExecContext),
    executeItemOptUnwrapResult self arg jb true (Some []) c
    = Done ((r, Some seq), c1) ->
    jperIsError r = false ->
    (forall nums : list Numeric,
        seq = map jbvNumeric nums ->
        executeItemOptUnwrapTarget self (unary_node minus arg) jb (Some l)
          unwrap c
        = Done ((match nums with [] => jperNotFound | _ => jperOk end,
                 Some (l ++ map (fun n => jbvNumeric (unary_func minus n)) nums)),
                c1))
    /\ (forall (nums : list Numeric) (bad : JsonItem) (rest : list JsonItem),
           seq = map jbvNumeric nums ++ bad :: rest ->
           is_numeric bad = false ->
           executeItemOptUnwrapTarget self (unary_node minus arg) jb (Some l)
             unwrap c
           = signals unary_operand_error
               (Some (l ++ map (fun n => jbvNumeric (unary_func minus n)) nums))
               c1).
Proof.
  intros self minus arg jb l seq unwrap r c c1 E Hr.
  assert (U : forall tail nums, seq = map jbvNumeric nums ++ tail ->
            exists B,
            executeItemOptUnwrapTarget self (unary_node minus arg) jb (Some l)
              unwrap c
            = bind (foreach tail B
                      (match nums with [] => jperNotFound | _ => jperOk end,
                       Some (l ++ map (fun n => jbvNumeric (unary_func minus n))
                                    nums)))
                (fun r => match r with inl s => ret s | inr r => ret r end) c1
            /\ forall bad jper l' c',
                is_numeric bad = false ->
                B bad (jper, Some l') c'
                = match signals unary_operand_error (Some l') c' with
                  | Done (r, c'') => Done (Return r, c'')
                  | Raised e => Raised e
                  | OutOfFuel => OutOfFuel
                  | Undefined => Undefined
                  end).
  { intros tail nums ->.
    destruct minus;
      cbn [unary_node executeItemOptUnwrapTarget];
      unfold executeUnaryArithmExpr;
      unfold bind at 1; run_with E; rewrite Hr;
      cbn [found_list]; unfold bind at 1;
      match goal with
      | |- context [foreach ?vs ?body ?s] => set (B := body)
      end;
      exists B;
      (split;
       [ match goal with
         | |- context [unary_func ?m] =>
             rewrite (foreach_numeric_prefix B
                        (fun n => jbvNumeric (unary_func m n)))
               by (intros; subst B; reflexivity)
         end;
         reflexivity
       | intros bad jper l' c' Hbad; subst B;
         destruct bad; try discriminate Hbad;
         unfold signals, unary_operand_error; cbn;
         unfold bind, RETURN_ERROR, get, jspThrowErrors, bind; cbn;
         destruct (throwErrors c'); reflexivity ]). }
  split.
  - intros nums ->.
    destruct (U [] nums) as [B [-> _]]; [symmetry; apply app_nil_r|].
    reflexivity.
  - intros nums bad rest -> Hbad.
    destruct (U (bad :: rest) nums) as [B [-> HB]]; [reflexivity|].
    unfold bind. cbn [foreach]. unfold bind. rewrite HB by exact Hbad.
    unfold signals. destruct (throwErrors c1); reflexivity.
Qed.

(** X24. [.type()] yields the name of the item's type, whatever the item.
    [.size()] yields the number of elements of an array; for anything else,
    the scalar pseudo-array included, it yields 1 in lax mode and in strict
    mode signals the array-not-found error (nothing when structural errors
    are ignored).  Neither method unwraps an array, whatever [unwrap] is. *)
Theorem size_and_type_methods :
  forall (self : Self) (jb : JsonItem) (l : JsonValueList) (unwrap : bool)
         (c : JsonPathExecContext),
    executeItemOptUnwrapTarget self (jpiType None) jb (Some l) unwrap c
    = Done ((jperOk, Some (l ++ [jbvString (JsonItemTypeName jb)])), c)
    /\ executeItemOptUnwrapTarget self (jpiSize None) jb (Some l) unwrap c
       = match jb with
         | jbvBinary (JArray _ false elems) =>
             Done ((jperOk,
                    Some (l ++ [jbvNumeric
                                  (int4_numeric (Z.of_nat (List.length elems)))])),
                   c)
         | _ =>
             if laxMode c
             then Done ((jperOk, Some (l ++ [jbvNumeric (int4_numeric 1)])), c)
             else if ignoreStructuralErrors c
                  then Done ((jperNotFound, Some l), c)
                  else signals
                         (ereport ERRCODE_JSON_ARRAY_NOT_FOUND
                            "jsonpath item method .%s() can only be applied to an array" "")
                         (Some l) c
         end.
Proof.
  intros self jb l unwrap c. split.
  - reflexivity.
  - cbn [executeItemOptUnwrapTarget].
    unfold bind, get, jspAutoWrap, jspIgnoreStructuralErrors, signals,
      RETURN_ERROR, jspThrowErrors, bind, get.
    assert (N : forall elems : list JsonItem,
               (Z.of_nat (List.length elems) <? 0) = false)
      by (intros; apply Z.ltb_ge; lia).
    destruct jb as [| | | |[addr [|] elems|addr pairs]|];
      cbn [JsonbArraySize JsonContainerIsArray JsonContainerIsScalar
           JsonContainerSize andb negb];
      try rewrite N; cbn [andb negb];
      try change (-1 <? 0) with true; cbn [andb negb];
      destruct (laxMode c), (ignoreStructuralErrors c);
      cbn [negb]; cbv beta iota; try reflexivity;
      destruct (throwErrors c); reflexivity.
Qed.

(** X25. For a strict path, whenever jsonb_path_query returns its rows
    jsonb_path_exists tells whether there is at least one row; it is NULL
    instead only when errors are silenced (and the evaluation met one). *)
Theorem strict_exists_agrees_with_query :
  forall (fuel : nat) (fcinfo : FunctionCallInfo) (rows : JsonValueList),
    header_lax (PG_GETARG_JSONPATH_P_1 fcinfo) = false ->
    jsonb_path_query fuel fcinfo = Done (SRF_ROWS rows) ->
    jsonb_path_exists fuel fcinfo
    = Done (PG_RETURN_BOOL (negb (JsonValueListIsEmpty rows)))
    \/ (snd (user_func_vars_silent fcinfo) = true
        /\ jsonb_path_exists fuel fcinfo = Done PG_RETURN_NULL).
Proof.
  intros fuel fcinfo rows Hstrict.
  unfold jsonb_path_query, jsonb_path_exists, executeUserFunc.
  destruct (user_func_vars_silent fcinfo) as [vars silent]. cbn [snd].
  unfold executeJsonPath.
  destruct (getJsonPathVariableFromJsonb_count vars) as [e|nvars];
    [discriminate|].
  destruct (asserted_unroll fuel) as [Aitem Aany].
  destruct (keeps_unroll fuel) as [Kitem [Kbool Kany]].
  pose proof (asserted_executeItem (unroll fuel) Kitem Aitem) as AI.
  unfold executeJsonPath_run, bind, pushJsonItem, modify, get.
  match goal with
  | |- context [jspStrictAbsenseOfErrors ?c] =>
      replace (jspStrictAbsenseOfErrors c) with true
        by (cbv [jspStrictAbsenseOfErrors set_stack initial_context laxMode];
            rewrite Hstrict; reflexivity)
  end.
  cbn [is_null_ptr andb].
  match goal with
  | |- context [executeItem ?s ?j ?i ?f ?c] =>
      pose proof (AI j i f c) as W; unfold wp in W;
      destruct (executeItem s j i f c) as [[[r v] c']| | |]; try discriminate
  end.
  cbn [map_outcome found_list]. intros [= <-].
  destruct (jperIsError r) eqn:Er; unfold ret; cbn [map_outcome].
  - destruct silent.
    + right. rewrite Er. split; reflexivity.
    + cbn [negb throwErrors initial_context set_stack] in W.
      specialize (W eq_refl). cbn [fst] in W. congruence.
  - left. destruct v as [[|x v]|]; reflexivity.
Qed.

End Properties.

(** * The properties on concrete documents *)

Import Test.

(** Runs a path on a document, at whatever depth is enough. *)
Ltac run_path :=
  intros; rewrite executeJsonPath_more_fuel;
  vm_compute; solve [reflexivity | discriminate].

(** ** The executor on small documents *)

(** [$.a.b[1]] over [{"a": {"b": [1, 2, 3]}}] is [2], lax or strict. *)
Example member_then_subscript :
  forall (more : nat) (lax : bool),
    executeJsonPath (more + 10) {| header_lax := lax; jspInit := a_b_1 |}
      None doc_a_b true (Some [])
    = Done (jperOk, Some [num 2]).
Proof. intros more []; run_path. Qed.

(** [$[*] ? (@.x >= 2)] over [[{"x": 1}, {"x": 2}, {"x": 3}]] keeps the last
    two objects, lax or strict. *)
Example filter_on_member :
  forall (more : nat) (lax : bool),
    executeJsonPath (more + 10) {| header_lax := lax; jspInit := filter_x_ge2 |}
      None doc_xs true (Some [])
    = Done (jperOk, Some [obj 4128 [("x", num 2)]; obj 4144 [("x", num 3)]]).
Proof. intros more []; run_path. Qed.

(** [$.a[1 to last]] over [{"a": [10, 20, 30, 40]}] is [20, 30, 40]. *)
Example range_to_last :
  forall more : nat,
    executeJsonPath (more + 10) (strict a_1_to_last) None doc_a_10_40 true
      (Some [])
    = Done (jperOk, Some [num 20; num 30; num 40]).
Proof. run_path. Qed.

(** [$ ? ((@.a == 1) && (@.b == "x"))] over [{"a": 1, "b": "x"}] keeps the
    document; with ["y"] it keeps nothing. *)
Example filter_with_and :
  forall more : nat,
    executeJsonPath (more + 10) (strict (filter_a1_b "x")) None doc_a1_bx true
      (Some [])
    = Done (jperOk, Some [JsonbInitBinary doc_a1_bx])
    /\ executeJsonPath (more + 10) (strict (filter_a1_b "y")) None doc_a1_bx
         true (Some [])
       = Done (jperNotFound, Some []).
Proof. split; run_path. Qed.

(** [$.missing] over [{}]: strict throws the member-not-found error, or
    returns jperError when errors are suppressed; lax finds nothing. *)
Example missing_member :
  forall more : nat,
    executeJsonPath (more + 10) (strict missing) None doc_empty true (Some [])
    = Raised (ereport ERRCODE_JSON_MEMBER_NOT_FOUND
                "JSON object does not contain key %s" "")
    /\ executeJsonPath (more + 10) (strict missing) None doc_empty false
         (Some [])
       = Done (jperError, Some [])
    /\ executeJsonPath (more + 10) (lax missing) None doc_empty true (Some [])
       = Done (jperNotFound, Some []).
Proof. repeat split; run_path. Qed.

(** ** The claims on their documents *)

(** C1, counterexample: [$.k.keyvalue()] over [{"k": {"a": 1, "b": 2}}] gives
    two objects whose ids are both 16, the offset of the container of "k":
    the ids are not distinct. *)
Lemma keyvalue_ids_counterexample :
  executeJsonPath 10 (strict k_keyvalue) None doc_k true (Some [])
  = Done (jperOk, Some [kv "a" (num 1) 16; kv "b" (num 2) 16]).
Proof. vm_compute. reflexivity. Qed.

(** C2, counterexample: the strict evaluation of [$[*] ? (@ > 0)] over
    [[1, "two", 3]] is not an error, whether errors are thrown or not. *)
Lemma strict_filter_counterexample :
  executeJsonPath 10 (strict filter_gt0) None doc_1_two_3 true (Some [])
  = Done (jperOk, Some [num 1; num 3])
  /\ executeJsonPath 10 (strict filter_gt0) None doc_1_two_3 false (Some [])
     = Done (jperOk, Some [num 1; num 3]).
Proof. split; vm_compute; reflexivity. Qed.

(** C2 (as the code has it).  Over [[1, "two", 3]] the path
    [$[*] ? (@ > 0)] returns the sequence [1, 3] in strict mode as in lax
    mode: the pair ["two" > 0] is unknown, and a filter whose predicate is
    not true drops the item without an error. *)
Theorem filter_drops_unknown :
  (forall (more : nat) (throwErrors : bool),
      executeJsonPath (more + 10) (strict filter_gt0) None doc_1_two_3
        throwErrors (Some [])
      = Done (jperOk, Some [num 1; num 3])
      /\ executeJsonPath (more + 10) (lax filter_gt0) None doc_1_two_3
           throwErrors (Some [])
         = Done (jperOk, Some [num 1; num 3]))
  /\ compareItems jpiGreater (jbvString "two") (num 0) = jpbUnknown
  /\ (forall (self : Self) elem next jb found cxt cxt' st,
         executeNestedBoolItem self elem jb cxt = Done (st, cxt') ->
         st <> jpbTrue ->
         executeItemOptUnwrapTarget self (jpiFilter elem next) jb found false cxt
         = Done ((jperNotFound, found), cxt')).
Proof.
  split; [|split; [reflexivity | exact filter_not_true]].
  intros more throwErrors.
  split; destruct throwErrors; run_path.
Qed.

(** C2, witness: the filter [? (@ > 0)] on the item ["two"] in strict mode. *)
Lemma filter_drops_unknown_witness :
  executeItemOptUnwrapTarget (unroll 10)
    (jpiFilter (jpiComparison jpiGreater (jpiCurrent None) (lit 0) None) None)
    (jbvString "two") (Some []) false (context (strict filter_gt0) true)
  = Done ((jperNotFound, Some []), context (strict filter_gt0) true).
Proof.
  refine (proj2 (proj2 filter_drops_unknown) (unroll 10) _ None
            (jbvString "two") (Some []) _ _ jpbUnknown _ _).
  - vm_compute. reflexivity.
  - discriminate.
Defined.

(** C3, counterexample: [(1 == 1) && (1 == 2)] is false although its left
    operand is true and its right operand is not unknown, and
    [("a" == 1) && (1 == 2)] is false, not unknown. *)
Lemma and_counterexample :
  executeBoolItem (unroll 10) one_eq_one jbvNull false (context (strict one_eq_one) true)
  = Done (jpbTrue, context (strict one_eq_one) true)
  /\ executeBoolItem (unroll 10) one_eq_two jbvNull false (context (strict one_eq_one) true)
     = Done (jpbFalse, context (strict one_eq_one) true)
  /\ executeBoolItem (unroll 10) (jpiAnd one_eq_one one_eq_two None) jbvNull false
       (context (strict one_eq_one) true)
     = Done (jpbFalse, context (strict one_eq_one) true)
  /\ executeBoolItem (unroll 10) a_eq_one jbvNull false (context (strict one_eq_one) true)
     = Done (jpbUnknown, context (strict one_eq_one) true)
  /\ executeBoolItem (unroll 10) (jpiAnd a_eq_one one_eq_two None) jbvNull false
       (context (strict one_eq_one) true)
     = Done (jpbFalse, context (strict one_eq_one) true).
Proof. repeat split; vm_compute; reflexivity. Qed.

(** C3, witness: [(1 == 1) && (1 == 2)]. *)
Lemma executeBoolItem_and_witness :
  executeBoolItem (unroll 6) (jpiAnd one_eq_one one_eq_two None) jbvNull true
    (context (strict one_eq_one) true)
  = Done (jpb_and jpbTrue jpbFalse, context (strict one_eq_one) true).
Proof.
  refine (proj2 (executeBoolItem_and 5 one_eq_one one_eq_two jbvNull true
                   (context (strict one_eq_one) true)
                   (context (strict one_eq_one) true) jpbTrue _)
            jpbFalse (context (strict one_eq_one) true) _ _).
  - vm_compute. reflexivity.
  - discriminate.
  - vm_compute. reflexivity.
Defined.



(** C5, witness: [$[*] > 0] over [[1, "two", 3]] in lax mode pairs 1, "two"
    and 3 with 0. *)
Lemma comparison_predicate_result_witness :
  executeBoolItem (unroll 10) all_gt0 jbvNull true (context (lax all_gt0) true)
  = Done (predicate_spec false
            (pair_results (compareItems jpiGreater)
               [num 1; jbvString "two"; num 3] [num 0]),
          context (lax all_gt0) true).
Proof.
  refine (comparison_predicate_result (unroll 10) jpiGreater
            (jpiRoot (Some (jpiAnyArray None))) (lit 0) None jbvNull
            (context (lax all_gt0) true) (context (lax all_gt0) true)
            (context (lax all_gt0) true) jperOk jperOk
            [num 1; jbvString "two"; num 3] [num 0] _ _ _ _).
  - vm_compute. reflexivity.
  - reflexivity.
  - vm_compute. reflexivity.
  - reflexivity.
Defined.

(** C6, counterexample: in strict mode, with errors thrown, [$.**[5]] over
    [[1, 2]] has a subscript with index_to >= size and yet signals no
    error: inside the [.**] descent the subscript is clamped. *)
Lemma strict_subscript_counterexample :
  executeJsonPath 10 (strict any_index5) None doc_1_2 true (Some [])
  = Done (jperNotFound, Some []).
Proof. vm_compute. reflexivity. Qed.

(** C6, witness: the subscripts [[-1 to 5, 0]] on [[1, 2]] in lax mode. *)
Lemma index_array_bounds_witness :
  exists res : JsonPathExecResult,
    executeItemOptUnwrapTarget (unroll 10)
      (jpiIndexArray subs_m1_to_5_and_0 None)
      (jbvBinary (JArray 4096 false elems_1_2)) (Some []) false
      (context (lax all_gt0) true)
    = Done ((res, Some ([] ++ flat_map (clamped_slice elems_1_2)
                                [(-1, 5); (0, 0)])),
            context (lax all_gt0) true)
    /\ jperIsError res = false.
Proof.
  refine (proj1 (proj2 (index_array_bounds (unroll 10) 4096 elems_1_2
                          subs_m1_to_5_and_0 [(-1, 5); (0, 0)] [] false
                          (context (lax all_gt0) true) _)) _).
  - repeat constructor; vm_compute; reflexivity.
  - left. reflexivity.
Defined.

(** C8, witness: [null < 1]. *)
Lemma compareItems_null_witness :
  compareItems jpiLess jbvNull (num 1) = jpbFalse.
Proof.
  exact (compareItems_null_against_non_null jpiLess jbvNull (num 1) eq_refl).
Defined.

(** C10, counterexample: [jsonb_path_query_array] called with two arguments
    on [[1, "a"]] and [lax $[*].abs()].  The executor stops with jperError at
    "a", and the function returns the array [[1]], which is neither NULL nor
    empty. *)
Lemma two_argument_form_counterexample :
  executeJsonPath 10 (lax all_abs) None doc_1_a false (Some [])
  = Done (jperError, Some [num 1])
  /\ jsonb_path_query_array 10 (fcinfo2 doc_1_a (lax all_abs))
     = Done (PG_RETURN_JSONB_ARRAY [num 1])
  /\ jsonb_path_query_first 10 (fcinfo2 doc_1_a (lax all_abs))
     = Done (PG_RETURN_JSONB_P (num 1)).
Proof. repeat split; vm_compute; reflexivity. Qed.

(** C10, witness: the same call; and [jsonb_path_exists] on a strict
    [$[5]] over [[1, 2]] returns NULL. *)
Lemma two_argument_form_is_silent_witness :
  jsonb_path_query_array 10 (fcinfo2 doc_1_a (lax all_abs))
  = Done (PG_RETURN_JSONB_ARRAY (found_list (Some [num 1])))
  /\ jsonb_path_exists 10
       (fcinfo2 doc_1_2
          (strict (jpiRoot (Some (jpiIndexArray [(lit 5, None)] None)))))
     = Done PG_RETURN_NULL.
Proof.
  split.
  - refine (proj1 (proj2 (proj2 (proj2 (proj2
              (two_argument_form_is_silent 10 doc_1_a (lax all_abs))))
              jperError (Some [num 1]) _))).
    vm_compute. reflexivity.
  - refine (proj1 (proj2 (proj2
              (two_argument_form_is_silent 10 doc_1_2
                 (strict (jpiRoot (Some (jpiIndexArray [(lit 5, None)] None)))))))
              None _).
    vm_compute. reflexivity.
Defined.

(** ** The further properties on their documents *)

(** X1, witness: [$.k.keyvalue()] over [{"k": {"a": 1, "b": 2}}] leaves the
    context as it was, with two more objects generated. *)
Lemma evaluation_restores_context_witness :
  frame (context_of doc_k (strict k_keyvalue) true)
    (set_lastGeneratedObjectId 3 (context_of doc_k (strict k_keyvalue) true)).
Proof.
  refine (proj1 (evaluation_restores_context 5) k_keyvalue
            (JsonbInitBinary doc_k) (Some []) false
            (context_of doc_k (strict k_keyvalue) true)
            (jperOk, Some [kv "a" (num 1) 16; kv "b" (num 2) 16]) _ _).
  vm_compute. reflexivity.
Defined.

(** X2, witness: [$[*] ? (@ > 0)] over [[1, "two", 3]], started with a list
    that holds 7. *)
Lemma found_list_is_append_only_witness :
  extends (Some [num 7]) (Some [num 7; num 1; num 3]).
Proof.
  refine (found_list_is_append_only 10 (strict filter_gt0) None doc_1_two_3
            true (Some [num 7]) (Some [num 7; num 1; num 3]) jperOk _).
  vm_compute. reflexivity.
Defined.

(** X3, witness: the same path with errors thrown. *)
Lemma throwing_evaluation_returns_no_error_witness :
  jperIsError jperOk = false.
Proof.
  refine (throwing_evaluation_returns_no_error 10 (strict filter_gt0) None
            doc_1_two_3 (Some []) (Some [num 1; num 3]) jperOk _).
  vm_compute. reflexivity.
Defined.

(** X4, witness: the error that [$x == 1] throws when no variable is passed
    is not a suppressible one. *)
Lemma predicate_throws_no_suppressible_error_witness :
  suppressible undefined_variable = false.
Proof.
  refine (predicate_throws_no_suppressible_error 5
            (jpiComparison jpiEqual (jpiVariable "x" None) (lit 1) None)
            jbvNull true (context (strict filter_gt0) true) undefined_variable _).
  vm_compute. reflexivity.
Defined.

(** X5, witness: [(1 == 2) || (1 == 1)]. *)
Lemma executeBoolItem_or_witness :
  executeBoolItem (unroll 6) (jpiOr one_eq_two one_eq_one None) jbvNull true
    (context (strict one_eq_one) true)
  = Done (jpb_or jpbFalse jpbTrue, context (strict one_eq_one) true).
Proof.
  refine (proj2 (executeBoolItem_or 5 one_eq_two one_eq_one jbvNull true
                   (context (strict one_eq_one) true)
                   (context (strict one_eq_one) true) jpbFalse _)
            jpbTrue (context (strict one_eq_one) true) _ _).
  - vm_compute. reflexivity.
  - discriminate.
  - vm_compute. reflexivity.
Defined.

(** X6, witness: [!("a" == 1)] and [("a" == 1) is unknown]. *)
Lemma executeBoolItem_not_is_unknown_witness :
  executeBoolItem (unroll 6) (jpiNot a_eq_one None) jbvNull true
    (context (strict one_eq_one) true)
  = Done (jpb_not jpbUnknown, context (strict one_eq_one) true)
  /\ executeBoolItem (unroll 6) (jpiIsUnknown a_eq_one None) jbvNull true
       (context (strict one_eq_one) true)
     = Done (jpbTrue, context (strict one_eq_one) true).
Proof.
  refine (executeBoolItem_not_is_unknown 5 a_eq_one jbvNull true
            (context (strict one_eq_one) true)
            (context (strict one_eq_one) true) jpbUnknown _).
  vm_compute. reflexivity.
Defined.

(** X7, witness: [true < 1] is unknown because [1 == true] is. *)
Lemma compareItems_unknown_symmetric_witness :
  compareItems jpiLess (jbvBool true) (num 1) = jpbUnknown.
Proof.
  refine (proj1 (compareItems_unknown_symmetric jpiEqual jpiLess (num 1)
                   (jbvBool true)) _).
  reflexivity.
Defined.

(** X8, witness: [1 != 2] and [1 >= 2]. *)
Lemma compareItems_negation_witness :
  compareItems jpiNotEqual (num 1) (num 2)
  = jpb_not (compareItems jpiEqual (num 1) (num 2))
  /\ compareItems jpiGreaterOrEqual (num 1) (num 2)
     = jpb_not (compareItems jpiLess (num 1) (num 2)).
Proof.
  split.
  - exact (proj1 (compareItems_negation (num 1) (num 2)) eq_refl).
  - exact (proj1 (proj2 (compareItems_negation (num 1) (num 2)) eq_refl)).
Defined.

(** X10, witness: [$] over [[[1, 2], 3]] in lax mode, unwrapped. *)
Lemma lax_unwraps_result_arrays_witness :
  executeItemOptUnwrapResult (unroll 5) (jpiRoot None) jbvNull true (Some [])
    (context_of doc_nested (lax (jpiRoot None)) true)
  = Done ((jperOk, Some [arr 4112 [num 1; num 2]; num 3]),
          context_of doc_nested (lax (jpiRoot None)) true).
Proof.
  refine (lax_unwraps_result_arrays (unroll 5) (jpiRoot None) jbvNull []
            [JsonbInitBinary doc_nested] jperOk
            (context_of doc_nested (lax (jpiRoot None)) true)
            (context_of doc_nested (lax (jpiRoot None)) true) _ _).
  - reflexivity.
  - vm_compute. reflexivity.
Defined.

(** X12, witness: [.x] over the elements of [[{"x": 1}, {"x": 2}, {"x": 3}]]. *)
Lemma lax_member_accessor_unwraps_array_witness :
  exists res : JsonPathExecResult,
    executeItemOptUnwrapTarget (unroll 3) (jpiKey "x" None)
      (JsonbInitBinary doc_xs) (Some []) true
      (context_of doc_xs (lax (jpiRoot None)) true)
    = Done ((res, Some [num 1; num 2; num 3]),
            context_of doc_xs (lax (jpiRoot None)) true)
    /\ jperIsError res = false.
Proof.
  exact (lax_member_accessor_unwraps_array 2 "x" 4096 false
           [obj 4112 [("x", num 1)]; obj 4128 [("x", num 2)];
            obj 4144 [("x", num 3)]] []
           (context_of doc_xs (lax (jpiRoot None)) true) eq_refl).
Defined.

(** X13, witness: [.**] over [{"k": {"a": 1, "b": 2}}]. *)
Lemma recursive_descent_collects_descendants_witness :
  executeItemOptUnwrapTarget (unroll 5) (jpiAny 0 PG_UINT32_MAX None)
    (JsonbInitBinary doc_k) (Some []) false
    (context_of doc_k (strict (jpiRoot None)) true)
  = Done ((jperNotFound,
           Some [JsonbInitBinary doc_k;
                 obj 4112 [("a", num 1); ("b", num 2)]; num 1; num 2]),
          context_of doc_k (strict (jpiRoot None)) true).
Proof.
  refine (recursive_descent_collects_descendants 5 (JsonbInitBinary doc_k) []
            false (context_of doc_k (strict (jpiRoot None)) true) _ _).
  - vm_compute. lia.
  - reflexivity.
Defined.

(** X14, witness: [1 + 2]. *)
Lemma binary_arithmetic_on_singletons_witness :
  executeItemOptUnwrapTarget (unroll 5) (jpiArithm jpiAdd (lit 1) (lit 2) None)
    jbvNull (Some []) false (context (strict one_eq_one) true)
  = Done ((jperOk, Some [jbvNumeric (inject_Z 1 + inject_Z 2)%Q]),
          context (strict one_eq_one) true).
Proof.
  refine (binary_arithmetic_on_singletons (unroll 5) jpiAdd (lit 1) (lit 2)
            jbvNull [] [num 1] [num 2] false jperOk jperOk
            (context (strict one_eq_one) true)
            (context (strict one_eq_one) true)
            (context (strict one_eq_one) true) _ _ _ _).
  - vm_compute. reflexivity.
  - reflexivity.
  - vm_compute. reflexivity.
  - reflexivity.
Defined.

(** X15, witness: [.abs()] of the string "a" in lax mode. *)
Lemma item_methods_reject_other_types_witness :
  executeItemOptUnwrapTarget (unroll 5) (jpiNumericMethod jpiAbs None)
    (jbvString "a") (Some []) true (context (lax all_abs) false)
  = Done ((jperError, Some []), context (lax all_abs) false).
Proof.
  refine (proj1 (item_methods_reject_other_types (unroll 5) None
                   (jbvString "a") (Some []) true (context (lax all_abs) false)
                   _) jpiAbs _).
  - reflexivity.
  - reflexivity.
Defined.

(** X16, witness: [[5]] on [[1, 2]] in strict mode with errors suppressed. *)
Lemma out_of_bounds_subscript_leaves_array_size_witness :
  executeItemOptUnwrapTarget (unroll 5) (jpiIndexArray [(lit 5, None)] None)
    (jbvBinary (JArray 4096 false elems_1_2)) (Some []) false
    (context_of doc_1_2 (strict (jpiRoot None)) false)
  = Done ((jperError, Some []),
          set_innermostArraySize 2
            (context_of doc_1_2 (strict (jpiRoot None)) false)).
Proof.
  refine (out_of_bounds_subscript_leaves_array_size (unroll 5) 4096 elems_1_2
            (lit 5, None) [] None (5, 5) (Some []) false
            (context_of doc_1_2 (strict (jpiRoot None)) false) _ _ _ _).
  - reflexivity.
  - reflexivity.
  - split; vm_compute; reflexivity.
  - reflexivity.
Defined.

(** What X16 means for [last]: in [$[0, last] ? ((exists (@[5])) is unknown)]
    over [[[1], 2, 3]] the filter on the first element leaves
    innermostArraySize at 1, so [last] is 0 and the first element comes
    twice; without the filter [last] is 2. *)
Example last_after_failed_subscript :
  executeJsonPath 8 (strict (first_and_last (Some probe_index5))) None
    doc_1_in_array true (Some [])
  = Done (jperOk, Some [arr 4112 [num 1]; arr 4112 [num 1]])
  /\ executeJsonPath 8 (strict (first_and_last None)) None doc_1_in_array true
       (Some [])
     = Done (jperOk, Some [arr 4112 [num 1]; num 3]).
Proof. split; vm_compute; reflexivity. Qed.

(** X18, witness: strict [$[5]] over [[1, 2]] with errors suppressed. *)
Lemma strict_existence_check_is_complete_witness :
  executeJsonPath 10
    (strict (jpiRoot (Some (jpiIndexArray [(lit 5, None)] None))))
    None doc_1_2 false None
  = Done (jperError, None).
Proof.
  refine (strict_existence_check_is_complete 10
            (jpiRoot (Some (jpiIndexArray [(lit 5, None)] None)))
            None doc_1_2 false jperError (Some []) _).
  vm_compute. reflexivity.
Defined.

(** X19, witness: [$[*] > 0] over [[1, "two", 3]] in lax mode. *)
Lemma jsonb_path_match_result_witness :
  jsonb_path_match 10 (fcinfo2 doc_1_two_3 (lax all_gt0))
  = Done (PG_RETURN_BOOL true).
Proof.
  refine (proj1 (jsonb_path_match_result 10 (fcinfo2 doc_1_two_3 (lax all_gt0))
                   jperOk [jbvBool true] _)).
  vm_compute. reflexivity.
Defined.

(** X22, witness: the list 1, 2, 3 as the struct holds it. *)
Lemma JsonValueList_iterator_visits_all_witness :
  JsonValueListStruct.iterate 5
    {| JsonValueListStruct.singleton := None;
       JsonValueListStruct.list := [num 1; num 2; num 3] |}
    (JsonValueListStruct.JsonValueListInitIterator
       {| JsonValueListStruct.singleton := None;
          JsonValueListStruct.list := [num 1; num 2; num 3] |})
  = [num 1; num 2; num 3].
Proof.
  refine (JsonValueList_iterator_visits_all
            {| JsonValueListStruct.singleton := None;
               JsonValueListStruct.list := [num 1; num 2; num 3] |} 5%nat _).
  vm_compute. lia.
Defined.

(** X23, witness: [-$] over [[1, "two", 3]] in lax mode with errors
    suppressed: the error at "two" leaves -1 in the list. *)
Lemma unary_arithmetic_maps_sequence_witness :
  executeItemOptUnwrapTarget (unroll 5) (unary_node true (jpiRoot None))
    (JsonbInitBinary doc_1_two_3) (Some []) false
    (context (lax (jpiMinus (jpiRoot None) None)) false)
  = Done ((jperError, Some [jbvNumeric (numeric_uminus (inject_Z 1))]),
          context (lax (jpiMinus (jpiRoot None) None)) false).
Proof.
  refine (proj2 (unary_arithmetic_maps_sequence (unroll 5) true (jpiRoot None)
                   (JsonbInitBinary doc_1_two_3) []
                   [num 1; jbvString "two"; num 3] false jperOk
                   (context (lax (jpiMinus (jpiRoot None) None)) false)
                   (context (lax (jpiMinus (jpiRoot None) None)) false) _ _)
            [inject_Z 1] (jbvString "two") [num 3] _ _).
  - vm_compute. reflexivity.
  - reflexivity.
  - reflexivity.
  - reflexivity.
Defined.

(** X25, witness: strict [$[*] ? (@ > 0)] over [[1, "two", 3]], errors not
    silenced: two rows, and jsonb_path_exists is true. *)
Lemma strict_exists_agrees_with_query_witness :
  jsonb_path_exists 10 (fcinfo4 doc_1_two_3 (strict filter_gt0) doc_empty false)
  = Done (PG_RETURN_BOOL (negb (JsonValueListIsEmpty [num 1; num 3])))
  \/ (snd (user_func_vars_silent
             (fcinfo4 doc_1_two_3 (strict filter_gt0) doc_empty false)) = true
      /\ jsonb_path_exists 10
           (fcinfo4 doc_1_two_3 (strict filter_gt0) doc_empty false)
         = Done PG_RETURN_NULL).
Proof.
  refine (strict_exists_agrees_with_query 10
            (fcinfo4 doc_1_two_3 (strict filter_gt0) doc_empty false)
            [num 1; num 3] _ _).
  - reflexivity.
  - vm_compute. reflexivity.
Defined.
